(** * ai-excel: the typed-cell engine of the workbook

    A shallow embedding of the validation, formatting, computed-column,
    reshape, fill-down and state-loading code of the repository
    ([DataGrid.tsx], [SpreadsheetGrid.tsx], [Workbook.tsx],
    [ColumnPanel.tsx], [SchemaBuilder.tsx]) together with the part of the
    ECMAScript library that code calls.

    Conventions.
    - A JavaScript string is a [string]: one [ascii] per code unit, so the
      development covers strings whose code units are below 256.
    - A JavaScript Number is a [spec_float] of the binary64 format
      (53 bits of precision, exponents up to 1024).
    - A thrown exception is the [Throw] completion. *)

From Stdlib Require Import ZArith NArith List String Ascii Bool Lia.
From Stdlib Require Import Floats.SpecFloat.
From stdpp Require Import base option list gmap strings.

#[local] Set Warnings "-register-all".
Local Open Scope string_scope.
Local Open Scope Z_scope.

(* ================================================================== *)
(** * Part I. The ECMAScript operations the repository relies on       *)
(* ================================================================== *)

Module JS.

(** ** Completions: a value, or a thrown exception *)

Inductive exn := RangeError | TypeError | SyntaxError.

Inductive completion (A : Type) :=
  | Normal (a : A)
  | Throw (e : exn).
Arguments Normal {A} a.
Arguments Throw {A} e.

Definition bindC {A B} (c : completion A) (k : A -> completion B) : completion B :=
  match c with
  | Normal a => k a
  | Throw e => Throw e
  end.

(** ** Strings *)

(** WhiteSpace and LineTerminator code units below 256: TAB, LF, VT, FF,
    CR, SP and NBSP.  [String.prototype.trim] and the regular-expression
    class [\s] use the same set. *)
Definition isWhiteSpace (c : ascii) : bool :=
  let n := N_of_ascii c in
  ((9 <=? n) && (n <=? 13) || (n =? 32) || (n =? 160))%N.

Fixpoint trimStart (s : string) : string :=
  match s with
  | EmptyString => EmptyString
  | String c s' => if isWhiteSpace c then trimStart s' else s
  end.

Fixpoint trimEnd (s : string) : string :=
  match s with
  | EmptyString => EmptyString
  | String c s' =>
      match trimEnd s' with
      | EmptyString => if isWhiteSpace c then EmptyString else String c EmptyString
      | t => String c t
      end
  end.

(** [s.trim()] *)
Definition trim (s : string) : string := trimEnd (trimStart s).

(** [s.replace(/[...]/g, "")] for a character class given as a predicate *)
Fixpoint removeAll (cls : ascii -> bool) (s : string) : string :=
  match s with
  | EmptyString => EmptyString
  | String c s' => if cls c then removeAll cls s' else String c (removeAll cls s')
  end.

(** truthiness of a string: [!s] is true exactly for the empty string *)
Definition isEmpty (s : string) : bool :=
  match s with EmptyString => true | _ => false end.

(** [xs.join(sep)] *)
Fixpoint join (sep : string) (xs : list string) : string :=
  match xs with
  | [] => ""
  | [x] => x
  | x :: rest => x +:+ sep +:+ join sep rest
  end.

(** [xs.includes(v)] on an array of strings *)
Definition includes (xs : list string) (v : string) : bool :=
  existsb (String.eqb v) xs.

(** [String.fromCharCode("A".charCodeAt(0) + i)] *)
Definition fromCharCode (n : N) : string :=
  String (ascii_of_N n) EmptyString.

(** ** Decimal digits *)

Definition isDigit (c : ascii) : bool :=
  let n := N_of_ascii c in ((48 <=? n) && (n <=? 57))%N.

Definition digitVal (c : ascii) : Z := Z.of_N (N_of_ascii c) - 48.

Definition digitChar (d : Z) : ascii := ascii_of_N (Z.to_N (48 + d)).

(** the longest prefix of decimal digits, and what follows it *)
Fixpoint spanDigits (s : string) : string * string :=
  match s with
  | String c s' =>
      if isDigit c then let '(d, r) := spanDigits s' in (String c d, r)
      else (EmptyString, s)
  | EmptyString => (EmptyString, EmptyString)
  end.

(** the mathematical value of a string of decimal digits, most
    significant first, continuing from [acc] *)
Fixpoint digitsValue (acc : Z) (s : string) : Z :=
  match s with
  | EmptyString => acc
  | String c s' => digitsValue (10 * acc + digitVal c) s'
  end.

(** the decimal digits of a non-negative integer, least significant
    digit last; [fuel] bounds the number of digits *)
Fixpoint digitsOfFuel (fuel : nat) (n : Z) (acc : string) : string :=
  match fuel with
  | O => acc
  | S fuel' =>
      let acc' := String (digitChar (n mod 10)) acc in
      if n <? 10 then acc' else digitsOfFuel fuel' (n / 10) acc'
  end.

(** the decimal representation of a non-negative integer ("0" for 0) *)
Definition digitsOf (n : Z) : string :=
  digitsOfFuel (S (Z.to_nat (Z.log2 n))) n EmptyString.

(** ToString of an integral Number of magnitude below 10^21 *)
Definition intToString (z : Z) : string :=
  if z <? 0 then String "-"%char (digitsOf (- z)) else digitsOf z.

Fixpoint repeatChar (c : ascii) (n : nat) : string :=
  match n with
  | O => EmptyString
  | S n' => String c (repeatChar c n')
  end.

(** [s.padStart(n, "0")] *)
Definition padStart0 (n : nat) (s : string) : string :=
  repeatChar "0"%char (n - String.length s)%nat +:+ s.

(** [s.slice(0, n)] and [s.slice(n)] *)
Fixpoint takeStr (n : nat) (s : string) : string :=
  match n, s with
  | S n', String c s' => String c (takeStr n' s')
  | _, _ => EmptyString
  end.

Fixpoint dropStr (n : nat) (s : string) : string :=
  match n, s with
  | S n', String _ s' => dropStr n' s'
  | _, _ => s
  end.

(** ** Numbers: IEEE 754 binary64 *)

Definition number := spec_float.
Definition prec : Z := 53.
Definition emax : Z := 1024.

Definition posZero : number := S754_zero false.
Definition NaN : number := S754_nan.

(** [Number.isFinite] *)
Definition isFinite (x : number) : bool :=
  match x with
  | S754_zero _ | S754_finite _ _ _ => true
  | S754_infinity _ | S754_nan => false
  end.

(** [isNaN] on a Number *)
Definition isNaN (x : number) : bool :=
  match x with S754_nan => true | _ => false end.

(** A finite Number is a whole number of units of [2^-1074], the
    smallest positive Number. *)
Definition units (m : positive) (e : Z) : Z := Zpos m * 2 ^ (e + 1074).

(** the value of a finite non-zero Number as a quotient of positive integers *)
Definition fraction (m : positive) (e : Z) : Z * Z := (units m e, 2 ^ 1074).

(** the value of a Number that is finite, in units, with its sign *)
Definition signedUnits (x : number) : Z :=
  match x with
  | S754_finite s m e => if s then - units m e else units m e
  | _ => 0
  end.

(** an integer [k] with [q * 2^k <= p < q * 2^(k+1)] when [q <= p], and a
    negative one when [p < q], for positive [p] and [q] *)
Definition floorLog2 (p q : Z) : Z :=
  let k := Z.log2 p - Z.log2 q in
  if q * 2 ^ k <=? p then k else k - 1.

(** the nearest integer to [p/q], the even one at a tie *)
Definition roundHalfEven (p q : Z) : Z :=
  let m := p / q in
  match 2 * (p mod q) ?= q with
  | Lt => m
  | Gt => m + 1
  | Eq => if Z.even m then m else m + 1
  end.

(** "The Number value for" the rational [p/q] ([0 <= p], [0 < q]) with
    sign [s]: the binary64 value nearest to it, the one with the even
    significand at a tie, values from [2^1024 - 2^970] on being infinite.
    The quotient is counted in units and rounded to 53 significant bits. *)
Definition numberValue (s : bool) (p q : Z) : number :=
  if p =? 0 then S754_zero s else
  let P := p * 2 ^ 1074 in
  let k := Z.max 0 (floorLog2 P q - 52) in
  let m := roundHalfEven P (q * 2 ^ k) in
  if m =? 0 then S754_zero s
  else if m =? 2 ^ 53
       then (if k + 1 <=? 2045 then S754_finite s (Z.to_pos (2 ^ 52)) (k + 1 - 1074)
             else S754_infinity s)
       else (if k <=? 2045 then S754_finite s (Z.to_pos m) (k - 1074)
             else S754_infinity s).

(** the Number value for [m * 10^e] *)
Definition numberOfDecimal (s : bool) (m e : Z) : number :=
  if 0 <=? e then numberValue s (m * 10 ^ e) 1 else numberValue s m (10 ^ (- e)).

(** the Number value for an integer *)
Definition ofZ (z : Z) : number := numberValue (z <? 0) (Z.abs z) 1.

Definition signBit (x : number) : bool :=
  match x with
  | S754_zero s | S754_infinity s | S754_finite s _ _ => s
  | S754_nan => false
  end.

(** Number::unaryMinus *)
Definition neg (x : number) : number :=
  match x with
  | S754_nan => S754_nan
  | S754_zero s => S754_zero (negb s)
  | S754_infinity s => S754_infinity (negb s)
  | S754_finite s m e => S754_finite (negb s) m e
  end.

(** Number::add: the exact sum, rounded *)
Definition add (x y : number) : number :=
  match x, y with
  | S754_nan, _ | _, S754_nan => S754_nan
  | S754_infinity sx, S754_infinity sy => if Bool.eqb sx sy then x else S754_nan
  | S754_infinity _, _ => x
  | _, S754_infinity _ => y
  | S754_zero sx, S754_zero sy => S754_zero (sx && sy)
  | _, _ =>
      let z := signedUnits x + signedUnits y in
      if z =? 0 then S754_zero false
      else numberValue (z <? 0) (Z.abs z) (2 ^ 1074)
  end.

(** Number::subtract *)
Definition sub (x y : number) : number := add x (neg y).

(** Number::multiply: the exact product, rounded *)
Definition mul (x y : number) : number :=
  match x, y with
  | S754_nan, _ | _, S754_nan => S754_nan
  | S754_infinity _, S754_zero _ | S754_zero _, S754_infinity _ => S754_nan
  | S754_infinity sx, _ => S754_infinity (xorb sx (signBit y))
  | _, S754_infinity sy => S754_infinity (xorb (signBit x) sy)
  | S754_zero sx, _ => S754_zero (xorb sx (signBit y))
  | _, S754_zero sy => S754_zero (xorb (signBit x) sy)
  | S754_finite sx mx ex, S754_finite sy my ey =>
      numberValue (xorb sx sy) (units mx ex * units my ey) (2 ^ 1074 * 2 ^ 1074)
  end.

(** Number::divide: the exact quotient, rounded *)
Definition div (x y : number) : number :=
  match x, y with
  | S754_nan, _ | _, S754_nan => S754_nan
  | S754_infinity _, S754_infinity _ => S754_nan
  | S754_infinity sx, _ => S754_infinity (xorb sx (signBit y))
  | _, S754_infinity sy => S754_zero (xorb (signBit x) sy)
  | S754_zero _, S754_zero _ => S754_nan
  | S754_zero sx, _ => S754_zero (xorb sx (signBit y))
  | _, S754_zero sy => S754_infinity (xorb (signBit x) sy)
  | S754_finite sx mx ex, S754_finite sy my ey =>
      numberValue (xorb sx sy) (units mx ex) (units my ey)
  end.

(** [x < y] *)
Definition ltb (x y : number) : bool :=
  match x, y with
  | S754_nan, _ | _, S754_nan => false
  | S754_infinity sx, S754_infinity sy => sx && negb sy
  | S754_infinity sx, _ => sx
  | _, S754_infinity sy => negb sy
  | _, _ => signedUnits x <? signedUnits y
  end.

(** [x === y] *)
Definition strictEq (x y : number) : bool :=
  match x, y with
  | S754_nan, _ | _, S754_nan => false
  | S754_infinity sx, S754_infinity sy => Bool.eqb sx sy
  | S754_infinity _, _ | _, S754_infinity _ => false
  | _, _ => signedUnits x =? signedUnits y
  end.

(** [Math.min]; [-0] counts as below [+0] *)
Definition mathMin (x y : number) : number :=
  match x, y with
  | S754_nan, _ | _, S754_nan => NaN
  | S754_zero sx, S754_zero sy => S754_zero (sx || sy)
  | _, _ => if ltb y x then y else x
  end.

(** *** StringToNumber *)

Definition isHexDigit (c : ascii) : bool :=
  let n := N_of_ascii c in
  (isDigit c || (65 <=? n) && (n <=? 70) || (97 <=? n) && (n <=? 102))%N.

Definition hexVal (c : ascii) : Z :=
  let n := Z.of_N (N_of_ascii c) in
  if isDigit c then n - 48 else if n <=? 70 then n - 55 else n - 87.

(** the value of a non-empty string of digits below [radix]; [None] when
    a character is not such a digit *)
Fixpoint radixValue (radix : Z) (acc : Z) (s : string) : option Z :=
  match s with
  | EmptyString => Some acc
  | String c s' =>
      if isHexDigit c && (hexVal c <? radix)
      then radixValue radix (radix * acc + hexVal c) s'
      else None
  end.

(** NonDecimalIntegerLiteral: [0x], [0o] or [0b] and at least one digit *)
Definition parseNonDecimal (s : string) : option (option Z) :=
  match s with
  | String "0" (String c r) =>
      let radix :=
        if (c =? "x")%char || (c =? "X")%char then Some 16
        else if (c =? "o")%char || (c =? "O")%char then Some 8
        else if (c =? "b")%char || (c =? "B")%char then Some 2
        else None in
      match radix with
      | Some b => Some (if isEmpty r then None else radixValue b 0 r)
      | None => None
      end
  | _ => None
  end.

(** ExponentPart after its indicator: an optional sign and at least one
    digit, up to the end of the string *)
Definition parseExponent (s : string) : option Z :=
  let '(neg, r) :=
    match s with
    | String "+" r => (false, r)
    | String "-" r => (true, r)
    | _ => (false, s)
    end in
  let '(d, rest) := spanDigits r in
  if isEmpty d || negb (isEmpty rest) then None
  else Some (if neg then - digitsValue 0 d else digitsValue 0 d).

(** StrUnsignedDecimalLiteral other than [Infinity]: the digits read as
    an integer, and the power of ten that scales it *)
Definition parseUnsignedDecimal (s : string) : option (Z * Z) :=
  let '(ip, r1) := spanDigits s in
  let '(fp, r2) :=
    match r1 with
    | String "." r => spanDigits r
    | _ => (EmptyString, r1)
    end in
  if isEmpty ip && isEmpty fp then None else
  let m := digitsValue 0 (ip +:+ fp) in
  let scale := - Z.of_nat (String.length fp) in
  match r2 with
  | EmptyString => Some (m, scale)
  | String c r3 =>
      if (c =? "e")%char || (c =? "E")%char
      then match parseExponent r3 with
           | Some x => Some (m, x + scale)
           | None => None
           end
      else None
  end.

(** StrDecimalLiteral: sign, then [Infinity] or an unsigned literal *)
Definition parseDecimal (s : string) : number :=
  let '(neg, r) :=
    match s with
    | String "+" r => (false, r)
    | String "-" r => (true, r)
    | _ => (false, s)
    end in
  if (r =? "Infinity")%string then S754_infinity neg else
  match parseUnsignedDecimal r with
  | Some (m, e) => numberOfDecimal neg m e
  | None => NaN
  end.

(** [Number(s)] for a string [s] *)
Definition Number (s : string) : number :=
  let t := trim s in
  if isEmpty t then posZero else
  match parseNonDecimal t with
  | Some (Some z) => numberValue false z 1
  | Some None => NaN
  | None => parseDecimal t
  end.

(** *** Number::toString *)

(** the integer [n] with [10^(n-1) <= p/q < 10^n], for positive [p], [q];
    [fuel] bounds the search below one *)
Fixpoint negExponent (fuel : nat) (p q : Z) (j : Z) : Z :=
  match fuel with
  | O => 1 - j
  | S fuel' => if q <=? p * 10 ^ j then 1 - j else negExponent fuel' p q (j + 1)
  end.

Definition decimalExponent (p q : Z) : Z :=
  if q <=? p then Z.of_nat (String.length (digitsOf (p / q)))
  else negExponent (S (Z.to_nat (Z.log2 q))) p q 1.

(** the shortest decimal [s * 10^(n-k)], [s] of [k] digits, whose Number
    value is [x = p/q]; among the candidates of that length the one
    nearest to [x], the even one at a tie *)
Fixpoint shortestDigits (fuel : nat) (x : number) (p q n k : Z) : Z * Z :=
  let num := if 0 <=? n - k then p else p * 10 ^ (k - n) in
  let den := if 0 <=? n - k then q * 10 ^ (n - k) else q in
  let lo := num / den in
  let r := num mod den in
  let okLo := strictEq (numberOfDecimal false lo (n - k)) x in
  let okHi := strictEq (numberOfDecimal false (lo + 1) (n - k)) x in
  let pick (s : Z) := if s =? 10 ^ k then (1, n + 1) else (s, n) in
  match fuel with
  | O => pick lo
  | S fuel' =>
      if r =? 0 then pick lo
      else if okLo && okHi then
        match 2 * r ?= den with
        | Lt => pick lo
        | Gt => pick (lo + 1)
        | Eq => if Z.even lo then pick lo else pick (lo + 1)
        end
      else if okLo then pick lo
      else if okHi then pick (lo + 1)
      else shortestDigits fuel' x p q n (k + 1)
  end.

Definition expString (e : Z) : string :=
  String "e"%char (String (if e <? 0 then "-"%char else "+"%char) (digitsOf (Z.abs e))).

(** the digits [ds] of the decimal [0.ds * 10^n] laid out as
    Number::toString does *)
Definition layoutDigits (ds : string) (n : Z) : string :=
  let k := Z.of_nat (String.length ds) in
  if (k <=? n) && (n <=? 21) then
    ds +:+ repeatChar "0"%char (Z.to_nat (n - k))
  else if (0 <? n) && (n <=? 21) then
    takeStr (Z.to_nat n) ds +:+ "." +:+ dropStr (Z.to_nat n) ds
  else if (-6 <? n) && (n <=? 0) then
    "0." +:+ repeatChar "0"%char (Z.to_nat (- n)) +:+ ds
  else if k =? 1 then
    ds +:+ expString (n - 1)
  else
    takeStr 1 ds +:+ "." +:+ dropStr 1 ds +:+ expString (n - 1).

(** [String(x)] for a Number [x] *)
Definition toString (x : number) : string :=
  match x with
  | S754_nan => "NaN"
  | S754_zero _ => "0"
  | S754_infinity s => if s then "-Infinity" else "Infinity"
  | S754_finite s m e =>
      let '(p, q) := fraction m e in
      let '(d, n) := shortestDigits 20 (S754_finite false m e) p q (decimalExponent p q) 1 in
      (if s then "-" else "") +:+ layoutDigits (digitsOf d) n
  end.

(** *** Number.prototype.toFixed *)

(** the integer nearest to [p/q], the larger one at a tie *)
Definition roundHalfUp (p q : Z) : Z := (2 * p + q) / (2 * q).

(** [x.toFixed(f)] for an integral [f]; a [RangeError] outside 0..100 *)
Definition toFixed (x : number) (f : Z) : completion string :=
  if (f <? 0) || (100 <? f) then Throw RangeError else
  match x with
  | S754_nan | S754_infinity _ => Normal (toString x)
  | S754_zero _ =>
      Normal (if f =? 0 then "0" else "0." +:+ repeatChar "0"%char (Z.to_nat f))
  | S754_finite s m e =>
      let '(p, q) := fraction m e in
      let sign := if s then "-" else "" in
      if 10 ^ 21 * q <=? p then Normal (sign +:+ toString (S754_finite false m e))
      else
        let n := roundHalfUp (p * 10 ^ f) q in
        let ds := digitsOf n in
        if f =? 0 then Normal (sign +:+ ds)
        else
          let ds' := padStart0 (Z.to_nat f + 1) ds in
          let k := String.length ds' in
          Normal (sign +:+ takeStr (k - Z.to_nat f) ds' +:+ "."
                       +:+ dropStr (k - Z.to_nat f) ds')
  end.

(** ** Values read back from JSON text *)

Inductive json :=
  | JNull
  | JBool (b : bool)
  | JNum (n : number)
  | JStr (s : string)
  | JArr (xs : list json)
  | JObj (props : list (string * json)).   (* own properties, each key once *)

(** [Array.isArray(v) ? v : ...] *)
Definition asArray (v : option json) : option (list json) :=
  match v with Some (JArr xs) => Some xs | _ => None end.

Fixpoint lookupProp (k : string) (props : list (string * json)) : option json :=
  match props with
  | [] => None
  | (k', v) :: rest => if (k =? k')%string then Some v else lookupProp k rest
  end.

(** [v.k] for a property name [k] that no prototype defines: [undefined]
    ([None]) unless [v] is an object with that property; a [TypeError] on
    [null] *)
Definition getProp (v : json) (k : string) : completion (option json) :=
  match v with
  | JNull => Throw TypeError
  | JObj props => Normal (lookupProp k props)
  | _ => Normal None
  end.

(** [String(v)]; inside an array [null] prints as the empty string *)
Fixpoint jsonToString (v : json) : string :=
  match v with
  | JNull => "null"
  | JBool b => if b then "true" else "false"
  | JNum n => toString n
  | JStr s => s
  | JArr xs =>
      join "," (map (fun x => match x with JNull => "" | _ => jsonToString x end) xs)
  | JObj _ => "[object Object]"
  end.

(** [ToNumber(v)], [undefined] being [None] *)
Definition jsonToNumber (v : option json) : number :=
  match v with
  | None => NaN
  | Some JNull => posZero
  | Some (JBool b) => if b then ofZ 1 else posZero
  | Some (JNum n) => n
  | Some (JStr s) => Number s
  | Some (JArr xs) => Number (jsonToString (JArr xs))
  | Some (JObj _) => NaN
  end.

(** [v.length] *)
Definition lengthProp (v : json) : option json :=
  match v with
  | JArr xs => Some (JNum (ofZ (Z.of_nat (length xs))))
  | JStr s => Some (JNum (ofZ (Z.of_nat (String.length s))))
  | JObj props => lookupProp "length" props
  | _ => None
  end.

(** [v[i]] for an index [i], on a value that is not [null] *)
Definition getIndex (v : json) (i : nat) : option json :=
  match v with
  | JArr xs => xs !! i
  | JStr s => match String.get i s with Some c => Some (JStr (String c "")) | None => None end
  | JObj props => lookupProp (intToString (Z.of_nat i)) props
  | _ => None
  end.

(** the length [Array.from({ length: x }, ...)] gives its result:
    ToLength of [x], a [RangeError] from 2^32 on *)
Definition arrayLength (x : number) : completion nat :=
  match x with
  | S754_finite false m e =>
      let '(p, q) := fraction m e in
      if p / q <? 2 ^ 32 then Normal (Z.to_nat (p / q)) else Throw RangeError
  | S754_infinity false => Throw RangeError
  | _ => Normal O
  end.

(** ** Loops *)


(** [for (let i = start; i < bound; i++) body] for a Number [bound], of
    at most [fuel] rounds *)
Fixpoint forBelow {St : Type} (fuel : nat) (i : nat) (bound : number)
    (body : nat -> St -> completion St) (s : St) : completion St :=
  match fuel with
  | O => Normal s
  | S fuel' =>
      if ltb (ofZ (Z.of_nat i)) bound
      then bindC (body i s) (forBelow fuel' (S i) bound body)
      else Normal s
  end.

(** ** Dates

    A Date object is its time value: milliseconds since the epoch, or
    NaN for an invalid date.  What ECMAScript leaves to the
    implementation is the [Host]: the offset of local time, and the
    fallback parser for strings outside the Date Time String Format. *)

Record Host := {
  (** LocalTZA(t, isUTC): the offset of local time in milliseconds *)
  LocalTZA : Z -> bool -> Z;
  (** the implementation-defined fallback of [Date.parse]; [None] is NaN *)
  legacyDateParse : string -> option Z
}.

Definition msPerDay : Z := 86400000.

Definition Day (t : Z) : Z := t / msPerDay.

Definition DayFromYear (y : Z) : Z :=
  365 * (y - 1970) + (y - 1969) / 4 - (y - 1901) / 100 + (y - 1601) / 400.

Definition isLeapYear (y : Z) : bool :=
  ((y mod 4 =? 0) && negb (y mod 100 =? 0)) || (y mod 400 =? 0).

Fixpoint yearDown (fuel : nat) (y d : Z) : Z :=
  match fuel with
  | O => y
  | S fuel' => if DayFromYear y <=? d then y else yearDown fuel' (y - 1) d
  end.

(** the largest year whose first day is not after day [d] *)
Definition YearFromDay (d : Z) : Z :=
  yearDown 3 (1970 + d * 400 / 146097 + 1) d.

Definition YearFromTime (t : Z) : Z := YearFromDay (Day t).

(** the number of days of the year before month [m] (0 for January) *)
Definition daysBeforeMonth (leap : bool) (m : Z) : Z :=
  let l := if leap then 1 else 0 in
  if m <=? 0 then 0
  else if m =? 1 then 31
  else if m =? 2 then 59 + l
  else if m =? 3 then 90 + l
  else if m =? 4 then 120 + l
  else if m =? 5 then 151 + l
  else if m =? 6 then 181 + l
  else if m =? 7 then 212 + l
  else if m =? 8 then 243 + l
  else if m =? 9 then 273 + l
  else if m =? 10 then 304 + l
  else if m =? 11 then 334 + l
  else 365 + l.

Definition DayWithinYear (t : Z) : Z := Day t - DayFromYear (YearFromTime t).

Fixpoint monthUp (fuel : nat) (leap : bool) (m dw : Z) : Z :=
  match fuel with
  | O => m
  | S fuel' => if dw <? daysBeforeMonth leap (m + 1) then m else monthUp fuel' leap (m + 1) dw
  end.

(** the month of a time value, 0 for January *)
Definition MonthFromTime (t : Z) : Z :=
  monthUp 11 (isLeapYear (YearFromTime t)) 0 (DayWithinYear t).

(** the day of the month of a time value, from 1 *)
Definition DateFromTime (t : Z) : Z :=
  DayWithinYear t - daysBeforeMonth (isLeapYear (YearFromTime t)) (MonthFromTime t) + 1.

(** MakeDay(year, month, date), month counted from 0 *)
Definition MakeDay (year month date : Z) : Z :=
  let ym := year + month / 12 in
  let mn := month mod 12 in
  DayFromYear ym + daysBeforeMonth (isLeapYear ym) mn + date - 1.

Definition MakeTime (h m sec ms : Z) : Z :=
  h * 3600000 + m * 60000 + sec * 1000 + ms.

Definition MakeDate (day time : Z) : Z := day * msPerDay + time.

(** TimeClip: time values beyond 8.64e15 milliseconds are NaN *)
Definition TimeClip (t : Z) : option Z :=
  if Z.abs t <=? 8640000000000000 then Some t else None.

(** exactly [n] decimal digits at the head of a string *)
Fixpoint readDigits (n : nat) (acc : Z) (s : string) : option (Z * string) :=
  match n with
  | O => Some (acc, s)
  | S n' =>
      match s with
      | String c s' =>
          if isDigit c then readDigits n' (10 * acc + digitVal c) s' else None
      | EmptyString => None
      end
  end.

(** the outcome of reading a string in the Date Time String Format *)
Inductive isoParse :=
  | NotISO                      (* the string is not in the format *)
  | IllegalISO                  (* in the format, with an illegal field *)
  | ISOUtc (t : Z)              (* a time given in UTC *)
  | ISOLocal (t : Z).           (* a time given in local time *)

(** the UTC offset that ends a date-time form: [Z], [+HH:mm], [-HH:mm]
    or nothing; the result is the time with the offset applied *)
Definition parseISOOffset (t : Z) (s : string) : isoParse :=
  match s with
  | EmptyString => ISOLocal t
  | String "Z" EmptyString => ISOUtc t
  | String c r =>
      if (c =? "+")%char || (c =? "-")%char then
        match readDigits 2 0 r with
        | Some (oh, String ":" r') =>
            match readDigits 2 0 r' with
            | Some (om, EmptyString) =>
                if (oh <=? 23) && (om <=? 59) then
                  let off := oh * 3600000 + om * 60000 in
                  ISOUtc (if (c =? "-")%char then t + off else t - off)
                else IllegalISO
            | _ => NotISO
            end
        | _ => NotISO
        end
      else NotISO
  end.

(** the time form [THH:mm], [THH:mm:ss] or [THH:mm:ss.sss] after the [T] *)
Definition parseISOTime (day : Z) (s : string) : isoParse :=
  match readDigits 2 0 s with
  | Some (h, String ":" r) =>
      match readDigits 2 0 r with
      | Some (mi, r1) =>
          let '(fields, r3) :=
            match r1 with
            | String ":" r2 =>
                match readDigits 2 0 r2 with
                | Some (sec, String "." r4) =>
                    match readDigits 3 0 r4 with
                    | Some (ms, r5) => (Some (sec, ms), r5)
                    | None => (None, r1)
                    end
                | Some (sec, r4) => (Some (sec, 0), r4)
                | None => (None, r1)
                end
            | _ => (Some (0, 0), r1)
            end in
          match fields with
          | None => NotISO
          | Some (sec, ms) =>
              let legal :=
                (mi <=? 59) && (sec <=? 59) &&
                ((h <=? 23) || ((h =? 24) && (mi =? 0) && (sec =? 0) && (ms =? 0))) in
              match parseISOOffset (MakeDate day (MakeTime h mi sec ms)) r3 with
              | NotISO => NotISO
              | IllegalISO => IllegalISO
              | res => if legal then res else IllegalISO
              end
          end
      | None => NotISO
      end
  | _ => NotISO
  end.

(** what follows the year: nothing, [-MM], [-MM-DD], each optionally
    followed by a time form *)
Definition parseISOAfterYear (yearLegal : bool) (y : Z) (s : string) : isoParse :=
  let finish (mo d : Z) (r : string) : isoParse :=
    let legal := yearLegal && (1 <=? mo) && (mo <=? 12) && (1 <=? d) && (d <=? 31) in
    let day := MakeDay y (mo - 1) d in
    match r with
    | EmptyString => if legal then ISOUtc (MakeDate day 0) else IllegalISO
    | String "T" r' =>
        match parseISOTime day r' with
        | NotISO => NotISO
        | IllegalISO => IllegalISO
        | res => if legal then res else IllegalISO
        end
    | _ => NotISO
    end in
  match s with
  | String "-" r =>
      match readDigits 2 0 r with
      | Some (mo, String "-" r') =>
          match readDigits 2 0 r' with
          | Some (d, r'') => finish mo d r''
          | None => NotISO
          end
      | Some (mo, r') => finish mo 1 r'
      | None => NotISO
      end
  | _ => finish 1 1 s
  end.

(** the Date Time String Format: a year of four digits, or of six digits
    with a sign ([-000000] being illegal) *)
Definition parseISO (s : string) : isoParse :=
  match s with
  | String c r =>
      if (c =? "+")%char || (c =? "-")%char then
        match readDigits 6 0 r with
        | Some (y, r') =>
            if (c =? "-")%char
            then parseISOAfterYear (negb (y =? 0)) (- y) r'
            else parseISOAfterYear true y r'
        | None => NotISO
        end
      else
        match readDigits 4 0 s with
        | Some (y, r') => parseISOAfterYear true y r'
        | None => NotISO
        end
  | EmptyString => NotISO
  end.

Section WithHost.
Context (host : Host).

Definition LocalTime (t : Z) : Z := t + LocalTZA host t true.
Definition UTC (t : Z) : Z := t - LocalTZA host t false.

(** [Date.parse(s)]; [None] is NaN *)
Definition Date_parse (s : string) : option Z :=
  match parseISO s with
  | ISOUtc t => TimeClip t
  | ISOLocal t => TimeClip (UTC t)
  | IllegalISO => None
  | NotISO => legacyDateParse host s ≫= TimeClip
  end.

(** [new Date(s)] for a string [s]: the time value, [None] for an
    invalid date *)
Definition newDate (s : string) : option Z := Date_parse s.

Definition getFullYear (t : Z) : Z := YearFromTime (LocalTime t).
Definition getMonth (t : Z) : Z := MonthFromTime (LocalTime t).
Definition getDate (t : Z) : Z := DateFromTime (LocalTime t).
End WithHost.

(** a host on UTC whose fallback parser accepts nothing *)
Definition utcHost : Host :=
  {| LocalTZA := fun _ _ => 0; legacyDateParse := fun _ => None |}.

(** ** What the components call besides *)

(** [toLowerCase] on one code unit below 256: the letters A-Z and the
    capital letters of Latin-1 (192..222 but the multiplication sign) *)
Definition lowerChar (c : ascii) : ascii :=
  let n := N_of_ascii c in
  if ((65 <=? n) && (n <=? 90) || (192 <=? n) && (n <=? 222) && negb (n =? 215))%N
  then ascii_of_N (n + 32) else c.

(** [s.toLowerCase()] *)
Fixpoint toLowerCase (s : string) : string :=
  match s with
  | EmptyString => EmptyString
  | String c s' => String (lowerChar c) (toLowerCase s')
  end.

(** [s.startsWith(p)] *)
Fixpoint startsWith (s p : string) : bool :=
  match p, s with
  | EmptyString, _ => true
  | String a p', String b s' => (a =? b)%char && startsWith s' p'
  | String _ _, EmptyString => false
  end.

(** [s.includes(p)] on strings *)
Fixpoint stringIncludes (s p : string) : bool :=
  startsWith s p ||
  match s with
  | EmptyString => false
  | String _ s' => stringIncludes s' p
  end.

(** [Math.max]; [+0] counts as above [-0] *)
Definition mathMax (x y : number) : number :=
  match x, y with
  | S754_nan, _ | _, S754_nan => NaN
  | S754_zero sx, S754_zero sy => S754_zero (sx && sy)
  | _, _ => if ltb x y then y else x
  end.

End JS.

(* ================================================================== *)
(** * Part II. The repository                                          *)
(* ================================================================== *)

(** ** ColumnPanel.tsx: the schema types *)

Module ColumnPanel.

(** The string literals of [ColumnType] live in a module of their own:
    [computed] is also a field of [ColumnDef]. *)
Module ColumnType.
Inductive t :=
  | untyped | date | text | number | currency | percent | enum | computed.
End ColumnType.
Abbreviation ColumnType := ColumnType.t.

(** [ComputedKind] is the union of three string literals; [other_kind]
    stands for any other string, which only data that was never
    type-checked (a loaded blob) can hold. *)
Inductive ComputedKind :=
  | divide | subtract | date_diff_years | other_kind (k : string).

Record ComputedSpec := {
  kind : ComputedKind;
  inputs : list string          (* column IDs *)
}.

Inductive DateFormat := iso | mdy.

Record ColumnFormat := {
  decimals : option JS.number;      (* for number/currency/percent/computed *)
  dateFormat : option DateFormat    (* for date *)
}.

Record ColumnDef := {
  id : string;
  name : string;
  type : ColumnType;
  required : bool;
  description : string;
  enumValues : list string;
  computed : option ComputedSpec;
  format : option ColumnFormat
}.

Definition kindLabel (k : ComputedKind) : string :=
  match k with
  | divide => "Divide (A / B)"
  | subtract => "Subtract (A - B)"
  | date_diff_years => "Date diff in years (end - start)"
  | other_kind k => k
  end.

Definition clampInt (n min max : JS.number) : JS.number :=
  JS.mathMax min (JS.mathMin max n).

(** A [Partial<ColumnDef>] as the handlers build it: [None] is a property
    the patch does not have; [computed: undefined] is [Some None]. *)
Module Patch.
Record t := {
  id : option string;
  name : option string;
  type : option ColumnType;
  required : option bool;
  description : option string;
  enumValues : option (list string);
  computed : option (option ComputedSpec);
  format : option ColumnFormat
}.
End Patch.

(** [column.format ?? {}] *)
Definition formatOrEmpty (column : ColumnDef) : ColumnFormat :=
  default {| decimals := None; dateFormat := None |} (format column).

(** the patch the type selector hands to [onUpdate] *)
Definition onTypeChange (column : ColumnDef) (nextType : ColumnType) : Patch.t :=
  match nextType with
  | ColumnType.computed =>
      (* If switching to computed, initialize computed spec *)
      {| Patch.id := None; Patch.name := None; Patch.description := None;
         Patch.type := Some nextType;
         Patch.required := Some false;
         Patch.enumValues := Some [];
         Patch.computed :=
           Some (Some (default {| kind := divide; inputs := [""; ""] |} (computed column)));
         Patch.format :=
           Some (default {| decimals := Some (JS.ofZ 4); dateFormat := None |}
                         (format column)) |}
  | ColumnType.date =>
      (* If switching to date, ensure dateFormat exists *)
      {| Patch.id := None; Patch.name := None; Patch.description := None;
         Patch.type := Some nextType;
         Patch.required := None;
         Patch.computed := Some None;
         Patch.enumValues := Some [];
         Patch.format :=
           Some {| decimals := decimals (formatOrEmpty column);
                   dateFormat := Some (default iso (format column ≫= dateFormat)) |} |}
  | ColumnType.number | ColumnType.currency | ColumnType.percent =>
      (* If switching to number/currency/percent, ensure decimals exists *)
      let defaultDec := JS.ofZ 2 in
      {| Patch.id := None; Patch.name := None; Patch.description := None;
         Patch.type := Some nextType;
         Patch.required := None;
         Patch.computed := Some None;
         Patch.enumValues := Some [];
         Patch.format :=
           Some {| decimals := Some (default defaultDec (format column ≫= decimals));
                   dateFormat := dateFormat (formatOrEmpty column) |} |}
  | ColumnType.enum =>
      (* Enum: keep enum values *)
      {| Patch.id := None; Patch.name := None; Patch.description := None;
         Patch.type := Some nextType;
         Patch.required := None;
         Patch.computed := Some None;
         Patch.enumValues := None;
         Patch.format := None |}
  | _ =>
      (* Everything else *)
      {| Patch.id := None; Patch.name := None; Patch.description := None;
         Patch.type := Some nextType;
         Patch.required := None;
         Patch.computed := Some None;
         Patch.enumValues := Some [];
         Patch.format := None |}
  end.

(** the patch the decimals input hands to [onUpdate] for the text [value] *)
Definition onDecimalsChange (column : ColumnDef) (value : string) : Patch.t :=
  let n := clampInt (JS.Number value) (JS.ofZ 0) (JS.ofZ 8) in
  {| Patch.id := None; Patch.name := None; Patch.description := None;
     Patch.type := None; Patch.required := None;
     Patch.computed := None; Patch.enumValues := None;
     Patch.format :=
       Some {| decimals := Some n; dateFormat := dateFormat (formatOrEmpty column) |} |}.

End ColumnPanel.

(** ** DataGrid.tsx: the row-object grid of the schema builder *)

Module DataGrid.

Inductive ColumnType := date | text | number | currency | percent | enum.

Record ColumnSpec := {
  id : string;
  name : string;
  type : ColumnType;
  required : bool;
  description : option string;
  enumValues : option (list string)
}.

Abbreviation Row := (gmap string string).

Definition CellError := option string.

Section WithHost.
Context (host : JS.Host).

Definition validateCell (col : ColumnSpec) (raw : string) : CellError :=
  let v := JS.trim raw in
  if required col && (String.length v =? 0)%nat then Some "Required"
  else if (String.length v =? 0)%nat then None
  else
    match type col with
    | text => None
    | number =>
        let n := JS.Number v in
        if JS.isFinite n then None else Some "Must be a number"
    | currency =>
        let normalized :=
          JS.removeAll (fun c => (c =? "$")%char || (c =? ",")%char) v in
        let n := JS.Number normalized in
        if JS.isFinite n then None else Some "Must be a currency amount"
    | percent =>
        let normalized := JS.removeAll (fun c => (c =? "%")%char) v in
        let n := JS.Number normalized in
        if negb (JS.isFinite n) then Some "Must be a percent"
        else if JS.ltb n (JS.ofZ (-100)) || JS.ltb (JS.ofZ 1000) n
             then Some "Percent looks off"
             else None
    | date =>
        match JS.newDate host v with
        | None => Some "Invalid date"
        | Some _ => None
        end
    | enum =>
        let opts := default [] (enumValues col) in
        if (length opts =? 0)%nat then Some "Enum has no options"
        else if JS.includes opts v then None
             else Some ("Must be one of: " +:+ JS.join ", " opts)
    end.
End WithHost.

Definition makeEmptyRow (columns : list ColumnSpec) : Row :=
  foldl (fun r c => <[id c := ""]> r) ∅ columns.

(** [columns.some((c) => c.id === k)] *)
Definition hasColumn (columns : list ColumnSpec) (k : string) : bool :=
  existsb (fun c => String.eqb (id c) k) columns.

(** one row of [normalizedRows]: add missing keys, drop removed keys *)
Definition normalizeRow (columns : list ColumnSpec) (r : Row) : Row :=
  let next :=
    foldl (fun next c =>
             match next !! id c with
             | None => <[id c := ""]> next
             | Some _ => next
             end) r columns in
  filter (fun kv => Is_true (hasColumn columns kv.1)) next.

Definition normalizedRows (columns : list ColumnSpec) (rows : list Row) : list Row :=
  map (normalizeRow columns) rows.


Section Component.
Context (host : JS.Host) (columns : list ColumnSpec) (rows : list Row).




(** what [addRow] hands to [onChangeRows] *)
Definition addRow : list Row :=
  normalizedRows columns rows ++ [makeEmptyRow columns].

(** what [updateCell] hands to [onChangeRows], for a row that exists *)
Definition updateCell (rowIdx : nat) (colId value : string) : option (list Row) :=
  let next := normalizedRows columns rows in
  match next !! rowIdx with
  | Some r => Some (<[rowIdx := <[colId := value]> r]> next)
  | None => None
  end.

(** what [removeRow] hands to [onChangeRows] *)
Definition removeRow (rowIdx : nat) : list Row :=
  delete rowIdx (normalizedRows columns rows).
End Component.

End DataGrid.

(** ** SpreadsheetGrid.tsx: the typed-cell engine of the workbook *)

Module SpreadsheetGrid.
Import ColumnPanel.

(** A matrix of raw strings.  A row is the list of what reading its
    positions with [?? ""] gives: an absent element (a hole left by an
    assignment past the end) and the empty string are one value, as every
    read of a cell in the repository goes through [?? ""]. *)
Abbreviation SheetCellMatrix := (list (list string)).

(** the character class of [/[$,%\s,]/] *)
Definition numberNoise (c : ascii) : bool :=
  (c =? "$")%char || (c =? ",")%char || (c =? "%")%char || JS.isWhiteSpace c.

Definition toNumberLike (s : string) : option JS.number :=
  let v := JS.trim s in
  if JS.isEmpty v then None
  else
    let normalized := JS.removeAll numberNoise v in
    let n := JS.Number normalized in
    if JS.isFinite n then Some n else None.

(** [ToIntegerOrInfinity] of a Number; [None] for an infinity *)
Definition ToIntegerOrInfinity (x : JS.number) : option Z :=
  match x with
  | S754_nan | S754_zero _ => Some 0
  | S754_infinity _ => None
  | S754_finite s m e =>
      let '(p, q) := JS.fraction m e in
      Some (if s then - (p / q) else p / q)
  end.

Definition formatNumber (n : JS.number) (decimals : JS.number) : JS.completion string :=
  match ToIntegerOrInfinity decimals with
  | Some f => JS.toFixed n f
  | None => JS.Throw JS.RangeError
  end.

(** the result of [computeValue] *)
Record Computed := { value : string; error : option string }.

Section WithHost.
Context (host : JS.Host).

(** a Date that is not invalid, as its time value *)
Definition toDateLike (s : string) : option Z :=
  let v := JS.trim s in
  if JS.isEmpty v then None
  else JS.newDate host v.

Definition formatDate (d : Z) (fmt : DateFormat) : string :=
  let yyyy := JS.getFullYear host d in
  let mm := JS.getMonth host d + 1 in
  let dd := JS.getDate host d in
  match fmt with
  | iso =>
      let m := JS.padStart0 2 (JS.intToString mm) in
      let day := JS.padStart0 2 (JS.intToString dd) in
      JS.intToString yyyy +:+ "-" +:+ m +:+ "-" +:+ day
  | mdy =>
      JS.intToString mm +:+ "/" +:+ JS.intToString dd +:+ "/" +:+ JS.intToString yyyy
  end.

(** [1000 * 60 * 60 * 24 * 365.25] *)
Definition msPerYear : JS.number :=
  JS.mul (JS.mul (JS.mul (JS.mul (JS.ofZ 1000) (JS.ofZ 60)) (JS.ofZ 60)) (JS.ofZ 24))
         (JS.Number "365.25").

Definition computeValue (col : ColumnDef) (rowValuesById : gmap string string)
  : Computed :=
  match computed col with
  | None => {| value := ""; error := Some "Missing computed spec" |}
  | Some spec =>
      let aId := default "" (inputs spec !! 0%nat) in
      let bId := default "" (inputs spec !! 1%nat) in
      let aRaw := if JS.isEmpty aId then "" else default "" (rowValuesById !! aId) in
      let bRaw := if JS.isEmpty bId then "" else default "" (rowValuesById !! bId) in
      if JS.isEmpty aId || JS.isEmpty bId
      then {| value := ""; error := Some "Select input columns" |}
      else
        match kind spec with
        | divide =>
            match toNumberLike aRaw, toNumberLike bRaw with
            | Some a, Some b =>
                if JS.strictEq b JS.posZero
                then {| value := ""; error := Some "Divide by zero" |}
                else {| value := JS.toString (JS.div a b); error := None |}
            | _, _ => {| value := ""; error := Some "Inputs must be numbers" |}
            end
        | subtract =>
            match toNumberLike aRaw, toNumberLike bRaw with
            | Some a, Some b =>
                {| value := JS.toString (JS.sub a b); error := None |}
            | _, _ => {| value := ""; error := Some "Inputs must be numbers" |}
            end
        | date_diff_years =>
            match toDateLike aRaw, toDateLike bRaw with
            | Some start, Some end_ =>
                let ms := JS.sub (JS.ofZ end_) (JS.ofZ start) in
                let years := JS.div ms msPerYear in
                {| value := JS.toString years; error := None |}
            | _, _ => {| value := ""; error := Some "Inputs must be dates" |}
            end
        | other_kind _ =>
            {| value := ""; error := Some "Unknown computed operation" |}
        end
  end.

Definition validateCell (col : ColumnDef) (raw : string) : option string :=
  match type col with
  | ColumnType.computed => None
  | ColumnType.untyped => None
  | ty =>
      let v := JS.trim raw in
      if required col && (String.length v =? 0)%nat then Some "Required"
      else if (String.length v =? 0)%nat then None
      else
        match ty with
        | ColumnType.text => None
        | ColumnType.number =>
            match toNumberLike v with
            | None => Some "Must be a number"
            | Some _ => None
            end
        | ColumnType.currency =>
            match toNumberLike v with
            | None => Some "Must be a currency amount"
            | Some _ => None
            end
        | ColumnType.percent =>
            match toNumberLike v with
            | None => Some "Must be a percent"
            | Some n =>
                if JS.ltb n (JS.ofZ (-100)) || JS.ltb (JS.ofZ 1000) n
                then Some "Percent looks off"
                else None
            end
        | ColumnType.date =>
            match toDateLike v with
            | Some _ => None
            | None => Some "Invalid date"
            end
        | ColumnType.enum =>
            let opts := enumValues col in
            if (length opts =? 0)%nat then Some "Enum has no options"
            else if JS.includes opts v then None
                 else Some ("Must be one of: " +:+ JS.join ", " opts)
        | _ => None
        end
  end.

Definition applyFormattingOnBlur (col : ColumnDef) (raw : string)
  : JS.completion string :=
  let v := JS.trim raw in
  if JS.isEmpty v then JS.Normal ""
  else
    let decimals :=
      default (JS.ofZ 2) (format col ≫= ColumnPanel.decimals) in
    match type col with
    | ColumnType.number | ColumnType.currency =>
        match toNumberLike v with
        | None => JS.Normal raw
        | Some n => formatNumber n decimals
        end
    | ColumnType.percent =>
        match toNumberLike v with
        | None => JS.Normal raw
        | Some n =>
            JS.bindC (formatNumber n decimals) (fun t => JS.Normal (t +:+ "%"))
        end
    | ColumnType.date =>
        match toDateLike v with
        | None => JS.Normal raw
        | Some d =>
            let fmt := default iso (format col ≫= ColumnPanel.dateFormat) in
            JS.Normal (formatDate d fmt)
        end
    | _ => JS.Normal raw
    end.

(** what a computed cell shows for the row [rowValuesById] *)
Definition displayComputed (col : ColumnDef) (rowValuesById : gmap string string)
  : JS.completion string :=
  let res := computeValue col rowValuesById in
  let dec := default (JS.ofZ 4) (format col ≫= ColumnPanel.decimals) in
  let n := toNumberLike (value res) in
  let hasError :=
    match error res with
    | Some e => negb (JS.isEmpty e)
    | None => false
    end in
  if hasError then JS.Normal ""
  else match n with
       | None => JS.Normal (value res)
       | Some n => formatNumber n dec
       end.
End WithHost.

(** the spreadsheet letter of column [i]; the code units stay below 256
    for [i] below 4992 *)
Definition colLetter (i : nat) : string :=
  let A := 65%N in
  if (i <? 26)%nat then JS.fromCharCode (A + N.of_nat i)
  else
    let first := (i / 26 - 1)%nat in
    let second := (i mod 26)%nat in
    JS.fromCharCode (A + N.of_nat first) +:+ JS.fromCharCode (A + N.of_nat second).

Definition headerLabels (columns : list ColumnDef) : list string :=
  imap (fun idx c => if JS.isEmpty (JS.trim (name c)) then colLetter idx else name c)
       columns.

(** the cell [moveTo] selects and focuses, indices being integers *)
Definition moveTo (rowCount colCount : nat) (r c : Z) : Z * Z :=
  let rr := Z.max 0 (Z.min (Z.of_nat rowCount - 1) r) in
  let cc := Z.max 0 (Z.min (Z.of_nat colCount - 1) c) in
  (rr, cc).

Record KeyEvent := { ctrlKey : bool; shiftKey : bool; key : string }.

(** what a key pressed in cell [(r, c)] asks for *)
Inductive NavAction :=
  | FillDown (r c : Z)
  | Select (cell : Z * Z)
  | NoAction.

Definition handleNavKey (rowCount colCount : nat) (e : KeyEvent) (r c : Z)
  : NavAction :=
  (* Ctrl+D = Fill Down (Excel-style) *)
  if ctrlKey e && ((key e =? "d")%string || (key e =? "D")%string) then FillDown r c
  (* Tab navigation *)
  else if (key e =? "Tab")%string
  then Select (moveTo rowCount colCount r (c + (if shiftKey e then -1 else 1)))
  (* Enter navigation *)
  else if (key e =? "Enter")%string
  then Select (moveTo rowCount colCount (r + (if shiftKey e then -1 else 1)) c)
  else if ctrlKey e then
    if (key e =? "ArrowRight")%string then Select (moveTo rowCount colCount r (c + 1))
    else if (key e =? "ArrowLeft")%string then Select (moveTo rowCount colCount r (c - 1))
    else if (key e =? "ArrowDown")%string then Select (moveTo rowCount colCount (r + 1) c)
    else if (key e =? "ArrowUp")%string then Select (moveTo rowCount colCount (r - 1) c)
    else NoAction
  else NoAction.

(** the loop that assembles [rowValuesById] for row [rIdx], from column [c] *)
Fixpoint rowValuesFrom (c : nat) (columns : list ColumnDef)
    (cells : SheetCellMatrix) (rIdx : nat) (acc : gmap string string)
  : gmap string string :=
  match columns with
  | [] => acc
  | col :: rest =>
      rowValuesFrom (S c) rest cells rIdx
        (<[id col := default "" (cells !! rIdx ≫= (.!! c))]> acc)
  end.

Definition rowValuesById (columns : list ColumnDef) (cells : SheetCellMatrix)
    (rIdx : nat) : gmap string string :=
  rowValuesFrom 0 columns cells rIdx ∅.

End SpreadsheetGrid.

(** ** Workbook.tsx: the state of the workbook *)

Module Workbook.
Import ColumnPanel.
Export SpreadsheetGrid (SheetCellMatrix).

(** the columns of a loaded state: an array taken from the blob as it
    is, or columns the code built *)
Inductive Columns :=
  | PersistedColumns (cols : list JS.json)
  | DefinedColumns (cols : list ColumnDef).

Record WorkbookState := {
  purpose : string;
  columns : Columns;
  cells : SheetCellMatrix;
  rowCount : JS.number
}.

Fixpoint makeDefaultColumnsFrom (i count : nat) : list ColumnDef :=
  match count with
  | O => []
  | S count' =>
      {| id := "col_" +:+ JS.intToString (Z.of_nat i);
         name := JS.fromCharCode (65 + N.of_nat i);   (* A, B, C... *)
         type := ColumnType.untyped;
         required := false;
         description := "";
         enumValues := [];
         computed := None;
         format := None |} :: makeDefaultColumnsFrom (S i) count'
  end.

Definition makeDefaultColumns (count : nat) : list ColumnDef :=
  makeDefaultColumnsFrom 0 count.

Definition makeEmptyCells (rows cols : nat) : SheetCellMatrix :=
  replicate rows (replicate cols "").

(** [cells?.[r]?.[c] ?? ""] *)
Definition cellAt (cells : SheetCellMatrix) (r c : nat) : string :=
  default "" (cells !! r ≫= (.!! c)).

(** [row[c] = v]: past the end the array grows, leaving holes *)
Definition assignIndex (row : list string) (c : nat) (v : string) : list string :=
  if (c <? length row)%nat then <[c := v]> row
  else row ++ replicate (c - length row) "" ++ [v].

(** [m[r][c] = v]: a [TypeError] when [m[r]] is undefined *)
Definition assignCell (m : SheetCellMatrix) (r c : nat) (v : string)
  : JS.completion SheetCellMatrix :=
  match m !! r with
  | Some row => JS.Normal (<[r := assignIndex row c v]> m)
  | None => JS.Throw JS.TypeError
  end.

Definition defaultState : WorkbookState :=
  {| purpose := "";
     rowCount := JS.ofZ 50;
     columns := DefinedColumns (makeDefaultColumns 12);
     cells := makeEmptyCells 50 12 |}.

(** what [localStorage.getItem(STORAGE_KEY)] holds, with the outcome of
    [JSON.parse] on it: no item (or the empty string), or a text that
    parses to a value or makes [JSON.parse] throw *)
Inductive StoredItem :=
  | NoItem
  | Item (parsed : JS.completion JS.json).

(** the body of the [try] block of [loadState] after [JSON.parse] *)
Definition hydrate (parsed : JS.json) : JS.completion WorkbookState :=
  JS.bindC (JS.getProp parsed "rowCount") (fun pRowCount =>
  JS.bindC (JS.getProp parsed "columns") (fun pColumns =>
  JS.bindC (JS.getProp parsed "cells") (fun pCells =>
  JS.bindC (JS.getProp parsed "purpose") (fun pPurpose =>
  let rowCount := match pRowCount with Some (JS.JNum n) => n | _ => JS.ofZ 50 end in
  let columns :=
    match JS.asArray pColumns with
    | Some (c :: cs) => PersistedColumns (c :: cs)
    | _ => DefinedColumns (makeDefaultColumns 12)
    end in
  let colCount :=
    match columns with
    | PersistedColumns cs => length cs
    | DefinedColumns cs => length cs
    end in
  JS.bindC
    (match JS.asArray pCells with
     | Some (x :: xs) => JS.Normal (x :: xs)
     | _ =>
         JS.bindC (JS.arrayLength rowCount) (fun rows =>
         JS.Normal (map (fun row => JS.JArr (map JS.JStr row))
                        (makeEmptyCells rows colCount)))
     end) (fun cells =>
  (* Normalize cells dimensions to rowCount x colCount *)
  JS.bindC (JS.arrayLength rowCount) (fun rows =>
  JS.bindC
    (JS.forBelow (length cells) 0
       (JS.mathMin rowCount (JS.ofZ (Z.of_nat (length cells))))
       (fun r normalized =>
          let row := match cells !! r with
                     | Some JS.JNull | None => JS.JArr []
                     | Some row => row
                     end in
          JS.forBelow colCount 0
            (JS.mathMin (JS.ofZ (Z.of_nat colCount)) (JS.jsonToNumber (JS.lengthProp row)))
            (fun c normalized =>
               let v := match JS.getIndex row c with
                        | Some JS.JNull | None => ""
                        | Some x => JS.jsonToString x
                        end in
               assignCell normalized r c v)
            normalized)
       (makeEmptyCells rows colCount)) (fun normalized =>
  JS.Normal
    {| purpose := match pPurpose with Some (JS.JStr p) => p | _ => "" end;
       rowCount := rowCount;
       columns := columns;
       cells := normalized |}))))))).

Definition loadState (stored : StoredItem) : WorkbookState :=
  match stored with
  | NoItem => defaultState
  | Item (JS.Throw _) => defaultState
  | Item (JS.Normal parsed) =>
      match hydrate parsed with
      | JS.Normal st => st
      | JS.Throw _ => defaultState
      end
  end.


(** the updater [onChangeCell] hands to [setCells] *)
Definition onChangeCell (r c : nat) (value : string) (prev : SheetCellMatrix)
  : JS.completion SheetCellMatrix :=
  assignCell prev r c value.

(** the loop of [fillDownFromCell], from row [rr], of at most [fuel] rounds *)
Fixpoint fillLoop (fuel : nat) (rr c : nat) (source : string)
    (next : SheetCellMatrix) : JS.completion SheetCellMatrix :=
  match fuel with
  | O => JS.Normal next
  | S fuel' =>
      if (rr <? length next)%nat then
        if negb (JS.trim (cellAt next rr c) =? "")%string then JS.Normal next
        else JS.bindC (assignCell next rr c source) (fillLoop fuel' (S rr) c source)
      else JS.Normal next
  end.

(** the updater [fillDownFromCell] hands to [setCells] *)
Definition fillDownFromCell (r c : nat) (prev : SheetCellMatrix)
  : JS.completion SheetCellMatrix :=
  let next := prev in
  let source := cellAt next r c in
  if JS.isEmpty (JS.trim source) then JS.Normal prev
  else
    (* Fill down through contiguous blank cells only *)
    fillLoop (length next - (r + 1)) (r + 1) c source next.

(** [{ ...before, ...patch }] with the two adjustments of [onUpdateColumn] *)
Definition updatedColumn (before : ColumnDef) (patch : Patch.t) : ColumnDef :=
  {| id := default (id before) (Patch.id patch);
     name := default (name before) (Patch.name patch);
     type := default (type before) (Patch.type patch);
     required := default (required before) (Patch.required patch);
     description := default (description before) (Patch.description patch);
     enumValues :=
       (* If type changes away from enum, clear enum values *)
       match Patch.type patch with
       | Some ColumnType.enum | None =>
           default (enumValues before) (Patch.enumValues patch)
       | Some _ => []
       end;
     computed :=
       (* If type changes away from computed, clear computed spec *)
       match Patch.type patch with
       | Some ColumnType.computed | None =>
           default (computed before) (Patch.computed patch)
       | Some _ => None
       end;
     format :=
       match Patch.format patch with
       | Some f => Some f
       | None => format before
       end |}.

(** the updater [onUpdateColumn] hands to [setColumns], for a column that
    exists; [None] when [prev[idx]] is undefined, where the result is not
    an array of [ColumnDef] *)
Definition onUpdateColumn (idx : nat) (patch : Patch.t) (prev : list ColumnDef)
  : option (list ColumnDef) :=
  match prev !! idx with
  | Some before => Some (<[idx := updatedColumn before patch]> prev)
  | None => None
  end.

(** the [while] loop of [mockSuggestColumnsFromPurpose], of at most
    [fuel] rounds *)
Fixpoint padColumns (fuel : nat) (cols : list ColumnDef) : list ColumnDef :=
  match fuel with
  | O => cols
  | S fuel' =>
      if (length cols <? 12)%nat then
        let i := length cols in
        padColumns fuel'
          (cols ++ [{| id := "extra_" +:+ JS.intToString (Z.of_nat i);
                       name := JS.fromCharCode (65 + N.of_nat i);
                       type := ColumnType.untyped;
                       required := false;
                       description := "";
                       enumValues := [];
                       computed := None;
                       format := None |}])
      else cols
  end.

Definition mockSuggestColumnsFromPurpose (purpose : string) : list ColumnDef :=
  let p := JS.toLowerCase purpose in
  if JS.stringIncludes p "investment grade" || JS.stringIncludes p "primary market"
     || JS.stringIncludes p "ig"
  then
    let col i n t r d e :=
      {| id := i; name := n; type := t; required := r; description := d;
         enumValues := e; computed := None; format := None |} in
    padColumns 12
      [ col "date" "Pricing Date" ColumnType.date true "Deal pricing date" [];
        col "issuer" "Issuer" ColumnType.text true "Company / issuer name" [];
        col "currency" "Currency" ColumnType.enum true "Deal currency" ["USD"; "EUR"; "GBP"];
        col "amount_mm" "Amount (mm)" ColumnType.number true "Deal size in millions" [];
        col "spread_bp" "Spread (bp)" ColumnType.number true
            "Spread in basis points (e.g., 120)" [];
        col "coupon_pct" "Coupon (%)" ColumnType.percent false
            "Coupon percent (e.g., 5.25)" [];
        col "maturity" "Maturity Date" ColumnType.date true "Bond maturity date" [];
        col "sector" "Sector" ColumnType.enum false "Issuer sector"
            ["Financials"; "Industrials"; "Utilities"; "TMT"; "Healthcare"];
        col "ratings" "Ratings (M/S/F)" ColumnType.text false "Example: A3/A-/A-" [] ]
  else
    (* Default: keep 12 columns but label A-L, mark as untyped *)
    makeDefaultColumns 12.


End Workbook.

(** ** SchemaBuilder.tsx: the saved state of the schema builder *)

Module SchemaBuilder.

Record SavedState := {
  prompt : string;
  columns : option (list JS.json);
  rows : list JS.json
}.

Definition defaultSaved : SavedState :=
  {| prompt := ""; columns := None; rows := [] |}.

(** the body of the [try] block of [loadSaved] after [JSON.parse] *)
Definition hydrate (parsed : JS.json) : JS.completion SavedState :=
  JS.bindC (JS.getProp parsed "prompt") (fun pPrompt =>
  JS.bindC (JS.getProp parsed "columns") (fun pColumns =>
  JS.bindC (JS.getProp parsed "rows") (fun pRows =>
  JS.Normal
    {| prompt := match pPrompt with Some (JS.JStr p) => p | _ => "" end;
       columns := JS.asArray pColumns;
       rows := default [] (JS.asArray pRows) |}))).

Definition loadSaved (stored : Workbook.StoredItem) : SavedState :=
  match stored with
  | Workbook.NoItem => defaultSaved
  | Workbook.Item (JS.Throw _) => defaultSaved
  | Workbook.Item (JS.Normal parsed) =>
      match hydrate parsed with
      | JS.Normal st => st
      | JS.Throw _ => defaultSaved
      end
  end.

(** the class [[a-z0-9]] *)
Definition isSlugChar (c : ascii) : bool :=
  let n := N_of_ascii c in
  JS.isDigit c || ((97 <=? n) && (n <=? 122))%N.

(** [s.replace(/[^a-z0-9]+/g, "_")]; [inRun] tells that the character
    before belongs to a run that was replaced *)
Fixpoint replaceRuns (inRun : bool) (s : string) : string :=
  match s with
  | EmptyString => EmptyString
  | String c s' =>
      if isSlugChar c then String c (replaceRuns false s')
      else if inRun then replaceRuns true s'
           else String "_" (replaceRuns true s')
  end.

(** [s.replace(/^_+|_+$/g, "")], the leading run and then the trailing one *)
Fixpoint dropLeadingUnderscores (s : string) : string :=
  match s with
  | String c s' => if (c =? "_")%char then dropLeadingUnderscores s' else s
  | EmptyString => EmptyString
  end.

Fixpoint dropTrailingUnderscores (s : string) : string :=
  match s with
  | EmptyString => EmptyString
  | String c s' =>
      match dropTrailingUnderscores s' with
      | EmptyString => if (c =? "_")%char then EmptyString else String c EmptyString
      | t => String c t
      end
  end.

Definition slugify (s : string) : string :=
  JS.takeStr 40
    (dropTrailingUnderscores
       (dropLeadingUnderscores
          (replaceRuns false (JS.toLowerCase (JS.trim s))))).

(** the state [addColumn] sets: the columns, and the rows extended with
    the new column *)
Definition addColumn (columns : option (list DataGrid.ColumnSpec))
    (prevRows : list DataGrid.Row)
  : list DataGrid.ColumnSpec * list DataGrid.Row :=
  let base := "new_column" in
  let nextIndex :=
    (match columns with
     | Some cs => length (filter (fun c => Is_true (JS.startsWith (DataGrid.id c) base)) cs)
     | None => 0
     end + 1)%nat in
  let newId := base +:+ "_" +:+ JS.intToString (Z.of_nat nextIndex) in
  let newCol :=
    {| DataGrid.id := newId;
       DataGrid.name := "New Column";
       DataGrid.type := DataGrid.text;
       DataGrid.required := false;
       DataGrid.description := None;
       DataGrid.enumValues := None |} in
  (match columns with
   | Some prev => (prev ++ [newCol])%list
   | None => [newCol]
   end,
   (* Extend existing rows with that new column *)
   map (fun r => <[newId := default "" (r !! newId)]> r) prevRows).

(** a [Partial<ColumnSpec>] as the handlers build it *)
Module SpecPatch.
Record t := {
  name : option string;
  type : option DataGrid.ColumnType;
  required : option bool;
  description : option string;
  enumValues : option (list string)
}.
End SpecPatch.



(** the state [removeColumn] sets; reading [col.id] of a column that
    does not exist is a [TypeError], met when there is a row to update *)
Definition removeColumn (idx : nat) (prev : list DataGrid.ColumnSpec)
    (prevRows : list DataGrid.Row)
  : JS.completion (list DataGrid.ColumnSpec * list DataGrid.Row) :=
  let next := delete idx prev in
  match prev !! idx, prevRows with
  | Some col, _ =>
      (* Remove this key from all rows *)
      JS.Normal (next, map (delete (DataGrid.id col)) prevRows)
  | None, [] => JS.Normal (next, [])
  | None, _ :: _ => JS.Throw JS.TypeError
  end.

End SchemaBuilder.

(** ** Vocabulary of the statements, and sample data *)

Module Samples.
Import ColumnPanel.

(** a column of the workbook with everything but its type, its
    [required] flag and its format left at the defaults *)
Definition column (ty : ColumnType) (req : bool) (fmt : option ColumnFormat)
  : ColumnDef :=
  {| id := "col_0"; name := "A"; type := ty; required := req;
     description := ""; enumValues := []; computed := None; format := fmt |}.

(** a computed column over the columns [a] and [b] *)
Definition computedColumn (k : ComputedKind) (a b : string) : ColumnDef :=
  {| id := "col_2"; name := "C"; type := ColumnType.computed; required := false;
     description := ""; enumValues := [];
     computed := Some {| kind := k; inputs := [a; b] |};
     format := None |}.

(** a column of the schema builder *)
Definition builderColumn (ty : DataGrid.ColumnType) (req : bool)
  : DataGrid.ColumnSpec :=
  {| DataGrid.id := "value"; DataGrid.name := "Value"; DataGrid.type := ty;
     DataGrid.required := req; DataGrid.description := None;
     DataGrid.enumValues := None |}.

(** the row [{a: x, b: y}] *)
Definition rowAB (x y : string) : gmap string string :=
  <["a" := x]> (<["b" := y]> ∅).

(** the reason a numeric column gives for an input that is not a number *)
Definition numericReason (ty : ColumnType) : string :=
  match ty with
  | ColumnType.currency => "Must be a currency amount"
  | _ => "Must be a number"
  end.



(** a string is blank when trimming leaves nothing *)
Definition blank (s : string) : Prop := JS.trim s = "".

(** the matrix of [rows] by [cols] cells whose cell [(r, c)] is [f r c] *)
Definition tabulate (rows cols : nat) (f : nat -> nat -> string)
  : SpreadsheetGrid.SheetCellMatrix :=
  map (fun r => map (f r) (seq 0 cols)) (seq 0 rows).

(** a Number that is [+0] or [-0] *)
Definition isZero (x : JS.number) : bool :=
  match x with S754_zero _ => true | _ => false end.

(** a Number is well formed when, finite and not zero, its exponent is
    at least that of the unit *)
Definition wellFormed (x : JS.number) : Prop :=
  match x with
  | S754_finite _ _ e => -1074 <= e
  | _ => True
  end.

(** [p] counted in units *)
Definition scaled (p : Z) : Z := p * 2 ^ 1074.

(** the exponent, in units, at which [p/q] is rounded *)
Definition roundingExp (p q : Z) : Z :=
  Z.max 0 (JS.floorLog2 (scaled p) q - 52).

Definition roundingDen (p q : Z) : Z := q * 2 ^ roundingExp p q.

(** the largest significand at that exponent that is not above [p/q] *)
Definition roundingFloor (p q : Z) : Z := scaled p / roundingDen p q.

(** the Number value for [p/q] in units, before the overflow test *)
Definition rounded (p q : Z) : Z :=
  JS.roundHalfEven (scaled p) (roundingDen p q) * 2 ^ roundingExp p q.

(** the non-negative finite Numbers, in units: 53 significant bits *)
Definition representable (y : Z) : Prop :=
  exists M j, y = M * 2 ^ j /\ 0 <= M < 2 ^ 53 /\ 0 <= j.



(** the property [k] of a blob, [None] when it has none *)
Definition field (blob : JS.json) (k : string) : option JS.json :=
  match JS.getProp blob k with
  | JS.Normal v => v
  | JS.Throw _ => None
  end.

(** every field of a loaded workbook state is the blob's *)
Definition fullyPersisted (blob : JS.json) (st : Workbook.WorkbookState) : Prop :=
  field blob "purpose" = Some (JS.JStr (Workbook.purpose st)) /\
  field blob "rowCount" = Some (JS.JNum (Workbook.rowCount st)) /\
  exists cols, field blob "columns" = Some (JS.JArr cols) /\
               Workbook.columns st = Workbook.PersistedColumns cols.

(** a blob whose row count is a string *)
Definition malformedBlob : JS.json :=
  JS.JObj [("purpose", JS.JStr "Budget"); ("rowCount", JS.JStr "7");
           ("columns", JS.JArr [JS.JObj [("id", JS.JStr "a")]]);
           ("cells", JS.JArr [JS.JArr [JS.JStr "x"]])].

(** a saved state of the schema builder whose prompt is a number *)
Definition malformedSaved : JS.json :=
  JS.JObj [("prompt", JS.JNum (JS.ofZ 7)); ("rows", JS.JArr [JS.JObj [("name", JS.JStr "x")]])].

(** every character of the string satisfies the test *)
Fixpoint allChars (P : ascii -> bool) (s : string) : bool :=
  match s with
  | EmptyString => true
  | String c s' => P c && allChars P s'
  end.

Definition notWhiteSpace (c : ascii) : bool := negb (JS.isWhiteSpace c).

(** the sign as [toFixed] and [toString] print it *)
Definition signText (s : bool) : string := if s then "-" else "".

(** what [toFixed] prints for the count [n] of units of [10^-f] *)
Definition fixedText (n f : Z) : string :=
  let ds := JS.digitsOf n in
  if f =? 0 then ds
  else
    let ds' := JS.padStart0 (Z.to_nat f + 1) ds in
    let k := String.length ds' in
    JS.takeStr (k - Z.to_nat f) ds' +:+ "." +:+ JS.dropStr (k - Z.to_nat f) ds'.

(** the characters of a number in fixed notation *)
Definition plainChar (c : ascii) : bool :=
  JS.isDigit c || (c =? "-")%char || (c =? ".")%char.

(** the count of units of [10^-f] that [toFixed] prints for a magnitude
    of [x] units of [2^-1074] *)
Definition fixedCount (x f : Z) : Z := JS.roundHalfUp (x * 10 ^ f) (2 ^ 1074).

(** a Number that, when finite and not zero, has a significand of at most
    53 bits and an exponent of at least that of the unit *)
Definition binary64 (x : JS.number) : Prop :=
  match x with
  | S754_finite _ m e => -1074 <= e /\ Z.pos m < 2 ^ 53
  | _ => True
  end.

(** the column types that [applyFormattingOnBlur] prints with [toFixed] *)
Definition isNumeric (ty : ColumnType) : bool :=
  match ty with
  | ColumnType.number | ColumnType.currency | ColumnType.percent => true
  | _ => false
  end.

(** what follows the digits of a formatted cell *)
Definition unitSuffix (ty : ColumnType) : string :=
  match ty with
  | ColumnType.percent => "%"
  | _ => ""
  end.

(** the decimals [applyFormattingOnBlur] passes to [toFixed], as the
    integer [toFixed] makes of them; [None] for an infinite one *)
Definition decimalPlaces (col : ColumnDef) : option Z :=
  SpreadsheetGrid.ToIntegerOrInfinity
    (default (JS.ofZ 2) (format col ≫= ColumnPanel.decimals)).

(** a negative Number that [toFixed] prints with [f] decimals as a
    negative zero *)
Definition rendersNegativeZero (x : JS.number) (f : Z) : bool :=
  match x with
  | S754_finite true m e => fixedCount (JS.units m e) f =? 0
  | _ => false
  end.

(** the magnitude of a finite Number, in units *)
Definition magnitudeUnits (x : JS.number) : Z := Z.abs (JS.signedUnits x).

(** what [formatDate] prints in the ISO form for the local time [t] *)
Definition isoDate (t : Z) : string :=
  JS.intToString (JS.YearFromTime t) +:+ "-"
  +:+ JS.padStart0 2 (JS.intToString (JS.MonthFromTime t + 1)) +:+ "-"
  +:+ JS.padStart0 2 (JS.intToString (JS.DateFromTime t)).

(** a host five hours behind UTC whose fallback parser accepts nothing *)
Definition westHost : JS.Host :=
  {| JS.LocalTZA := fun _ _ => -18000000; JS.legacyDateParse := fun _ => None |}.

(** the number of columns of a loaded state *)
Definition columnCount (cs : Workbook.Columns) : nat :=
  match cs with
  | Workbook.PersistedColumns cols => length cols
  | Workbook.DefinedColumns cols => length cols
  end.

(** every row of the matrix has [w] cells *)
Definition rectangular (w : nat) (m : SpreadsheetGrid.SheetCellMatrix) : Prop :=
  Forall (fun row => length row = w) m.


(** the capital letters A to Z *)
Definition isUpperCase (c : ascii) : bool :=
  let n := N_of_ascii c in ((65 <=? n) && (n <=? 90))%N.

(** whether [i] and [j] are the same index or neighbours on a line *)
Definition adjacent (i j : Z) : Prop := Z.abs (i - j) <= 1.

(** the characters of a slug *)
Definition slugOrUnderscore (c : ascii) : bool :=
  SchemaBuilder.isSlugChar c || (c =? "_")%char.

(** the first character of a string, if any, satisfies the test *)
Definition headIs (P : ascii -> bool) (s : string) : bool :=
  match s with
  | String c _ => P c
  | EmptyString => true
  end.


(** a column of the schema builder with the id [i] *)
Definition builderColumnWithId (i : string) : DataGrid.ColumnSpec :=
  {| DataGrid.id := i; DataGrid.name := "New Column"; DataGrid.type := DataGrid.text;
     DataGrid.required := false; DataGrid.description := None;
     DataGrid.enumValues := None |}.


(** the text of the opposite of a number that is not zero *)
Definition oppositeText (t : string) : string :=
  match t with
  | String "-" r => r
  | _ => "-" +:+ t
  end.

(** a column type of the schema builder as a column type of the workbook *)
Definition workbookType (t : DataGrid.ColumnType) : ColumnType :=
  match t with
  | DataGrid.date => ColumnType.date
  | DataGrid.text => ColumnType.text
  | DataGrid.number => ColumnType.number
  | DataGrid.currency => ColumnType.currency
  | DataGrid.percent => ColumnType.percent
  | DataGrid.enum => ColumnType.enum
  end.

(** a column of the schema builder as a column of the workbook *)
Definition asColumnDef (spec : DataGrid.ColumnSpec) : ColumnDef :=
  {| id := DataGrid.id spec;
     name := DataGrid.name spec;
     type := workbookType (DataGrid.type spec);
     required := DataGrid.required spec;
     description := default "" (DataGrid.description spec);
     enumValues := default [] (DataGrid.enumValues spec);
     computed := None;
     format := None |}.

(** a character that the permissive numeric parse keeps *)
Definition keptChar (c : ascii) : bool := negb (SpreadsheetGrid.numberNoise c).

End Samples.

(** ** Tactics *)

(** one step of [+:+] on a string that starts with known characters *)
Ltac str_simpl :=
  repeat (progress (simpl;
    repeat match goal with
           | |- context [String ?c ?s +:+ ?t] =>
               change (String c s +:+ t) with (String c (s +:+ t))
           | |- context [EmptyString +:+ ?t] =>
               change (EmptyString +:+ t) with t
           end)).

(** the 256 characters, one by one *)
Ltac each_char c := destruct c as [[] [] [] [] [] [] [] []].

(* ================================================================== *)
(** * Part III. Properties                                             *)
(* ================================================================== *)

(** ** Strings *)

Module StringFacts.
Import JS.

Lemma isEmpty_true s : isEmpty s = true <-> s = "".
Proof. destruct s; simpl; split; congruence. Qed.

Lemma isEmpty_false s : isEmpty s = false <-> s <> "".
Proof. destruct s; simpl; split; congruence. Qed.

Lemma length_eqb_isEmpty s : (String.length s =? 0)%nat = isEmpty s.
Proof. destruct s; reflexivity. Qed.

(** trimStart leaves the empty string or a string that starts with a
    character that is not white space *)
Lemma trimStart_head s :
  trimStart s = "" \/
  exists c t, trimStart s = String c t /\ isWhiteSpace c = false.
Proof.
  induction s as [|c s IH]; simpl; [by left|].
  destruct (isWhiteSpace c) eqn:Hc; [exact IH|].
  right. by exists c, s.
Qed.

Lemma trimStart_fixed c t :
  isWhiteSpace c = false -> trimStart (String c t) = String c t.
Proof. intros Hc. simpl. by rewrite Hc. Qed.

Lemma trimEnd_head c t :
  isWhiteSpace c = false -> exists t', trimEnd (String c t) = String c t'.
Proof.
  intros Hc. simpl. destruct (trimEnd t); rewrite ?Hc; eauto.
Qed.

Lemma trimEnd_idem s : trimEnd (trimEnd s) = trimEnd s.
Proof.
  induction s as [|c s IH]; simpl; [done|].
  destruct (trimEnd s) as [|d t] eqn:Ht.
  - destruct (isWhiteSpace c) eqn:Hc; simpl; [done|]. by rewrite Hc.
  - change (trimEnd (String c (String d t))) with
      (match trimEnd (String d t) with
       | "" => if isWhiteSpace c then "" else String c ""
       | u => String c u
       end).
    by rewrite IH.
Qed.

Lemma trim_idem s : trim (trim s) = trim s.
Proof.
  unfold trim.
  destruct (trimStart_head s) as [-> | (c & t & -> & Hc)]; [done|].
  destruct (trimEnd_head c t Hc) as [t' Ht'].
  rewrite Ht', (trimStart_fixed _ _ Hc), <- Ht'. apply trimEnd_idem.
Qed.

Lemma trim_empty : trim "" = "".
Proof. reflexivity. Qed.

Section RemoveAll.
Context (cls : ascii -> bool).
Hypothesis cls_ws : forall c, isWhiteSpace c = true -> cls c = true.

Lemma removeAll_trimStart s : removeAll cls (trimStart s) = removeAll cls s.
Proof using cls_ws.
  induction s as [|c s IH]; simpl; [done|].
  destruct (isWhiteSpace c) eqn:Hc; [|done].
  by rewrite (cls_ws _ Hc).
Qed.

Lemma removeAll_trimEnd s : removeAll cls (trimEnd s) = removeAll cls s.
Proof using cls_ws.
  induction s as [|c s IH]; simpl; [done|].
  destruct (trimEnd s) as [|d t] eqn:Ht.
  - destruct (isWhiteSpace c) eqn:Hc; simpl.
    + by rewrite (cls_ws _ Hc), <- IH.
    + by rewrite <- IH.
  - simpl in *. by rewrite IH.
Qed.

Lemma removeAll_trim s : removeAll cls (trim s) = removeAll cls s.
Proof using cls_ws.
  unfold trim. by rewrite removeAll_trimEnd, removeAll_trimStart.
Qed.
End RemoveAll.

End StringFacts.

(** ** Numbers: rounding to the nearest Number *)

Module NumberFacts.
Import JS SpreadsheetGrid Samples.

Lemma pow2_pos k : 0 <= k -> 0 < 2 ^ k.
Proof. intros. apply Z.pow_pos_nonneg; lia. Qed.

Lemma pow2_split a b : 0 <= a -> 0 <= b -> 2 ^ (a + b) = 2 ^ a * 2 ^ b.
Proof. intros. apply Z.pow_add_r; lia. Qed.

Lemma pow2_le a b : a <= b -> 2 ^ a <= 2 ^ b.
Proof. intros. apply Z.pow_le_mono_r; lia. Qed.

Lemma floorLog2_spec p q :
  0 < p -> 0 < q ->
  let l := floorLog2 p q in
  (0 <= l -> q * 2 ^ l <= p < q * 2 ^ (l + 1)) /\ (l < 0 -> p < q).
Proof.
  intros Hp Hq. unfold floorLog2.
  pose proof (Z.log2_spec p Hp) as [Hp1 Hp2].
  pose proof (Z.log2_spec q Hq) as [Hq1 Hq2].
  pose proof (Z.log2_nonneg p) as Ha. pose proof (Z.log2_nonneg q) as Hb.
  set (a := Z.log2 p) in *. set (b := Z.log2 q) in *.
  rewrite <- !Z.add_1_r in *.
  destruct (Z_lt_le_dec (a - b) 0) as [Hk|Hk].
  - (* the test is against 0 *)
    rewrite (Z.pow_neg_r 2 (a - b)) by lia.
    rewrite Z.mul_0_r. destruct (Z.leb_spec 0 p); [|lia].
    cbv zeta. split; [lia|]. intros _.
    pose proof (pow2_le (a + 1) b ltac:(lia)). lia.
  - assert (Hab : 2 ^ a = 2 ^ b * 2 ^ (a - b)).
    { rewrite <- pow2_split by lia. f_equal. lia. }
    pose proof (pow2_pos (a - b) Hk) as Hpk.
    destruct (Z.leb_spec (q * 2 ^ (a - b)) p) as [Hle|Hgt]; cbv zeta.
    + split; [|lia]. intros _. split; [done|].
      rewrite pow2_split by lia. change (2 ^ 1) with 2.
      rewrite (pow2_split a 1) in Hp2 by lia. change (2 ^ 1) with 2 in Hp2.
      nia.
    + replace (a - b - 1 + 1) with (a - b) by lia.
      split.
      * intros Hl. split; [|done].
        assert (H2 : 2 ^ (a - b) = 2 * 2 ^ (a - b - 1)).
        { replace (a - b) with (1 + (a - b - 1)) at 1 by lia.
          rewrite pow2_split by lia. done. }
        pose proof (pow2_pos (a - b - 1) Hl).
        rewrite (pow2_split b 1) in Hq2 by lia. change (2 ^ 1) with 2 in Hq2.
        nia.
      * intros Hl. assert (a - b = 0) as E by lia. rewrite E in Hgt.
        change (2 ^ 0) with 1 in Hgt. lia.
Qed.

Lemma roundHalfEven_spec n d :
  0 < d ->
  let m := roundHalfEven n d in
  (m = n / d /\ 2 * (n mod d) <= d) \/ (m = n / d + 1 /\ d <= 2 * (n mod d)).
Proof.
  intros Hd. unfold roundHalfEven. cbv zeta.
  destruct (Z.compare_spec (2 * (n mod d)) d).
  - destruct (Z.even (n / d)); [left|right]; lia.
  - left; lia.
  - right; lia.
Qed.

Section Rounding.
Context (p q : Z) (Hp : 0 < p) (Hq : 0 < q).

Local Abbreviation P := (scaled p).
Local Abbreviation k := (roundingExp p q).
Local Abbreviation den := (roundingDen p q).
Local Abbreviation fl := (roundingFloor p q).

Lemma rounding_exp_nonneg : 0 <= k.
Proof using Hp Hq. unfold roundingExp. lia. Qed.

Lemma rounding_den_pos : 0 < den.
Proof using Hp Hq.
  unfold roundingDen. pose proof (pow2_pos k rounding_exp_nonneg). nia.
Qed.

Lemma rounding_P_pos : 0 < P.
Proof using Hp Hq.
  unfold scaled. apply Z.mul_pos_pos; [done|]. by apply pow2_pos.
Qed.

Lemma rounding_floor : fl * den <= P < (fl + 1) * den.
Proof using Hp Hq.
  pose proof rounding_den_pos as Hd. unfold roundingFloor.
  pose proof (Z.mul_div_le P den Hd).
  pose proof (Z.mul_succ_div_gt P den Hd). lia.
Qed.

Lemma rounding_floor_bounds : 0 <= fl < 2 ^ 53 /\ (0 < k -> 2 ^ 52 <= fl).
Proof using Hp Hq.
  pose proof rounding_den_pos as Hd. pose proof rounding_P_pos as HP.
  pose proof (floorLog2_spec P q HP Hq) as [Hl1 Hl2]. cbv zeta in Hl1, Hl2.
  assert (Hk : k = Z.max 0 (floorLog2 P q - 52)) by reflexivity.
  set (l := floorLog2 P q) in *.
  assert (H0 : 0 <= fl) by (apply Z.div_pos; lia).
  destruct (Z_lt_le_dec l 52) as [Hlt|Hge].
  - assert (k = 0) as Hk0 by lia.
    split; [|lia]. split; [done|].
    apply Z.div_lt_upper_bound; [done|].
    unfold roundingDen. rewrite Hk0. change (2 ^ 0) with 1.
    destruct (Z_lt_le_dec l 0) as [Hneg|Hpos].
    + specialize (Hl2 Hneg). lia.
    + destruct (Hl1 Hpos) as [_ Hup].
      pose proof (pow2_le (l + 1) 53 ltac:(lia)). nia.
  - assert (k = l - 52) as Hkl by lia.
    destruct (Hl1 ltac:(lia)) as [Hlo Hup].
    assert (E1 : 2 ^ l = 2 ^ k * 2 ^ 52).
    { rewrite <- pow2_split by lia. f_equal. lia. }
    assert (E2 : 2 ^ (l + 1) = 2 ^ k * 2 ^ 53).
    { rewrite <- pow2_split by lia. f_equal. lia. }
    split; [split; [done|]|intros _].
    + apply Z.div_lt_upper_bound; [done|]. unfold roundingDen. nia.
    + apply Z.div_le_lower_bound; [done|]. unfold roundingDen. nia.
Qed.

Lemma rounded_cases :
  let m := roundHalfEven P den in
  rounded p q = m * 2 ^ k /\
  ((m = fl /\ 2 * (P - fl * den) <= den) \/
   (m = fl + 1 /\ den <= 2 * (P - fl * den))).
Proof using Hp Hq.
  cbv zeta. split; [reflexivity|].
  pose proof rounding_den_pos as Hd.
  pose proof (roundHalfEven_spec P den Hd) as Hr. cbv zeta in Hr.
  pose proof (Z.div_mod P den ltac:(lia)) as Hdm.
  assert (E : P mod den = P - fl * den) by (unfold roundingFloor; lia).
  rewrite E in Hr. exact Hr.
Qed.

(** no representable number lies strictly between the two neighbours *)
Lemma rounding_gap y :
  representable y -> y <= fl * 2 ^ k \/ (fl + 1) * 2 ^ k <= y.
Proof using Hp Hq.
  intros (M & j & -> & HM & Hj).
  pose proof rounding_exp_nonneg as Hk.
  pose proof rounding_floor_bounds as [Hfl Hnorm].
  pose proof (pow2_pos k Hk) as Hpk.
  destruct (Z_lt_le_dec j k) as [Hlt|Hge].
  - left. specialize (Hnorm ltac:(lia)).
    assert (E : 2 ^ k = 2 ^ j * 2 ^ (k - j)).
    { rewrite <- pow2_split by lia. f_equal. lia. }
    pose proof (pow2_pos j Hj).
    assert (2 <= 2 ^ (k - j)).
    { change 2 with (2 ^ 1) at 1. apply pow2_le. lia. }
    change (2 ^ 53) with (2 * 2 ^ 52) in HM. nia.
  - assert (E : 2 ^ j = 2 ^ (j - k) * 2 ^ k).
    { rewrite <- pow2_split by lia. f_equal. lia. }
    rewrite E. pose proof (pow2_pos (j - k) ltac:(lia)).
    destruct (Z_le_gt_dec (M * 2 ^ (j - k)) fl); [left|right]; nia.
Qed.

Lemma rounded_lower lo :
  representable lo -> lo * q <= P -> lo <= rounded p q.
Proof using Hp Hq.
  intros Hrep Hlo.
  pose proof rounded_cases as [-> Hm]. cbv zeta in Hm.
  pose proof rounding_floor as Hf.
  pose proof (pow2_pos k rounding_exp_nonneg) as Hpk.
  assert (lo <= fl * 2 ^ k).
  { destruct (rounding_gap lo Hrep) as [|Hhi]; [done|].
    exfalso. unfold roundingDen in Hf. nia. }
  destruct Hm as [[-> _]|[-> _]]; nia.
Qed.

Lemma rounded_upper hi :
  representable hi -> P <= hi * q -> rounded p q <= hi.
Proof using Hp Hq.
  intros Hrep Hhi.
  pose proof rounded_cases as [-> Hm]. cbv zeta in Hm.
  pose proof rounding_floor as Hf.
  pose proof (pow2_pos k rounding_exp_nonneg) as Hpk.
  destruct (rounding_gap hi Hrep) as [Hle|Hge].
  - assert (HP : P = fl * den) by (unfold roundingDen in *; nia).
    destruct Hm as [[-> _]|[-> Hup]].
    + unfold roundingDen in HP. nia.
    + pose proof rounding_den_pos. lia.
  - destruct Hm as [[-> _]|[-> _]]; nia.
Qed.

(** the rounded value is as near to [p/q] as any representable number *)
Lemma rounded_nearest y :
  representable y -> Z.abs (rounded p q * q - P) <= Z.abs (y * q - P).
Proof using Hp Hq.
  intros Hrep.
  pose proof rounded_cases as [-> Hm]. cbv zeta in Hm.
  pose proof rounding_floor as Hf.
  pose proof (pow2_pos k rounding_exp_nonneg) as Hpk.
  assert (Hden : forall x, x * 2 ^ k * q = x * den)
    by (intros; unfold roundingDen; ring).
  destruct (rounding_gap y Hrep) as [Hle|Hge].
  - assert (y * q <= fl * den) by (rewrite <- Hden; nia).
    destruct Hm as [[-> Hdn]|[-> Hup]]; rewrite Hden; lia.
  - assert ((fl + 1) * den <= y * q) by (rewrite <- Hden; nia).
    destruct Hm as [[-> Hdn]|[-> Hup]]; rewrite Hden; lia.
Qed.

Lemma rounded_representable : representable (rounded p q) \/ rounded p q = 2 ^ 53 * 2 ^ k.
Proof using Hp Hq.
  pose proof rounded_cases as [-> Hm]. cbv zeta in Hm.
  pose proof rounding_floor_bounds as [Hfl _].
  destruct (Z.eq_dec (roundHalfEven P den) (2 ^ 53)) as [->|Hne]; [by right|].
  left. exists (roundHalfEven P den), k.
  split; [done|]. split; [|apply rounding_exp_nonneg].
  destruct Hm as [[-> _]|[E _]]; lia.
Qed.

(** the result of [numberValue] in terms of [rounded] *)
Lemma numberValue_rounded s :
  (rounded p q = 0 -> numberValue s p q = S754_zero s) /\
  (0 < rounded p q < 2 ^ 2098 ->
   exists m e, numberValue s p q = S754_finite s m e /\
     units m e = rounded p q /\ Zpos m < 2 ^ 53 /\ -1074 <= e) /\
  (2 ^ 2098 <= rounded p q -> numberValue s p q = S754_infinity s).
Proof using Hp Hq.
  pose proof rounded_cases as [Hr Hm]. cbv zeta in Hm.
  pose proof rounding_floor_bounds as [Hfl Hnorm].
  pose proof rounding_exp_nonneg as Hk.
  pose proof (pow2_pos k Hk) as Hpk.
  unfold numberValue. destruct (Z.eqb_spec p 0); [lia|].
  change (p * 2 ^ 1074) with P.
  change (Z.max 0 (floorLog2 P q - 52)) with k.
  change (q * 2 ^ k) with den.
  set (m := roundHalfEven P den) in *. cbv zeta.
  assert (Hmb : 0 <= m <= 2 ^ 53) by (destruct Hm as [[-> _]|[-> _]]; lia).
  assert (Hbig : 2 ^ 2098 = 2 ^ 53 * 2 ^ 2045) by reflexivity.
  assert (Hm52 : k > 0 -> 2 ^ 52 <= m)
    by (intros; destruct Hm as [[-> _]|[-> _]]; lia).
  destruct (Z.eqb_spec m 0) as [Hz|Hnz].
  { split; [done|]. rewrite Hr, Hz. split; [lia|].
    intros Hge. exfalso. lia. }
  split; [intros Hz; rewrite Hr in Hz; nia|].
  destruct (Z.eqb_spec m (2 ^ 53)) as [Hm53|Hm53].
  - destruct (Z.leb_spec (k + 1) 2045) as [Hk1|Hk1].
    + split.
      * intros _. eexists _, _. split; [reflexivity|].
        split; [|split; [reflexivity|lia]].
        unfold units. rewrite Hr, Hm53.
        replace (k + 1 - 1074 + 1074) with (1 + k) by lia.
        rewrite pow2_split by lia.
        change (Z.pos (Z.to_pos (2 ^ 52))) with (2 ^ 52).
        change (2 ^ 53) with (2 ^ 52 * 2 ^ 1). ring.
      * intros Hge. exfalso. rewrite Hr, Hm53, Hbig in Hge.
        pose proof (Z.pow_lt_mono_r 2 k 2045 ltac:(lia) ltac:(lia) ltac:(lia)). nia.
    + split; [|done]. intros [_ Hlt]. exfalso.
      rewrite Hr, Hm53, Hbig in Hlt.
      pose proof (pow2_le 2045 k ltac:(lia)). nia.
  - destruct (Z.leb_spec k 2045) as [Hk1|Hk1].
    + split.
      * intros _. exists (Z.to_pos m), (k - 1074). split; [reflexivity|].
        split; [|split; [rewrite Z2Pos.id; lia|lia]].
        unfold units. rewrite Z2Pos.id by lia. rewrite Hr. f_equal. f_equal. lia.
      * intros Hge. exfalso. rewrite Hr, Hbig in Hge.
        pose proof (pow2_le k 2045 ltac:(lia)). nia.
    + split; [|done]. intros [_ Hlt]. exfalso.
      rewrite Hr, Hbig in Hlt. specialize (Hm52 ltac:(lia)).
      pose proof (pow2_le 2046 k ltac:(lia)).
      change (2 ^ 2046) with (2 * 2 ^ 2045) in *.
      change (2 ^ 53) with (2 * 2 ^ 52) in *. nia.
Qed.

End Rounding.

Lemma units_pos m e : -1074 <= e -> 0 < units m e.
Proof.
  intros He. unfold units.
  apply Z.mul_pos_pos; [lia|]. apply Z.pow_pos_nonneg; lia.
Qed.

Lemma numberValue_wellFormed s p q : wellFormed (numberValue s p q).
Proof.
  unfold numberValue.
  repeat match goal with |- context [if ?b then _ else _] => destruct b end;
    simpl; lia.
Qed.

Lemma numberValue_signBit s p q :
  numberValue s p q <> S754_nan /\ signBit (numberValue s p q) = s.
Proof.
  unfold numberValue.
  repeat match goal with |- context [if ?b then _ else _] => destruct b end;
    simpl; split; congruence.
Qed.

Lemma numberOfDecimal_wellFormed s m e : wellFormed (numberOfDecimal s m e).
Proof. unfold numberOfDecimal. destruct (0 <=? e); apply numberValue_wellFormed. Qed.

Lemma Number_wellFormed str : wellFormed (Number str).
Proof.
  unfold Number. destruct (isEmpty _); [exact I|].
  destruct (parseNonDecimal _) as [[z|]|]; [apply numberValue_wellFormed|exact I|].
  unfold parseDecimal.
  match goal with |- context [let '(_, _) := ?x in _] => destruct x as [neg r] end.
  destruct (r =? "Infinity")%string; [exact I|].
  destruct (parseUnsignedDecimal r) as [[m e]|]; [apply numberOfDecimal_wellFormed|exact I].
Qed.

Lemma toNumberLike_wellFormed s n : toNumberLike s = Some n -> wellFormed n /\ isFinite n = true.
Proof.
  unfold toNumberLike. destruct (isEmpty _); [done|].
  destruct (isFinite _) eqn:Hf; [|done]. intros [= <-].
  split; [apply Number_wellFormed|done].
Qed.

Lemma strictEq_zero b :
  wellFormed b -> isFinite b = true -> strictEq b posZero = isZero b.
Proof.
  destruct b as [s| |  |s m e]; simpl; try done.
  intros He _. pose proof (units_pos m e He).
  destruct s; apply Z.eqb_neq; lia.
Qed.


Lemma representable_pow2 M j : 0 <= M < 2 ^ 53 -> 0 <= j -> representable (M * 2 ^ j).
Proof. intros. by exists M, j. Qed.

Lemma numberValue_between s p q lo hi :
  0 < p -> 0 < q -> representable lo -> representable hi ->
  0 < lo -> hi < 2 ^ 2098 ->
  lo * q <= scaled p -> scaled p <= hi * q ->
  exists m e, numberValue s p q = S754_finite s m e /\
    units m e = rounded p q /\ lo <= units m e <= hi /\
    Zpos m < 2 ^ 53 /\ -1074 <= e.
Proof.
  intros Hp Hq Hlo Hhi Hlo0 Hhi0 H1 H2.
  pose proof (rounded_lower p q Hp Hq lo Hlo H1).
  pose proof (rounded_upper p q Hp Hq hi Hhi H2).
  destruct (numberValue_rounded p q Hp Hq s) as (_ & Hfin & _).
  destruct Hfin as (m & e & E & Hu & Hm & He); [lia|].
  exists m, e. rewrite Hu. repeat split; try done; lia.
Qed.

Lemma numberValue_exact s p q y :
  0 < p -> 0 < q -> representable y -> 0 < y < 2 ^ 2098 ->
  y * q = scaled p ->
  exists m e, numberValue s p q = S754_finite s m e /\
    units m e = y /\ Zpos m < 2 ^ 53 /\ -1074 <= e.
Proof.
  intros Hp Hq Hy Hb E.
  destruct (numberValue_between s p q y y) as (m & e & E1 & _ & Hu & Hm & He);
    try done; try lia.
  exists m, e. repeat split; try done; lia.
Qed.

(** an integer below 2^53 in magnitude is a Number *)
Lemma ofZ_exact z :
  z <> 0 -> Z.abs z < 2 ^ 53 ->
  exists m e, ofZ z = S754_finite (z <? 0) m e /\
    units m e = Z.abs z * 2 ^ 1074 /\ -1074 <= e.
Proof.
  intros Hz Hb. unfold ofZ.
  assert (Hrep : representable (Z.abs z * 2 ^ 1074))
    by (apply representable_pow2; lia).
  assert (Hrange : 0 < Z.abs z * 2 ^ 1074 < 2 ^ 2098).
  { split; [lia|]. change (2 ^ 2098) with (2 ^ 1024 * 2 ^ 1074).
    apply Z.mul_lt_mono_pos_r; [reflexivity|].
    eapply Z.lt_trans; [exact Hb|reflexivity]. }
  assert (Hs : Z.abs z * 2 ^ 1074 * 1 = scaled (Z.abs z))
    by (unfold scaled; lia).
  destruct (numberValue_exact (z <? 0) (Z.abs z) 1 _ ltac:(lia) ltac:(lia)
              Hrep Hrange Hs) as (m & e & E & Hu & _ & He).
  by exists m, e.
Qed.

Lemma ofZ_zero : ofZ 0 = S754_zero false.
Proof. reflexivity. Qed.

End NumberFacts.

(** ** The validators *)

Module ValidatorFacts.
Import JS ColumnPanel SpreadsheetGrid StringFacts NumberFacts Samples.

Lemma numberNoise_ws c : isWhiteSpace c = true -> numberNoise c = true.
Proof. unfold numberNoise. intros ->. by rewrite !orb_true_r. Qed.

(** [toNumberLike] reads its argument through [trim] and the strip *)
Lemma toNumberLike_unfold s :
  toNumberLike s =
    if isEmpty (trim s) then None
    else let n := Number (removeAll numberNoise s) in
         if isFinite n then Some n else None.
Proof.
  unfold toNumberLike.
  by rewrite (removeAll_trim _ numberNoise_ws).
Qed.

Lemma toNumberLike_trim s : toNumberLike (trim s) = toNumberLike s.
Proof.
  rewrite !toNumberLike_unfold, trim_idem.
  by rewrite (removeAll_trim _ numberNoise_ws).
Qed.

(** a string that the strip empties is blank *)
Lemma strip_nonempty_trim s :
  removeAll numberNoise s <> "" -> trim s <> "".
Proof.
  intros Hs Ht. apply Hs.
  by rewrite <- (removeAll_trim _ numberNoise_ws), Ht.
Qed.

Lemma toDateLike_trim host s : toDateLike host (trim s) = toDateLike host s.
Proof. unfold toDateLike. by rewrite trim_idem. Qed.

End ValidatorFacts.

(** ** Claims on the validators and the formatter *)

Module ValidatorClaims.
Import JS ColumnPanel SpreadsheetGrid StringFacts ValidatorFacts Samples.

(** C3 fails as stated: an untyped column marked required accepts the
    empty string. *)
Lemma C3_untyped_required_accepts_empty :
  validateCell utcHost (column ColumnType.untyped true None) "" = None.
Proof. reflexivity. Qed.

(** C3, amended.  For every column of a type other than untyped and
    computed, the empty string is rejected with "Required" when the column
    is required and accepted when it is not; untyped and computed columns
    accept every input, required or not; the validator of the schema
    builder, whose columns are never untyped or computed, rejects the empty
    string exactly for required columns. *)
Theorem C3_validate_empty (host : Host) (col : ColumnDef) :
  (type col <> ColumnType.untyped -> type col <> ColumnType.computed ->
   validateCell host col "" = if required col then Some "Required" else None) /\
  (type col = ColumnType.untyped \/ type col = ColumnType.computed ->
   forall raw, validateCell host col raw = None) /\
  (forall dcol : DataGrid.ColumnSpec,
   DataGrid.validateCell host dcol "" =
     if DataGrid.required dcol then Some "Required" else None).
Proof.
  split; [|split].
  - intros Hu Hc. unfold validateCell.
    destruct (type col); try congruence; simpl; by destruct (required col).
  - intros [H | H] raw; unfold validateCell; by rewrite H.
  - intros dcol. unfold DataGrid.validateCell. simpl.
    by destruct (DataGrid.required dcol).
Qed.

Lemma C3_validate_empty_witness :
  validateCell utcHost (column ColumnType.text true None) "" = Some "Required" /\
  validateCell utcHost (column ColumnType.computed true None) "x" = None.
Proof.
  pose proof (C3_validate_empty utcHost (column ColumnType.text true None))
    as (H1 & _ & _).
  pose proof (C3_validate_empty utcHost (column ColumnType.computed true None))
    as (_ & H2 & _).
  split.
  - apply H1; discriminate.
  - apply H2. right. reflexivity.
Defined.

(** C4 fails as stated on the validator of the schema builder: its
    number branch parses the trimmed input as it is, so "$1,000" is
    rejected. *)
Lemma C4_builder_number_rejects_punctuation :
  DataGrid.validateCell utcHost (builderColumn DataGrid.number false) "$1,000"
    = Some "Must be a number".
Proof. vm_compute. reflexivity. Qed.

(** C4, amended.  In the workbook's validator a number or currency column
    accepts every non-blank input whose strip of [$], commas, white space
    and [%] is a finite Number, among them "$1,000", "1000" and "  1000  ",
    and rejects an input whose strip is not finite with "Must be a number"
    (number) or "Must be a currency amount" (currency).  In the schema
    builder's validator a number column parses the trimmed input without
    any strip and a currency column strips [$] and commas only. *)
Theorem C4_validate_numeric (host : Host) (col : ColumnDef) (raw : string) :
  type col = ColumnType.number \/ type col = ColumnType.currency ->
  (trim raw <> "" ->
   isFinite (Number (removeAll numberNoise raw)) = true ->
   validateCell host col raw = None) /\
  (isFinite (Number (removeAll numberNoise raw)) = false ->
   validateCell host col raw = Some (numericReason (type col))) /\
  (forall raw', In raw' ["$1,000"; "1000"; "  1000  "] ->
   trim raw' <> "" /\ validateCell host col raw' = None) /\
  (forall (dcol : DataGrid.ColumnSpec) (raw' : string),
   trim raw' <> "" ->
   (DataGrid.type dcol = DataGrid.number ->
    DataGrid.validateCell host dcol raw' =
      if isFinite (Number (trim raw')) then None else Some "Must be a number") /\
   (DataGrid.type dcol = DataGrid.currency ->
    DataGrid.validateCell host dcol raw' =
      if isFinite
           (Number (removeAll (fun c => (c =? "$")%char || (c =? ",")%char) (trim raw')))
      then None else Some "Must be a currency amount")).
Proof.
  intros Hty.
  assert (Hgen : forall r, trim r <> "" ->
            validateCell host col r =
              if isFinite (Number (removeAll numberNoise r)) then None
              else Some (numericReason (type col))).
  { intros r Hr. apply isEmpty_false in Hr.
    unfold validateCell.
    destruct Hty as [-> | ->]; simpl;
      rewrite length_eqb_isEmpty, Hr, andb_false_r, toNumberLike_trim,
        toNumberLike_unfold, Hr; simpl;
      by destruct (isFinite _). }
  split; [|split; [|split]].
  - intros Hr Hfin. by rewrite Hgen, Hfin.
  - intros Hfin. rewrite Hgen, Hfin; [done|].
    intros Hr. rewrite <- (removeAll_trim _ numberNoise_ws), Hr in Hfin.
    discriminate.
  - intros raw' Hin.
    assert (Hr : trim raw' <> "")
      by (simpl in Hin; destruct Hin as [<-|[<-|[<-|[]]]]; by vm_compute).
    split; [exact Hr|]. rewrite (Hgen _ Hr).
    simpl in Hin; destruct Hin as [<-|[<-|[<-|[]]]];
      by (replace (isFinite _) with true by (vm_compute; reflexivity)).
  - intros dcol raw' Hr. apply isEmpty_false in Hr.
    split; intros Hd; unfold DataGrid.validateCell;
      rewrite Hd, length_eqb_isEmpty, Hr, andb_false_r;
      by destruct (isFinite _).
Qed.

Lemma C4_validate_numeric_witness :
  trim "$1,000" <> "" /\
  isFinite (Number (removeAll numberNoise "$1,000")) = true /\
  validateCell utcHost (column ColumnType.currency false None) "$1,000" = None /\
  validateCell utcHost (column ColumnType.number false None) "12 apples"
    = Some "Must be a number".
Proof.
  pose proof (C4_validate_numeric utcHost (column ColumnType.currency false None)
                "$1,000" (or_intror eq_refl)) as (H1 & _).
  pose proof (C4_validate_numeric utcHost (column ColumnType.number false None)
                "12 apples" (or_introl eq_refl)) as (_ & H2 & _).
  assert (Ht : trim "$1,000" <> "") by (vm_compute; discriminate).
  assert (Hf : isFinite (Number (removeAll numberNoise "$1,000")) = true)
    by (vm_compute; reflexivity).
  split; [exact Ht|]. split; [exact Hf|]. split.
  - exact (H1 Ht Hf).
  - apply H2. vm_compute. reflexivity.
Defined.

(** C8 fails as stated: a white-space-only input of a text column is
    returned as the empty string. *)
Lemma C8_blank_text_is_emptied :
  applyFormattingOnBlur utcHost (column ColumnType.text false None) "  "
    = Normal "".
Proof. reflexivity. Qed.

(** C8, amended.  An input that is blank (empty or white space only) is
    canonicalized to the empty string, whatever the column.  For an input
    that is not blank: number, currency and percent columns return it
    unchanged when it does not parse as a number, date columns return it
    unchanged when it does not parse as a date, and text, enum, untyped and
    computed columns always return it unchanged. *)
Theorem C8_canonicalize_unchanged (host : Host) (col : ColumnDef) (raw : string) :
  (trim raw = "" -> applyFormattingOnBlur host col raw = Normal "") /\
  (trim raw <> "" ->
   (type col = ColumnType.number \/ type col = ColumnType.currency \/
    type col = ColumnType.percent ->
    toNumberLike raw = None ->
    applyFormattingOnBlur host col raw = Normal raw) /\
   (type col = ColumnType.date ->
    toDateLike host raw = None ->
    applyFormattingOnBlur host col raw = Normal raw) /\
   (type col = ColumnType.text \/ type col = ColumnType.enum \/
    type col = ColumnType.untyped \/ type col = ColumnType.computed ->
    applyFormattingOnBlur host col raw = Normal raw)).
Proof.
  split.
  - intros Hr. unfold applyFormattingOnBlur. by rewrite Hr.
  - intros Hr. apply isEmpty_false in Hr.
    split; [|split].
    + intros Hty Hn. unfold applyFormattingOnBlur.
      rewrite Hr, toNumberLike_trim, Hn.
      by destruct Hty as [-> | [-> | ->]].
    + intros Hty Hd. unfold applyFormattingOnBlur.
      by rewrite Hr, Hty, toDateLike_trim, Hd.
    + intros Hty. unfold applyFormattingOnBlur. rewrite Hr.
      by destruct Hty as [-> | [-> | [-> | ->]]].
Qed.

Lemma C8_canonicalize_unchanged_witness :
  applyFormattingOnBlur utcHost (column ColumnType.text false None) " "
    = Normal "" /\
  applyFormattingOnBlur utcHost (column ColumnType.percent false None) " n/a "
    = Normal " n/a " /\
  applyFormattingOnBlur utcHost (column ColumnType.date false None) "31/31"
    = Normal "31/31" /\
  applyFormattingOnBlur utcHost (column ColumnType.enum false None) " USD"
    = Normal " USD".
Proof.
  pose proof (C8_canonicalize_unchanged utcHost
                (column ColumnType.text false None) " ") as (H1 & _).
  pose proof (C8_canonicalize_unchanged utcHost
                (column ColumnType.percent false None) " n/a ") as (_ & H2).
  pose proof (C8_canonicalize_unchanged utcHost
                (column ColumnType.date false None) "31/31") as (_ & H3).
  pose proof (C8_canonicalize_unchanged utcHost
                (column ColumnType.enum false None) " USD") as (_ & H4).
  split; [|split; [|split]].
  - apply H1. reflexivity.
  - destruct H2 as (H2 & _ & _); [vm_compute; discriminate|].
    apply H2; [right; right; reflexivity | vm_compute; reflexivity].
  - destruct H3 as (_ & H3 & _); [vm_compute; discriminate|].
    apply H3; [reflexivity | vm_compute; reflexivity].
  - destruct H4 as (_ & _ & H4); [vm_compute; discriminate|].
    apply H4. right; left; reflexivity.
Defined.

End ValidatorClaims.

(** ** The cell matrix: reshape and fill-down *)

Module GridFacts.
Import JS Workbook Samples.

Lemma assignIndex_lookup (row : list string) c v cc :
  default "" (assignIndex row c v !! cc) = if decide (cc = c) then v else default "" (row !! cc).
Proof.
  unfold assignIndex. destruct (Nat.ltb_spec c (length row)).
  - destruct (decide (cc = c)) as [->|Hne].
    + by rewrite list_lookup_insert_eq.
    + by rewrite list_lookup_insert_ne.
  - destruct (decide (cc = c)) as [->|Hne].
    + rewrite lookup_app_r by lia. rewrite lookup_app_r by (rewrite length_replicate; lia).
      rewrite length_replicate. replace (c - length row - (c - length row))%nat with 0%nat by lia. done.
    + destruct (decide (cc < length row)%nat).
      * by rewrite lookup_app_l.
      * rewrite lookup_app_r by lia. rewrite (lookup_ge_None_2 row) by lia. simpl.
        destruct (decide (cc < c)%nat).
        -- rewrite lookup_app_l by (rewrite length_replicate; lia).
           rewrite lookup_replicate_2 by lia. done.
        -- rewrite lookup_app_r by (rewrite length_replicate; lia).
           rewrite length_replicate.
           destruct (cc - length row - (c - length row))%nat eqn:E; [lia|]. done.
Qed.

Lemma cellAt_assign (m : SheetCellMatrix) r c v row k cc :
  m !! r = Some row ->
  cellAt (<[r := assignIndex row c v]> m) k cc =
    if decide (k = r /\ cc = c) then v else cellAt m k cc.
Proof.
  intros Hr. unfold cellAt.
  destruct (decide (k = r)) as [->|Hk].
  - rewrite list_lookup_insert_eq by (by eapply lookup_lt_Some).
    rewrite Hr. simpl. rewrite assignIndex_lookup.
    destruct (decide (cc = c)); [by rewrite decide_True|by rewrite decide_False by tauto].
  - rewrite list_lookup_insert_ne by done. by rewrite decide_False by tauto.
Qed.





Lemma blank_eqb s : (trim s =? "")%string = true <-> blank s.
Proof. unfold blank. apply String.eqb_eq. Qed.

Lemma blank_isEmpty s : isEmpty (trim s) = true <-> blank s.
Proof. unfold blank. destruct (trim s); simpl; split; congruence. Qed.

Lemma fillLoop_spec c src : forall fuel rr (next : SheetCellMatrix),
  (length next <= rr + fuel)%nat ->
  exists res stop,
    fillLoop fuel rr c src next = Normal res /\
    length res = length next /\
    (rr <= stop)%nat /\ (stop <= max rr (length next))%nat /\
    (forall k, (rr <= k < stop)%nat -> blank (cellAt next k c)) /\
    ((stop < length next)%nat -> ~ blank (cellAt next stop c)) /\
    forall k cc, cellAt res k cc =
      if decide (cc = c /\ (rr <= k < stop)%nat) then src else cellAt next k cc.
Proof.
  induction fuel as [|fuel IH]; intros rr next Hfuel; simpl.
  - exists next, rr. repeat split; try lia.
    intros k cc. by rewrite decide_False by lia.
  - destruct (Nat.ltb_spec rr (length next)) as [Hlt|Hge].
    + destruct (trim (cellAt next rr c) =? "")%string eqn:Hb; simpl.
      * apply blank_eqb in Hb.
        destruct (lookup_lt_is_Some_2 next rr Hlt) as [row Hrow].
        unfold assignCell. rewrite Hrow. simpl.
        set (next' := <[rr := assignIndex row c src]> next).
        assert (Hcell : forall k cc, cellAt next' k cc =
                  if decide (k = rr /\ cc = c) then src else cellAt next k cc)
          by (intros; by apply cellAt_assign).
        destruct (IH (S rr) next') as (res & stop & Hrun & Hl & H1 & H2 & H3 & H4 & H5).
        { unfold next'. rewrite length_insert. lia. }
        unfold next' in Hl, H2, H4. rewrite length_insert in Hl, H2, H4.
        exists res, stop. split; [done|]. split; [done|].
        split; [lia|]. split; [lia|]. split; [|split].
        -- intros k Hk. destruct (decide (k = rr)) as [->|Hne]; [done|].
           specialize (H3 k). rewrite Hcell, decide_False in H3 by lia.
           apply H3. lia.
        -- intros Hs. specialize (H4 Hs). by rewrite Hcell, decide_False in H4 by lia.
        -- intros k cc. rewrite H5, Hcell.
           destruct (decide (cc = c /\ (S rr <= k < stop)%nat)) as [[-> ?]|Hn].
           ++ by rewrite decide_True by lia.
           ++ destruct (decide (k = rr /\ cc = c)) as [[-> ->]|Hn'].
              ** by rewrite decide_True by lia.
              ** by rewrite decide_False by lia.
      * exists next, rr. split; [done|]. split; [done|].
        split; [lia|]. split; [lia|]. split; [intros; lia|]. split.
        -- intros _ Hbl. apply blank_eqb in Hbl. congruence.
        -- intros k cc. by rewrite decide_False by lia.
    + exists next, rr. repeat split; try lia.
      intros k cc. by rewrite decide_False by lia.
Qed.

Lemma fillDown_spec r c (prev : SheetCellMatrix) :
  ~ blank (cellAt prev r c) ->
  exists next stop,
    fillDownFromCell r c prev = Normal next /\
    length next = length prev /\
    (r < stop)%nat /\ (stop <= max (r + 1) (length prev))%nat /\
    (forall k, (r < k < stop)%nat -> blank (cellAt prev k c)) /\
    ((stop < length prev)%nat -> ~ blank (cellAt prev stop c)) /\
    forall k cc, cellAt next k cc =
      if decide (cc = c /\ (r < k < stop)%nat) then cellAt prev r c else cellAt prev k cc.
Proof.
  intros Hsrc. unfold fillDownFromCell.
  destruct (isEmpty (trim (cellAt prev r c))) eqn:He.
  { by apply blank_isEmpty in He. }
  destruct (fillLoop_spec c (cellAt prev r c) (length prev - (r + 1)) (r + 1) prev)
    as (res & stop & Hrun & Hl & H1 & H2 & H3 & H4 & H5); [lia|].
  exists res, stop. split; [done|]. split; [done|]. split; [lia|]. split; [lia|].
  split; [intros k Hk; apply H3; lia|]. split; [done|].
  intros k cc. rewrite H5.
  destruct (decide (cc = c /\ (r + 1 <= k < stop)%nat)).
  - by rewrite decide_True by lia.
  - by rewrite decide_False by lia.
Qed.

Lemma fillDown_blank_source r c (prev : SheetCellMatrix) :
  blank (cellAt prev r c) -> fillDownFromCell r c prev = Normal prev.
Proof.
  intros Hb. unfold fillDownFromCell. apply blank_isEmpty in Hb. by rewrite Hb.
Qed.

End GridFacts.

Module GridClaims.
Import JS Workbook Samples GridFacts.



(** C6 fails as stated: a cell that holds a space is not the empty string,
    yet the fill overwrites it and goes on. *)
Lemma C6_fill_overwrites_white_space :
  cellAt [["5"]; [" "]; [""]; ["3"]] 1 0 <> "" /\
  fillDownFromCell 0 0 [["5"]; [" "]; [""]; ["3"]]
    = Normal [["5"]; ["5"]; ["5"]; ["3"]].
Proof. split; [discriminate | reflexivity]. Qed.

(** C6, amended.  Emptiness is decided after trimming.  When the source
    cell is blank the fill changes nothing.  Otherwise the source value is
    written into the cells of column [c] in the rows after [r] up to a row
    [stop], which is the first row after [r] whose cell is not blank or,
    without such a row, the end of the matrix; every other cell reads as
    before, and the number of rows is kept.  The column "5", "", "", "3",
    "" filled from row 0 becomes "5", "5", "5", "3", "". *)
Theorem C6_fill_down (r c : nat) (prev : SheetCellMatrix) :
  (blank (cellAt prev r c) -> fillDownFromCell r c prev = Normal prev) /\
  (~ blank (cellAt prev r c) ->
   exists next stop,
     fillDownFromCell r c prev = Normal next /\
     length next = length prev /\
     (r < stop)%nat /\ (stop <= max (r + 1) (length prev))%nat /\
     (forall k, (r < k < stop)%nat ->
        blank (cellAt prev k c) /\ cellAt next k c = cellAt prev r c) /\
     ((stop < length prev)%nat -> ~ blank (cellAt prev stop c)) /\
     (forall k cc, ~ (cc = c /\ (r < k < stop)%nat) ->
        cellAt next k cc = cellAt prev k cc)) /\
  fillDownFromCell 0 0 [["5"]; [""]; [""]; ["3"]; [""]]
    = Normal [["5"]; ["5"]; ["5"]; ["3"]; [""]].
Proof.
  split; [apply fillDown_blank_source|]. split; [|reflexivity].
  intros Hsrc.
  destruct (fillDown_spec r c prev Hsrc)
    as (next & stop & Hrun & Hl & H1 & H2 & H3 & H4 & H5).
  exists next, stop. repeat (split; [done|]). split; [|split; [done|]].
  - intros k Hk. split; [by apply H3|]. by rewrite H5, decide_True.
  - intros k cc Hn. by rewrite H5, decide_False.
Qed.

Lemma C6_fill_down_witness :
  blank (cellAt [[" "]; [""]] 0 0) /\
  fillDownFromCell 0 0 [[" "]; [""]] = Normal [[" "]; [""]] /\
  ~ blank (cellAt [["5"; "x"]; [""; "y"]; ["3"; "z"]] 0 0) /\
  exists next,
    fillDownFromCell 0 0 [["5"; "x"]; [""; "y"]; ["3"; "z"]] = Normal next /\
    length next = 3%nat.
Proof.
  pose proof (C6_fill_down 0 0 [[" "]; [""]]) as (Hb & _).
  pose proof (C6_fill_down 0 0 [["5"; "x"]; [""; "y"]; ["3"; "z"]]) as (_ & Hn & _).
  assert (H1 : blank (cellAt [[" "]; [""]] 0 0)) by reflexivity.
  assert (H2 : ~ blank (cellAt [["5"; "x"]; [""; "y"]; ["3"; "z"]] 0 0))
    by (vm_compute; discriminate).
  split; [exact H1|]. split; [exact (Hb H1)|]. split; [exact H2|].
  destruct (Hn H2) as (next & stop & Hrun & Hl & _).
  exists next. split; [exact Hrun | exact Hl].
Defined.

(** C10.  Fill-down decides emptiness on the trimmed string: a source
    cell that is blank, white-space-only included, makes the operation a
    no-op; and below a source that is not blank, a run of blank cells,
    white-space-only ones included, is overwritten with the source value
    all the way down, none of them stopping the fill. *)
Theorem C10_fill_down_trims (r c : nat) (prev : SheetCellMatrix) :
  (blank (cellAt prev r c) -> fillDownFromCell r c prev = Normal prev) /\
  (~ blank (cellAt prev r c) ->
   forall n, (n < length prev)%nat ->
     (forall k, (r < k <= n)%nat -> blank (cellAt prev k c)) ->
     exists next,
       fillDownFromCell r c prev = Normal next /\
       forall k, (r < k <= n)%nat -> cellAt next k c = cellAt prev r c).
Proof.
  split; [apply fillDown_blank_source|].
  intros Hsrc n Hn Hrun.
  destruct (fillDown_spec r c prev Hsrc)
    as (next & stop & Hfill & Hl & H1 & H2 & H3 & H4 & H5).
  exists next. split; [done|].
  intros k Hk. rewrite H5.
  destruct (decide (n < stop)%nat) as [Hlt|Hge]; [by rewrite decide_True by lia|].
  destruct (decide (r < n)%nat) as [Hrn|]; [|lia].
  exfalso. apply H4; [lia|]. apply Hrun. lia.
Qed.

Lemma C10_fill_down_trims_witness :
  fillDownFromCell 0 0 [["  "]; [""]; ["3"]] = Normal [["  "]; [""]; ["3"]] /\
  exists next,
    fillDownFromCell 0 0 [["5"]; [" "]; ["   "]; ["3"]] = Normal next /\
    cellAt next 1 0 = "5" /\ cellAt next 2 0 = "5".
Proof.
  pose proof (C10_fill_down_trims 0 0 [["  "]; [""]; ["3"]]) as (Hb & _).
  pose proof (C10_fill_down_trims 0 0 [["5"]; [" "]; ["   "]; ["3"]]) as (_ & Hn).
  split; [apply Hb; reflexivity|].
  destruct (Hn ltac:(vm_compute; discriminate) 2%nat ltac:(simpl; lia)) as (next & Hrun & Hcells).
  - intros k Hk.
    destruct k as [|[|[|k]]]; [lia | reflexivity | reflexivity | lia].
  - exists next. split; [exact Hrun|].
    split; apply Hcells; lia.
Defined.

End GridClaims.

(** ** The span of two dates in years *)

Module EvaluatorFacts.
Import JS ColumnPanel SpreadsheetGrid StringFacts NumberFacts ValidatorFacts Samples.






End EvaluatorFacts.

(** ** Claims on the computed-column evaluator *)

Module EvaluatorClaims.
Import JS ColumnPanel SpreadsheetGrid StringFacts NumberFacts ValidatorFacts Samples.
Import EvaluatorFacts.






End EvaluatorClaims.

(** ** Claims on loading persisted state *)

Module LoaderClaims.
Import JS ColumnPanel Samples Workbook.

(** C9 fails as stated: a blob whose row count is a string is neither
    dropped for the defaults nor taken whole; its purpose and columns are
    kept and its row count is the default. *)
Lemma C9_malformed_blob_is_partly_hydrated :
  loadState (Item (Normal malformedBlob)) <> defaultState /\
  ~ fullyPersisted malformedBlob (loadState (Item (Normal malformedBlob))) /\
  purpose (loadState (Item (Normal malformedBlob))) = "Budget" /\
  rowCount (loadState (Item (Normal malformedBlob))) = rowCount defaultState /\
  columns (loadState (Item (Normal malformedBlob)))
    = PersistedColumns [JObj [("id", JStr "a")]].
Proof.
  assert (E : loadState (Item (Normal malformedBlob)) =
              {| purpose := "Budget"; rowCount := ofZ 50;
                 columns := PersistedColumns [JObj [("id", JStr "a")]];
                 cells := ["x"] :: makeEmptyCells 49 1 |}).
  { vm_compute. reflexivity. }
  rewrite E. split; [discriminate|]. split; [|repeat split; reflexivity].
  intros (_ & H & _). vm_compute in H. discriminate H.
Qed.

(** C9, amended.  Both loaders return the defaults wholesale when nothing
    is stored, when the stored text is not JSON, when it is the JSON
    [null], and ([loadState]) when normalising the cells throws.  Otherwise
    they hydrate field by field: each field is the blob's when it has the
    expected type and the default when it is missing or ill-typed,
    whatever the other fields are. *)
Theorem C9_load_state :
  (loadState NoItem = defaultState /\
   (forall e, loadState (Item (Throw e)) = defaultState) /\
   loadState (Item (Normal JNull)) = defaultState /\
   (forall blob e, hydrate blob = Throw e ->
      loadState (Item (Normal blob)) = defaultState) /\
   (forall blob st, hydrate blob = Normal st ->
      loadState (Item (Normal blob)) = st /\
      purpose st = match field blob "purpose" with
                   | Some (JStr p) => p
                   | _ => ""
                   end /\
      rowCount st = match field blob "rowCount" with
                    | Some (JNum n) => n
                    | _ => ofZ 50
                    end /\
      columns st = match field blob "columns" with
                   | Some (JArr (c :: cs)) => PersistedColumns (c :: cs)
                   | _ => DefinedColumns (makeDefaultColumns 12)
                   end)) /\
  (SchemaBuilder.loadSaved NoItem = SchemaBuilder.defaultSaved /\
   (forall e, SchemaBuilder.loadSaved (Item (Throw e)) = SchemaBuilder.defaultSaved) /\
   SchemaBuilder.loadSaved (Item (Normal JNull)) = SchemaBuilder.defaultSaved /\
   (forall blob, blob <> JNull ->
      SchemaBuilder.loadSaved (Item (Normal blob)) =
        {| SchemaBuilder.prompt := match field blob "prompt" with
                                   | Some (JStr p) => p
                                   | _ => ""
                                   end;
           SchemaBuilder.columns := asArray (field blob "columns");
           SchemaBuilder.rows := default [] (asArray (field blob "rows")) |})).
Proof.
  split.
  - split; [done|]. split; [done|]. split; [done|]. split.
    + intros blob e H. simpl. by rewrite H.
    + intros blob st H. split; [simpl; by rewrite H|].
      unfold hydrate in H. unfold field.
      destruct (getProp blob "rowCount") as [pr|] eqn:E1; [|done].
      destruct (getProp blob "columns") as [pc|] eqn:E2; [|done].
      destruct (getProp blob "cells") as [pcs|] eqn:E3; [|done].
      destruct (getProp blob "purpose") as [pp|] eqn:E4; [|done].
      simpl in H.
      repeat match type of H with
             | bindC ?c _ = Normal _ => destruct c; simpl in H; [|done]
             end.
      injection H as <-. simpl.
      split; [done|]. split; [done|].
      destruct pc as [[| | | |[|c cs]|]|]; done.
  - split; [done|]. split; [done|]. split; [done|].
    intros blob Hb. unfold SchemaBuilder.loadSaved, SchemaBuilder.hydrate, field.
    destruct blob; done.
Qed.

Lemma C9_load_state_witness :
  loadState (Item (Normal (JObj [("rowCount", JNum (ofZ (-1)))])))
    = {| purpose := ""; rowCount := ofZ (-1);
         columns := DefinedColumns (makeDefaultColumns 12); cells := [] |} /\
  loadState (Item (Normal (JObj [("rowCount", JNum (ofZ 4294967296))])))
    = defaultState /\
  SchemaBuilder.loadSaved (Item (Normal malformedSaved))
    = {| SchemaBuilder.prompt := ""; SchemaBuilder.columns := None;
         SchemaBuilder.rows := [JObj [("name", JStr "x")]] |}.
Proof.
  destruct C9_load_state as ((_ & _ & _ & H1 & H2) & (_ & _ & _ & H3)).
  split; [|split].
  - destruct (H2 (JObj [("rowCount", JNum (ofZ (-1)))])
                {| purpose := ""; rowCount := ofZ (-1);
                   columns := DefinedColumns (makeDefaultColumns 12); cells := [] |})
      as (E & _); [vm_compute; reflexivity | exact E].
  - apply (H1 _ RangeError). vm_compute. reflexivity.
  - rewrite H3; [reflexivity | discriminate].
Defined.

End LoaderClaims.

(** ** The fixed notation of a Number *)

Module FixedNotation.
Import JS ColumnPanel SpreadsheetGrid Samples StringFacts NumberFacts ValidatorFacts.

Lemma app_cons c (s t : string) : String c s +:+ t = String c (s +:+ t).
Proof. reflexivity. Qed.

Lemma app_nil (t : string) : "" +:+ t = t.
Proof. reflexivity. Qed.


Lemma allChars_app P s t : allChars P (s +:+ t) = allChars P s && allChars P t.
Proof.
  induction s as [|c s IH]; str_simpl; [done|]. by rewrite IH, andb_assoc.
Qed.

Lemma allChars_impl (P Q : ascii -> bool) s :
  (forall c, P c = true -> Q c = true) -> allChars P s = true -> allChars Q s = true.
Proof.
  intros HPQ. induction s as [|c s IH]; simpl; [done|].
  intros [Hc Hs]%andb_true_iff. by rewrite (HPQ _ Hc), IH.
Qed.

Lemma allChars_repeat P c n : P c = true -> allChars P (repeatChar c n) = true.
Proof. intros Hc. induction n as [|n IH]; simpl; [done|]. by rewrite Hc. Qed.

Lemma app_assoc_str (a b c : string) : (a +:+ b) +:+ c = a +:+ (b +:+ c).
Proof. induction a as [|x a IH]; str_simpl; [done|]. by rewrite IH. Qed.

Lemma app_empty_r (a : string) : a +:+ "" = a.
Proof. induction a as [|x a IH]; str_simpl; [done|]. by rewrite IH. Qed.

Lemma length_app_str (a b : string) :
  String.length (a +:+ b) = (String.length a + String.length b)%nat.
Proof. induction a as [|x a IH]; str_simpl; [done|]. by rewrite IH. Qed.

Lemma length_repeatChar c n : String.length (repeatChar c n) = n.
Proof. induction n as [|n IH]; simpl; [done|]. by rewrite IH. Qed.

Lemma takeStr_dropStr n s : takeStr n s +:+ dropStr n s = s.
Proof.
  revert s. induction n as [|n IH]; intros [|c s]; str_simpl; try done.
  by rewrite IH.
Qed.

Lemma length_takeStr n s :
  (n <= String.length s)%nat -> String.length (takeStr n s) = n.
Proof.
  revert s. induction n as [|n IH]; intros [|c s]; simpl; try done; try lia.
  intros H. rewrite IH; lia.
Qed.

Lemma length_dropStr n s :
  String.length (dropStr n s) = (String.length s - n)%nat.
Proof.
  revert s. induction n as [|n IH]; intros [|c s]; simpl; try done.
Qed.

(** a string without white space is its own trim *)
Lemma trimStart_noWS s : allChars notWhiteSpace s = true -> trimStart s = s.
Proof.
  destruct s as [|c s]; simpl; [done|]. unfold notWhiteSpace.
  intros [Hc _]%andb_true_iff. by destruct (isWhiteSpace c).
Qed.

Lemma trimEnd_noWS s : allChars notWhiteSpace s = true -> trimEnd s = s.
Proof.
  induction s as [|c s IH]; simpl; [done|]. unfold notWhiteSpace at 1.
  intros [Hc Hs]%andb_true_iff. rewrite (IH Hs).
  destruct s; [|done]. by destruct (isWhiteSpace c).
Qed.

Lemma trim_noWS s : allChars notWhiteSpace s = true -> trim s = s.
Proof. intros H. unfold trim. by rewrite (trimStart_noWS _ H), (trimEnd_noWS _ H). Qed.

Lemma removeAll_app cls s t :
  removeAll cls (s +:+ t) = removeAll cls s +:+ removeAll cls t.
Proof.
  induction s as [|c s IH]; str_simpl; [done|].
  destruct (cls c); str_simpl; by rewrite IH.
Qed.

Lemma removeAll_none cls s :
  allChars (fun c => negb (cls c)) s = true -> removeAll cls s = s.
Proof.
  induction s as [|c s IH]; simpl; [done|].
  intros [Hc Hs]%andb_true_iff. destruct (cls c); [done|]. by rewrite IH.
Qed.

(** ** Decimal digits *)

Lemma digit_chars d :
  0 <= d <= 9 -> isDigit (digitChar d) = true /\ digitVal (digitChar d) = d.
Proof.
  intros Hd.
  assert (d = 0 \/ d = 1 \/ d = 2 \/ d = 3 \/ d = 4 \/ d = 5 \/ d = 6 \/ d = 7
          \/ d = 8 \/ d = 9) as H by lia.
  by repeat destruct H as [->|H]; try subst d.
Qed.

Lemma digitVal_range c : isDigit c = true -> 0 <= digitVal c <= 9.
Proof.
  unfold isDigit, digitVal.
  intros [H1 H2]%andb_true_iff. apply N.leb_le in H1, H2. lia.
Qed.

Lemma digitsValue_app a s t :
  digitsValue a (s +:+ t) = digitsValue (digitsValue a s) t.
Proof. revert a. induction s as [|c s IH]; intros a; str_simpl; [done|]. by rewrite IH. Qed.

Lemma digitsValue_shift a s :
  digitsValue a s = a * 10 ^ Z.of_nat (String.length s) + digitsValue 0 s.
Proof.
  revert a. induction s as [|c s IH]; intros a; simpl String.length.
  - simpl. lia.
  - cbn [digitsValue]. rewrite (IH (10 * a + digitVal c)), (IH (10 * 0 + digitVal c)).
    rewrite Nat2Z.inj_succ, Z.pow_succ_r by lia. ring.
Qed.

Lemma digitsValue_nonneg s : allChars isDigit s = true -> 0 <= digitsValue 0 s.
Proof.
  assert (H : forall a, 0 <= a -> allChars isDigit s = true -> 0 <= digitsValue a s).
  { induction s as [|c s IH]; intros a Ha; simpl; [done|].
    intros [Hc Hs]%andb_true_iff. apply IH; [|done].
    pose proof (digitVal_range c Hc). lia. }
  by apply H.
Qed.

Lemma digitsValue_zeros a n : digitsValue a (repeatChar "0" n) = a * 10 ^ Z.of_nat n.
Proof.
  revert a. induction n as [|n IH]; intros a.
  - simpl. lia.
  - cbn [repeatChar digitsValue]. rewrite IH.
    change (digitVal "0") with 0. rewrite Nat2Z.inj_succ, Z.pow_succ_r by lia. ring.
Qed.

Lemma spanDigits_digits s : allChars isDigit (fst (spanDigits s)) = true.
Proof.
  induction s as [|c s IH]; simpl; [done|].
  destruct (isDigit c) eqn:Hc; [|done].
  destruct (spanDigits s) as [d r]. simpl in *. by rewrite Hc.
Qed.

(** reading digits stops at the end or at the first other character *)
Lemma spanDigits_app ds rest :
  allChars isDigit ds = true ->
  match rest with String c _ => isDigit c = false | EmptyString => True end ->
  spanDigits (ds +:+ rest) = (ds, rest).
Proof.
  intros Hds Hrest. induction ds as [|c ds IH]; str_simpl; simpl in Hds.
  - destruct rest as [|c r]; [done|]. simpl. by rewrite Hrest.
  - apply andb_true_iff in Hds as [Hc Hds]. by rewrite Hc, IH.
Qed.

Lemma readDigits_app ds rest : forall a,
  allChars isDigit ds = true ->
  readDigits (String.length ds) a (ds +:+ rest) = Some (digitsValue a ds, rest).
Proof.
  induction ds as [|c ds IH]; intros a Hds; str_simpl; simpl in Hds; [done|].
  apply andb_true_iff in Hds as [Hc Hds]. by rewrite Hc, IH.
Qed.

Lemma digitsOfFuel_S fuel n acc :
  digitsOfFuel (S fuel) n acc =
    if n <? 10 then String (digitChar (n mod 10)) acc
    else digitsOfFuel fuel (n / 10) (String (digitChar (n mod 10)) acc).
Proof. reflexivity. Qed.

(** the digits of a non-negative integer: its value, no sign, no leading
    zero *)
Lemma digitsOfFuel_spec fuel : forall n acc,
  0 <= n < 10 ^ Z.of_nat (S fuel) ->
  exists ds,
    digitsOfFuel (S fuel) n acc = ds +:+ acc /\
    allChars isDigit ds = true /\ ds <> "" /\
    digitsValue 0 ds = n /\
    n < 10 ^ Z.of_nat (String.length ds) /\
    (String.length ds = 1%nat \/ 10 ^ (Z.of_nat (String.length ds) - 1) <= n).
Proof.
  induction fuel as [|fuel IH]; intros n acc Hn.
  - change (10 ^ Z.of_nat 1) with 10 in Hn.
    exists (String (digitChar n) "").
    destruct (digit_chars n ltac:(lia)) as [H1 H2].
    rewrite digitsOfFuel_S, Z.mod_small by lia.
    destruct (Z.ltb_spec n 10); [|lia].
    simpl. rewrite H1, H2. repeat split; try done; try lia; by left.
  - rewrite digitsOfFuel_S.
    pose proof (Z.mod_pos_bound n 10 ltac:(lia)) as Hmod.
    destruct (digit_chars (n mod 10) ltac:(lia)) as [H1 H2].
    destruct (Z.ltb_spec n 10) as [Hlt|Hge].
    + exists (String (digitChar n) "").
      rewrite Z.mod_small in * by lia.
      simpl. rewrite H1, H2. repeat split; try done; try lia; by left.
    + destruct (IH (n / 10) (String (digitChar (n mod 10)) acc))
        as (ds & Hrun & Hd & Hne & Hv & Hub & Hlb).
      { split; [apply Z.div_pos; lia|].
        apply Z.div_lt_upper_bound; [lia|].
        rewrite (Nat2Z.inj_succ (S fuel)), Z.pow_succ_r in Hn by lia. lia. }
      exists (ds +:+ String (digitChar (n mod 10)) "").
      rewrite Hrun, app_assoc_str. split; [done|].
      rewrite allChars_app, Hd. simpl. rewrite H1.
      split; [done|]. split; [by destruct ds|].
      rewrite digitsValue_app, Hv. cbn [digitsValue]. rewrite H2.
      split; [pose proof (Z.div_mod n 10); lia|].
      rewrite length_app_str. simpl String.length.
      replace (Z.of_nat (String.length ds + 1)) with (Z.succ (Z.of_nat (String.length ds))) by lia.
      rewrite Z.pow_succ_r by lia.
      split; [pose proof (Z.div_mod n 10); lia|].
      right. replace (Z.succ (Z.of_nat (String.length ds)) - 1) with (Z.of_nat (String.length ds)) by lia.
      destruct Hlb as [Hl|Hl].
      * rewrite Hl. change (10 ^ Z.of_nat 1) with 10. lia.
      * assert (0 < String.length ds)%nat by (destruct ds; [done|simpl; lia]).
        replace (Z.of_nat (String.length ds)) with (Z.succ (Z.of_nat (String.length ds) - 1)) by lia.
        rewrite Z.pow_succ_r by lia. pose proof (Z.div_mod n 10). lia.
Qed.

Lemma digitsOf_spec n :
  0 <= n ->
  allChars isDigit (digitsOf n) = true /\ digitsOf n <> "" /\
  digitsValue 0 (digitsOf n) = n /\
  n < 10 ^ Z.of_nat (String.length (digitsOf n)) /\
  (String.length (digitsOf n) = 1%nat \/
   10 ^ (Z.of_nat (String.length (digitsOf n)) - 1) <= n).
Proof.
  intros Hn. unfold digitsOf.
  destruct (digitsOfFuel_spec (Z.to_nat (Z.log2 n)) n "") as (ds & Hrun & H).
  - split; [done|].
    destruct (Z.eq_dec n 0) as [->|Hnz]; [done|].
    pose proof (Z.log2_spec n ltac:(lia)) as [_ Hlog].
    pose proof (Z.log2_nonneg n).
    rewrite Nat2Z.inj_succ, Z2Nat.id by done.
    eapply Z.lt_le_trans; [exact Hlog|].
    apply Z.pow_le_mono_l. lia.
  - rewrite Hrun, app_empty_r. exact H.
Qed.

(** ** Reading back what [toFixed] prints *)



Lemma plainChar_notWhiteSpace c : plainChar c = true -> notWhiteSpace c = true.
Proof. each_char c; by vm_compute. Qed.

Lemma plainChar_notNoise c :
  plainChar c = true -> negb (SpreadsheetGrid.numberNoise c) = true.
Proof. each_char c; by vm_compute. Qed.

Lemma isDigit_plainChar c : isDigit c = true -> plainChar c = true.
Proof. unfold plainChar. by intros ->. Qed.

Lemma isDigit_not_dot : isDigit "." = false.
Proof. reflexivity. Qed.

(** a literal that starts with a digit is not a hexadecimal, octal or
    binary one unless an [x], [o] or [b] follows its leading zero *)
Lemma parseNonDecimal_plain c t :
  match t with
  | String d _ => plainChar d = true
  | EmptyString => True
  end ->
  parseNonDecimal (String c t) = None.
Proof.
  destruct t as [|d t]; [by each_char c|].
  intros Hd. unfold parseNonDecimal.
  assert (E : forall X : option (option Z),
            (if (d =? "x")%char || (d =? "X")%char then Some 16
             else if (d =? "o")%char || (d =? "O")%char then Some 8
             else if (d =? "b")%char || (d =? "B")%char then Some 2
             else None) = None).
  { intros _. revert Hd. each_char d; by vm_compute. }
  each_char c; try done. by rewrite (E None).
Qed.

Lemma sign_split_digit d r :
  isDigit d = true ->
  match String d r with
  | String "+" r' => (false, r')
  | String "-" r' => (true, r')
  | _ => (false, String d r)
  end = (false, String d r).
Proof. each_char d; by vm_compute. Qed.

Lemma not_Infinity d r :
  isDigit d = true -> (String d r =? "Infinity")%string = false.
Proof. each_char d; by vm_compute. Qed.

Lemma parseUnsignedDecimal_digits ip fp (dot : bool) :
  allChars isDigit ip = true -> ip <> "" ->
  allChars isDigit fp = true -> (dot = false -> fp = "") ->
  parseUnsignedDecimal (ip +:+ (if dot then "." +:+ fp else ""))
    = Some (digitsValue 0 (ip +:+ fp), - Z.of_nat (String.length fp)).
Proof.
  intros Hip Hne Hfp Hdot. unfold parseUnsignedDecimal.
  destruct dot.
  - rewrite (spanDigits_app ip ("." +:+ fp) Hip) by done.
    rewrite app_cons, app_nil.
    pose proof (spanDigits_app fp "" Hfp I) as E. rewrite app_empty_r in E.
    rewrite E. destruct ip; [done|]. reflexivity.
  - rewrite (Hdot eq_refl) in *. rewrite (spanDigits_app ip "" Hip I).
    destruct ip; [done|]. reflexivity.
Qed.

Lemma Number_plain s ip fp (dot : bool) :
  allChars isDigit ip = true -> ip <> "" ->
  allChars isDigit fp = true -> (dot = false -> fp = "") ->
  Number (signText s +:+ ip +:+ (if dot then "." +:+ fp else ""))
    = numberOfDecimal s (digitsValue 0 (ip +:+ fp)) (- Z.of_nat (String.length fp)).
Proof.
  intros Hip Hne Hfp Hdot.
  set (body := ip +:+ (if dot then "." +:+ fp else "")).
  assert (Hbody : allChars plainChar body = true).
  { unfold body. rewrite allChars_app.
    rewrite (allChars_impl _ _ _ isDigit_plainChar Hip). simpl.
    destruct dot; [|done]. rewrite app_cons, app_nil. simpl.
    apply (allChars_impl _ _ _ isDigit_plainChar Hfp). }
  assert (Hhead : exists d r, body = String d r /\ isDigit d = true).
  { unfold body. destruct ip as [|d ip]; [done|].
    exists d, (ip +:+ (if dot then "." +:+ fp else "")).
    split; [done|]. simpl in Hip. by apply andb_true_iff in Hip as [-> _]. }
  assert (Hall : allChars plainChar (signText s +:+ body) = true).
  { rewrite allChars_app, Hbody. by destruct s. }
  unfold Number.
  rewrite (trim_noWS _ (allChars_impl _ _ _ plainChar_notWhiteSpace Hall)).
  destruct Hhead as (d & r & Ebody & Hd).
  assert (Hr : match r with String c _ => plainChar c = true | EmptyString => True end).
  { rewrite Ebody in Hbody. simpl in Hbody.
    apply andb_true_iff in Hbody as [_ Hr]. destruct r; [done|].
    simpl in Hr. by apply andb_true_iff in Hr as [-> _]. }
  assert (Hparse : parseDecimal (signText s +:+ body)
                   = numberOfDecimal s (digitsValue 0 (ip +:+ fp))
                       (- Z.of_nat (String.length fp))).
  { unfold parseDecimal.
    assert (Hsplit : match signText s +:+ body with
                     | String "+" r' => (false, r')
                     | String "-" r' => (true, r')
                     | _ => (false, signText s +:+ body)
                     end = (s, body)).
    { destruct s; [reflexivity|]. simpl signText. rewrite app_nil, Ebody.
      by apply sign_split_digit. }
    rewrite Hsplit. rewrite Ebody at 1. rewrite (not_Infinity d r Hd).
    unfold body. by rewrite parseUnsignedDecimal_digits. }
  destruct s.
  - simpl signText. rewrite app_cons, app_nil. simpl isEmpty. cbv iota.
    rewrite parseNonDecimal_plain.
    + exact Hparse.
    + rewrite Ebody. by apply isDigit_plainChar.
  - simpl signText in *. rewrite app_nil in *. rewrite Ebody in *.
    simpl isEmpty. cbv iota. rewrite (parseNonDecimal_plain d r Hr). exact Hparse.
Qed.

Lemma fixedText_parts n f :
  0 <= n -> 0 <= f ->
  exists ip fp (dot : bool),
    fixedText n f = ip +:+ (if dot then "." +:+ fp else "") /\
    allChars isDigit ip = true /\ ip <> "" /\
    allChars isDigit fp = true /\ (dot = false -> fp = "") /\
    digitsValue 0 (ip +:+ fp) = n /\ Z.of_nat (String.length fp) = f.
Proof.
  intros Hn Hf.
  destruct (digitsOf_spec n Hn) as (Hd & Hne & Hv & _).
  unfold fixedText. destruct (Z.eqb_spec f 0) as [->|Hf0].
  - exists (digitsOf n), "", false. rewrite app_empty_r. by repeat split.
  - set (ds' := padStart0 (Z.to_nat f + 1) (digitsOf n)). cbv zeta.
    assert (Hd' : allChars isDigit ds' = true).
    { unfold ds', padStart0. rewrite allChars_app, Hd, andb_true_r.
      by apply allChars_repeat. }
    assert (Hv' : digitsValue 0 ds' = n).
    { unfold ds', padStart0. rewrite digitsValue_app, digitsValue_zeros.
      by rewrite Z.mul_0_l. }
    assert (Hlen : (Z.to_nat f + 1 <= String.length ds')%nat).
    { unfold ds', padStart0. rewrite length_app_str, length_repeatChar. lia. }
    set (k := String.length ds') in *.
    exists (takeStr (k - Z.to_nat f) ds'), (dropStr (k - Z.to_nat f) ds'), true.
    pose proof (takeStr_dropStr (k - Z.to_nat f) ds') as Htd.
    assert (Hboth : allChars isDigit (takeStr (k - Z.to_nat f) ds') = true /\
                    allChars isDigit (dropStr (k - Z.to_nat f) ds') = true).
    { apply andb_true_iff. by rewrite <- allChars_app, Htd. }
    destruct Hboth as [Ht Hdr].
    split; [done|]. split; [done|]. split.
    { intros E. pose proof (length_takeStr (k - Z.to_nat f) ds' ltac:(lia)) as Hl.
      rewrite E in Hl. simpl in Hl. lia. }
    split; [done|]. split; [done|]. split; [by rewrite Htd|].
    rewrite length_dropStr. fold k. lia.
Qed.

Lemma Number_fixedText s n f :
  0 <= n -> 0 <= f ->
  Number (signText s +:+ fixedText n f) = numberOfDecimal s n (- f) /\
  allChars plainChar (signText s +:+ fixedText n f) = true /\
  signText s +:+ fixedText n f <> "".
Proof.
  intros Hn Hf.
  destruct (fixedText_parts n f Hn Hf)
    as (ip & fp & dot & -> & Hip & Hne & Hfp & Hdot & Hv & Hlen).
  split; [|split].
  - rewrite (Number_plain s ip fp dot Hip Hne Hfp Hdot). by rewrite Hv, Hlen.
  - rewrite !allChars_app.
    rewrite (allChars_impl _ _ _ isDigit_plainChar Hip).
    assert (allChars plainChar (signText s) = true) as -> by (by destruct s).
    destruct dot; [|done]. rewrite app_cons, app_nil. simpl.
    apply (allChars_impl _ _ _ isDigit_plainChar Hfp).
  - destruct ip as [|c ip]; [done|]. by destruct s.
Qed.

(** ** [toFixed] in fixed notation *)


Lemma toFixed_finite s m e f :
  0 <= f <= 100 -> units m e < 10 ^ 21 * 2 ^ 1074 ->
  toFixed (S754_finite s m e) f
    = Normal (signText s +:+ fixedText (fixedCount (units m e) f) f).
Proof.
  intros Hf. unfold toFixed.
  destruct (Z.ltb_spec f 0); [lia|]. destruct (Z.ltb_spec 100 f); [lia|].
  intros Hlim. simpl orb. cbv iota. unfold fraction.
  destruct (Z.leb_spec (10 ^ 21 * 2 ^ 1074) (units m e)) as [Hge|_].
  { exfalso. exact (Z.lt_irrefl _ (Z.lt_le_trans _ _ _ Hlim Hge)). }
  unfold fixedText, fixedCount. destruct (f =? 0); by destruct s.
Qed.

Lemma toFixed_zero s f :
  0 <= f <= 100 -> toFixed (S754_zero s) f = Normal (fixedText 0 f).
Proof.
  intros Hf. unfold toFixed.
  destruct (Z.ltb_spec f 0); [lia|]. destruct (Z.ltb_spec 100 f); [lia|].
  simpl orb. cbv iota. unfold fixedText.
  destruct (Z.eqb_spec f 0) as [->|Hf0]; [done|].
  f_equal. change (digitsOf 0) with "0". unfold padStart0.
  simpl String.length.
  replace (Z.to_nat f + 1 - 1)%nat with (Z.to_nat f) by lia.
  set (k := Z.to_nat f).
  assert (Hk : (0 < k)%nat) by lia.
  assert (E : forall j, repeatChar "0" j +:+ "0" = String "0" (repeatChar "0" j)).
  { induction j as [|j IH]; [done|]. simpl repeatChar. by rewrite app_cons, IH. }
  rewrite E. simpl String.length. rewrite length_repeatChar.
  replace (S k - k)%nat with 1%nat by lia. reflexivity.
Qed.

Lemma roundHalfUp_spec a q n :
  0 < q -> (roundHalfUp a q = n <-> 2 * n * q - q <= 2 * a < 2 * n * q + q).
Proof.
  intros Hq. unfold roundHalfUp. split.
  - intros <-.
    pose proof (Z.mul_div_le (2 * a + q) (2 * q) ltac:(lia)).
    pose proof (Z.mul_succ_div_gt (2 * a + q) (2 * q) ltac:(lia)). lia.
  - intros H. symmetry. apply Z.div_unique with (r := 2 * a + q - 2 * q * n); lia.
Qed.

Lemma rounded_exact p q y :
  0 < p -> 0 < q -> representable y -> y * q = scaled p -> rounded p q = y.
Proof.
  intros Hp Hq Hy E.
  pose proof (rounded_lower p q Hp Hq y Hy ltac:(lia)).
  pose proof (rounded_upper p q Hp Hq y Hy ltac:(lia)). lia.
Qed.

(** the arithmetic of the counts, over any unit [U] and any scale [g] *)
Lemma below_limit M a b A :
  0 <= M < 2 * A -> 0 < a -> 2 <= b -> M * a < A * (a * b).
Proof.
  intros [H0 HM] Ha Hb.
  assert (M * a < 2 * A * a) by (apply Z.mul_lt_mono_pos_r; lia).
  assert (A * a * 2 <= A * a * b).
  { apply Z.mul_le_mono_nonneg_l; [apply Z.mul_nonneg_nonneg; lia|lia]. }
  lia.
Qed.

Lemma count_le U g X N A :
  0 < U -> 0 < g -> X < A * U -> 2 * N * U - U <= 2 * (X * g) -> N <= A * g.
Proof.
  intros HU Hg HX HN.
  destruct (Z_le_gt_dec N (A * g)) as [Hle|Hgt]; [exact Hle|]. exfalso.
  assert (H1 : (A * g + 1) * U <= N * U) by (apply Z.mul_le_mono_nonneg_r; lia).
  assert (H2 : X * g < A * U * g) by (apply Z.mul_lt_mono_pos_r; lia).
  lia.
Qed.

Lemma count_bound U g X N b :
  0 < U -> 0 <= g -> X <= b * U -> 2 * N * U - U <= 2 * (X * g) -> N <= b * g.
Proof.
  intros HU Hg HX HN.
  destruct (Z_le_gt_dec N (b * g)) as [Hle|Hgt]; [exact Hle|]. exfalso.
  assert (H1 : (b * g + 1) * U <= N * U) by (apply Z.mul_le_mono_nonneg_r; lia).
  assert (H2 : X * g <= b * U * g) by (apply Z.mul_le_mono_nonneg_r; lia).
  lia.
Qed.

Lemma count_scaled U g N A : 0 < U -> N <= A * g -> N * U <= A * U * g.
Proof.
  intros HU HN.
  assert (N * U <= A * g * U) by (apply Z.mul_le_mono_nonneg_r; lia). lia.
Qed.

Lemma unit_scaled U g N : 0 < g -> g < U -> 0 < N -> 1 * g <= N * U.
Proof.
  intros Hg HU HN.
  assert (1 * U <= N * U) by (apply Z.mul_le_mono_nonneg_r; lia). lia.
Qed.

Lemma whole_count U g c : 0 < U -> 2 * (c * g) * U - U <= 2 * (c * U * g) < 2 * (c * g) * U + U.
Proof. intros HU. lia. Qed.

(** the nearest value prints as the same count, unless it lies half a
    unit above *)
Lemma nearest_count U g X N X' :
  2 * N * U - U <= 2 * (X * g) < 2 * N * U + U ->
  Z.abs (X' * g - N * U) <= Z.abs (X * g - N * U) ->
  (X' - X) * g <> U ->
  2 * N * U - U <= 2 * (X' * g) < 2 * N * U + U.
Proof. intros HN Hnear Hne. lia. Qed.

(** a multiple of a positive power of ten is no power of two *)
Lemma scale_not_unit U d f : U mod 5 = 4 -> 0 < f -> d * 10 ^ f <> U.
Proof.
  intros HU Hf E.
  assert (Eg : 10 ^ f = 2 * 10 ^ (f - 1) * 5).
  { replace f with (Z.succ (f - 1)) at 1 by lia.
    rewrite Z.pow_succ_r by lia. ring. }
  assert (H0 : U mod 5 = 0).
  { rewrite <- E, Eg, Z.mul_assoc. apply Z.mod_mul. lia. }
  lia.
Qed.

(** what the proof below uses of the unit [2^1074] and of the limit *)
Lemma unit_facts :
  0 < 2 ^ 1074 /\ 2 ^ 1074 mod 5 = 4 /\ 10 ^ 100 < 2 ^ 1074 /\
  2 ^ 1074 = 2 ^ 1022 * 2 ^ 52 /\ 2 ^ 52 < 10 ^ 21.
Proof. repeat split. Qed.

(** printing a Number below 10^21 with [f] decimals and reading the text
    back gives a Number that prints the same *)
Lemma fixedCount_stable X f :
  representable X -> 0 < X -> X < 10 ^ 21 * 2 ^ 1074 -> 0 <= f <= 100 ->
  0 < fixedCount X f ->
  0 < rounded (fixedCount X f) (10 ^ f) < 10 ^ 21 * 2 ^ 1074 /\
  fixedCount (rounded (fixedCount X f) (10 ^ f)) f = fixedCount X f.
Proof.
  intros HX HX0 Hlim Hf HN.
  assert (Hgpos : 0 < 10 ^ f) by (apply Z.pow_pos_nonneg; lia).
  assert (Hsc : forall p, scaled p = p * 2 ^ 1074) by reflexivity.
  assert (Hrep52 : representable (2 ^ 52 * 2 ^ 1074)).
  { exists 1, (52 + 1074). split; [|split; [lia|lia]].
    rewrite pow2_split by lia. ring. }
  assert (Hrep1 : representable 1).
  { exists 1, 0. split; [reflexivity|]. split; [lia|lia]. }
  assert (Hwhole : forall N, 0 <= N <= 2 ^ 52 -> representable (N * 2 ^ 1074)).
  { intros N HNr. exists N, 1074. split; [reflexivity|]. split; [|lia].
    change (2 ^ 53) with (2 * 2 ^ 52). lia. }
  assert (Hsplit : forall j, 0 <= j < 1074 ->
            exists b, 2 <= b /\ 2 ^ 1074 = 2 ^ j * b).
  { intros j Hj. exists (2 ^ (1074 - j)). split.
    - change 2 with (2 ^ 1) at 1. apply pow2_le. lia.
    - rewrite <- pow2_split by lia. f_equal. lia. }
  assert (Hmult : forall j, 1074 <= j -> 2 ^ j = 2 ^ (j - 1074) * 2 ^ 1074).
  { intros j Hj. rewrite <- pow2_split by lia. f_equal. lia. }
  assert (Hg : 10 ^ f < 2 ^ 1074).
  { apply Z.le_lt_trans with (10 ^ 100); [apply Z.pow_le_mono_r; lia|].
    apply unit_facts. }
  destruct unit_facts as (HUpos & HU5 & _ & _ & H52).
  pose proof HX as HXrep.
  destruct HX as (M & j & EX & HM & Hj).
  change (2 ^ 53) with (2 * 2 ^ 52) in HM.
  unfold fixedCount in *.
  generalize dependent (2 ^ 1074). intros U. intros.
  generalize dependent (10 ^ 21). intros L. intros.
  generalize dependent (2 ^ 52). intros A. intros.
  set (g := 10 ^ f) in *.
  set (N := roundHalfUp (X * g) U) in *.
  pose proof (proj1 (roundHalfUp_spec (X * g) U N HUpos) eq_refl) as HNr.
  destruct (Z_le_gt_dec 1074 j) as [Hbig|Hsmall].
  - (* X is a whole number *)
    set (c := M * 2 ^ (j - 1074)).
    assert (Ec : X = c * U) by (unfold c; rewrite EX, (Hmult j Hbig); ring).
    assert (EN : N = c * g).
    { apply roundHalfUp_spec; [exact HUpos|]. rewrite Ec. by apply whole_count. }
    assert (Hex : rounded N g = X).
    { apply rounded_exact; [exact HN | exact Hgpos | exact HXrep |].
      rewrite Hsc, EN, Ec. ring. }
    rewrite Hex. split; [split; [exact HX0|exact Hlim]|reflexivity].
  - (* X is below 2^52 *)
    destruct (Hsplit j ltac:(lia)) as (b & Hb & EU).
    assert (HXlt : X < A * U).
    { rewrite EX, EU. apply below_limit; [exact HM| |exact Hb].
      apply pow2_pos. exact Hj. }
    assert (HNle : N <= A * g).
    { apply (count_le U g X N A HUpos Hgpos HXlt). apply HNr. }
    assert (Hup : rounded N g <= A * U).
    { apply rounded_upper; [exact HN | exact Hgpos | exact Hrep52 |].
      rewrite Hsc. by apply count_scaled. }
    assert (Hlow : 1 <= rounded N g).
    { apply rounded_lower; [exact HN | exact Hgpos | exact Hrep1 |].
      rewrite Hsc. by apply unit_scaled. }
    split.
    { split; [lia|]. apply Z.le_lt_trans with (A * U); [exact Hup|].
      apply Z.mul_lt_mono_pos_r; [exact HUpos|exact H52]. }
    apply roundHalfUp_spec; [exact HUpos|].
    destruct (Z.eq_dec f 0) as [Hf0|Hf0].
    + assert (Eg : g = 1) by (unfold g; rewrite Hf0; reflexivity).
      assert (Hex : rounded N g = N * U).
      { apply rounded_exact; [exact HN | exact Hgpos | |].
        - apply Hwhole. rewrite Eg in HNle. lia.
        - rewrite Hsc, Eg. ring. }
      rewrite Hex, Eg. lia.
    + pose proof (rounded_nearest N g HN Hgpos X HXrep) as Hnear.
      rewrite Hsc in Hnear.
      apply (nearest_count U g X N _ HNr Hnear).
      apply scale_not_unit; [exact HU5|lia].
Qed.

End FixedNotation.

(** ** What the parser gives *)

Module ParserFacts.
Import JS ColumnPanel SpreadsheetGrid Samples StringFacts NumberFacts ValidatorFacts.
Import FixedNotation.

(** ** Every Number the parser gives is a binary64 value *)

Lemma rounded_nonneg p q : 0 < p -> 0 < q -> 0 <= rounded p q.
Proof.
  intros Hp Hq. pose proof (rounded_cases p q Hp Hq) as [-> Hm]. cbv zeta in Hm.
  pose proof (rounding_floor_bounds p q Hp Hq) as [Hfl _].
  pose proof (pow2_pos _ (rounding_exp_nonneg p q Hp Hq)).
  destruct Hm as [[-> _]|[-> _]]; nia.
Qed.

Lemma numberValue_binary64 s p q : 0 <= p -> 0 < q -> binary64 (numberValue s p q).
Proof.
  intros Hp Hq. destruct (Z.eq_dec p 0) as [->|Hne]; [exact I|].
  destruct (numberValue_rounded p q ltac:(lia) Hq s) as (Hz & Hfin & Hinf).
  pose proof (rounded_nonneg p q ltac:(lia) Hq) as H0.
  destruct (Z.eq_dec (rounded p q) 0) as [E|E]; [rewrite (Hz E); exact I|].
  destruct (Z_lt_le_dec (rounded p q) (2 ^ 2098)) as [Hlt|Hge].
  - destruct Hfin as (m & e & -> & _ & Hm & He); [|split; assumption].
    split; [clear - H0 E; lia|exact Hlt].
  - rewrite (Hinf Hge). exact I.
Qed.

Lemma numberOfDecimal_binary64 s m e : 0 <= m -> binary64 (numberOfDecimal s m e).
Proof.
  intros Hm. unfold numberOfDecimal. destruct (Z.leb_spec 0 e).
  - apply numberValue_binary64; [|lia].
    apply Z.mul_nonneg_nonneg; [done|]. apply Z.pow_nonneg. lia.
  - apply numberValue_binary64; [done|]. apply Z.pow_pos_nonneg; lia.
Qed.

Lemma hexVal_nonneg c : isHexDigit c = true -> 0 <= hexVal c.
Proof. each_char c; vm_compute; congruence. Qed.

Lemma radixValue_nonneg radix s : forall acc z,
  0 <= radix -> 0 <= acc -> radixValue radix acc s = Some z -> 0 <= z.
Proof.
  induction s as [|c s IH]; intros acc z Hr Ha; simpl.
  - intros [= <-]. done.
  - destruct (isHexDigit c) eqn:Hc; [|done].
    destruct (hexVal c <? radix); [|done]. simpl.
    apply IH; [done|]. pose proof (hexVal_nonneg c Hc). nia.
Qed.

Lemma parseNonDecimal_nonneg t z : parseNonDecimal t = Some (Some z) -> 0 <= z.
Proof.
  unfold parseNonDecimal. destruct t as [|c0 [|c r]]; try done.
  - by each_char c0.
  - assert (H : forall b, 0 <= b ->
               Some (if isEmpty r then None else radixValue b 0 r) = Some (Some z) ->
               0 <= z).
    { intros b Hb [= E]. destruct (isEmpty r); [done|].
      by eapply (radixValue_nonneg b r 0 z). }
    each_char c0; try done.
    destruct ((c =? "x")%char || (c =? "X")%char); [by apply H|].
    destruct ((c =? "o")%char || (c =? "O")%char); [by apply H|].
    destruct ((c =? "b")%char || (c =? "B")%char); [by apply H|done].
Qed.

Lemma parseUnsignedDecimal_nonneg r m e :
  parseUnsignedDecimal r = Some (m, e) -> 0 <= m.
Proof.
  unfold parseUnsignedDecimal.
  pose proof (spanDigits_digits r) as Hip.
  destruct (spanDigits r) as [ip r1]. simpl in Hip.
  set (second := match r1 with
                 | String "." r0 => spanDigits r0
                 | _ => (EmptyString, r1)
                 end).
  assert (Hfp : allChars isDigit (fst second) = true).
  { unfold second. destruct r1 as [|c r0]; [done|].
    each_char c; try done. apply spanDigits_digits. }
  destruct second as [fp r2]. simpl in Hfp.
  destruct (isEmpty ip && isEmpty fp); [done|].
  intros H.
  assert (E : m = digitsValue 0 (ip +:+ fp)).
  { destruct r2 as [|c r3]; [by injection H|].
    destruct ((c =? "e")%char || (c =? "E")%char); [|done].
    destruct (parseExponent r3); [by injection H|done]. }
  rewrite E. apply digitsValue_nonneg. by rewrite allChars_app, Hip, Hfp.
Qed.

Lemma Number_binary64 str : binary64 (Number str).
Proof.
  unfold Number. destruct (isEmpty _); [exact I|].
  destruct (parseNonDecimal _) as [[z|]|] eqn:E.
  - apply numberValue_binary64; [|lia]. by eapply parseNonDecimal_nonneg.
  - exact I.
  - unfold parseDecimal.
    match goal with |- context [let '(_, _) := ?x in _] => destruct x as [neg r] end.
    destruct (r =? "Infinity")%string; [exact I|].
    destruct (parseUnsignedDecimal r) as [[m e]|] eqn:Eu; [|exact I].
    apply numberOfDecimal_binary64. by eapply parseUnsignedDecimal_nonneg.
Qed.

Lemma toNumberLike_binary64 s n :
  toNumberLike s = Some n -> binary64 n /\ isFinite n = true.
Proof.
  unfold toNumberLike. destruct (isEmpty _); [done|].
  destruct (isFinite _) eqn:Hf; [|done]. intros [= <-].
  split; [apply Number_binary64|done].
Qed.

Lemma binary64_representable s m e :
  binary64 (S754_finite s m e) -> representable (units m e) /\ 0 < units m e.
Proof.
  intros [He Hm]. split; [|by apply units_pos].
  exists (Z.pos m), (e + 1074). split; [done|]. lia.
Qed.

(** ** Formatting what was formatted *)

(** how [toNumberLike] reads a text of plain characters, followed or not
    by a percent sign *)
Lemma toNumberLike_plain t (pct : bool) :
  allChars plainChar t = true -> t <> "" ->
  toNumberLike (t +:+ (if pct then "%" else "")) =
    if isFinite (Number t) then Some (Number t) else None.
Proof.
  intros Hall Hne.
  set (u := if pct then "%" else "").
  assert (Hws : allChars notWhiteSpace (t +:+ u) = true).
  { rewrite allChars_app, (allChars_impl _ _ _ plainChar_notWhiteSpace Hall).
    unfold u. by destruct pct. }
  assert (Hstrip : removeAll numberNoise (t +:+ u) = t).
  { rewrite removeAll_app.
    rewrite (removeAll_none _ t (allChars_impl _ _ _ plainChar_notNoise Hall)).
    unfold u. destruct pct; simpl; by rewrite app_empty_r. }
  unfold toNumberLike. rewrite (trim_noWS _ Hws), Hstrip.
  destruct t as [|c t]; [done|]. reflexivity.
Qed.

Lemma fixedCount_nonneg X f : 0 <= X -> 0 <= f -> 0 <= fixedCount X f.
Proof.
  intros HX Hf. unfold fixedCount, roundHalfUp.
  apply Z.div_pos; [|reflexivity].
  pose proof (Z.pow_nonneg 10 f ltac:(lia)).
  assert (0 <= X * 10 ^ f) by (apply Z.mul_nonneg_nonneg; lia).
  assert (0 < 2 ^ 1074) by reflexivity. lia.
Qed.

Lemma magnitudeUnits_finite s m e : magnitudeUnits (S754_finite s m e) = units m e.
Proof.
  unfold magnitudeUnits, signedUnits.
  assert (0 <= units m e).
  { unfold units. apply Z.mul_nonneg_nonneg; [lia|]. apply Z.pow_nonneg. lia. }
  destruct s; lia.
Qed.

End ParserFacts.

(** ** Properties of the formatter on numeric columns *)

Module FormatterProperties.
Import JS ColumnPanel SpreadsheetGrid Samples StringFacts NumberFacts ValidatorFacts.
Import FixedNotation ParserFacts.

Lemma numberOfDecimal_fixed s N f :
  0 <= f -> numberOfDecimal s N (- f) = numberValue s N (10 ^ f).
Proof.
  intros Hf. unfold numberOfDecimal.
  destruct (Z.eq_dec f 0) as [->|Hne].
  - simpl. by rewrite Z.mul_1_r.
  - destruct (Z.leb_spec 0 (- f)); [lia|]. by rewrite Z.opp_involutive.
Qed.

Lemma numberValue_zero s q : numberValue s 0 q = S754_zero s.
Proof. reflexivity. Qed.

Lemma fixedLimit_finite : 10 ^ 21 * 2 ^ 1074 < 2 ^ 2098.
Proof. reflexivity. Qed.

(** a negative zero is printed only for a magnitude below one unit of the
    last place, far below [10^21] *)
Lemma fixedCount_zero_small X f :
  0 <= X -> 0 <= f -> fixedCount X f = 0 -> X < 10 ^ 21 * 2 ^ 1074.
Proof.
  intros HX Hf E. unfold fixedCount in E.
  apply roundHalfUp_spec in E; [|reflexivity].
  assert (1 <= 10 ^ f) by (apply (Z.pow_le_mono_r 10 0 f); lia).
  assert (HU : 0 < 2 ^ 1074) by reflexivity.
  generalize dependent (2 ^ 1074). intros U E HU.
  generalize dependent (10 ^ f). intros g E Hg.
  assert (X * 1 <= X * g) by (apply Z.mul_le_mono_nonneg_l; lia).
  assert (1 * U <= 10 ^ 21 * U) by (apply Z.mul_le_mono_nonneg_r; lia).
  lia.
Qed.

(** formatting a Number and reading the text back *)
Lemma toFixed_reread n f t :
  binary64 n -> isFinite n = true -> magnitudeUnits n < 10 ^ 21 * 2 ^ 1074 ->
  toFixed n f = Normal t ->
  0 <= f <= 100 /\ allChars plainChar t = true /\ t <> "" /\
  isFinite (Number t) = true /\
  if rendersNegativeZero n f
  then t = "-" +:+ fixedText 0 f /\ toFixed (Number t) f = Normal (fixedText 0 f)
  else toFixed (Number t) f = Normal t.
Proof.
  intros Hb Hfin Hlim Hrun.
  assert (Hf : 0 <= f <= 100).
  { clear Hlim. unfold toFixed in Hrun.
    destruct (Z.ltb_spec f 0); [done|]. destruct (Z.ltb_spec 100 f); [done|]. lia. }
  split; [done|].
  pose proof (proj1 Hf) as Hf0.
  destruct n as [s0| | |s m e]; try done.
  - (* a zero *)
    clear Hlim.
    rewrite toFixed_zero in Hrun by done. injection Hrun as <-.
    destruct (Number_fixedText false 0 f (Z.le_refl 0) Hf0) as (E & Hall & Hne).
    simpl signText in *. rewrite app_nil in *.
    rewrite numberOfDecimal_fixed, numberValue_zero in E by exact Hf0.
    rewrite E. split; [done|]. split; [done|]. split; [reflexivity|].
    simpl. by apply toFixed_zero.
  - (* a finite Number that is not zero *)
    rewrite magnitudeUnits_finite in Hlim.
    rewrite toFixed_finite in Hrun by done. injection Hrun as <-.
    destruct (binary64_representable s m e Hb) as [Hrep Hpos].
    set (X := units m e) in *.
    pose proof (fixedCount_nonneg X f (Z.lt_le_incl _ _ Hpos) Hf0) as HN.
    destruct (Number_fixedText s (fixedCount X f) f HN Hf0) as (E & Hall & Hne).
    rewrite numberOfDecimal_fixed in E by exact Hf0.
    split; [done|]. split; [done|].
    destruct (Z.eq_dec (fixedCount X f) 0) as [E0|Hnz].
    + (* printed as a zero *)
      rewrite E0 in *. rewrite numberValue_zero in E. rewrite E.
      split; [reflexivity|]. unfold rendersNegativeZero. fold X. rewrite E0.
      destruct s; simpl.
      * split; [done|]. by apply toFixed_zero.
      * rewrite app_nil. by apply toFixed_zero.
    + assert (HN' : 0 < fixedCount X f) by (clear Hlim; lia).
      destruct (fixedCount_stable X f Hrep Hpos Hlim Hf HN') as (Hr & Hstable).
      assert (H10 : 0 < 10 ^ f) by (apply Z.pow_pos_nonneg; [reflexivity|exact Hf0]).
      destruct (numberValue_rounded (fixedCount X f) (10 ^ f) HN' H10 s)
        as (_ & Hfinite & _).
      destruct Hfinite as (m' & e' & En & Hu & _ & _).
      { split; [apply Hr|].
        eapply Z.lt_trans; [apply Hr|exact fixedLimit_finite]. }
      rewrite E, En. split; [reflexivity|].
      assert (Hz : rendersNegativeZero (S754_finite s m e) f = false).
      { unfold rendersNegativeZero. fold X. destruct s; [|done].
        by apply Z.eqb_neq. }
      rewrite Hz. rewrite toFixed_finite; [|done|rewrite Hu; apply Hr].
      by rewrite Hu, Hstable.
Qed.

(** [applyFormattingOnBlur] on a numeric column *)
Lemma applyFormattingOnBlur_numeric host col raw :
  isNumeric (type col) = true ->
  applyFormattingOnBlur host col raw =
    if isEmpty (trim raw) then Normal ""
    else match toNumberLike raw with
         | None => Normal raw
         | Some n =>
             match decimalPlaces col with
             | Some f => bindC (toFixed n f)
                           (fun t => Normal (t +:+ unitSuffix (type col)))
             | None => Throw RangeError
             end
         end.
Proof.
  intros Hty. unfold applyFormattingOnBlur, formatNumber, decimalPlaces.
  destruct (isEmpty (trim raw)); [done|].
  rewrite toNumberLike_trim.
  destruct (type col); try done; simpl;
    (destruct (toNumberLike raw) as [n|]; [|done]);
    (destruct (ToIntegerOrInfinity _); [|done]);
    (destruct (toFixed n _); simpl; [|done]); by rewrite ?app_empty_r.
Qed.

Lemma toNumberLike_nonblank raw n : toNumberLike raw = Some n -> isEmpty (trim raw) = false.
Proof. rewrite toNumberLike_unfold. by destruct (isEmpty (trim raw)). Qed.

(** the cell a numeric column shows after a blur, read again *)
Lemma formatted_reread host col raw n f once :
  isNumeric (type col) = true ->
  toNumberLike raw = Some n ->
  magnitudeUnits n < 10 ^ 21 * 2 ^ 1074 ->
  decimalPlaces col = Some f ->
  applyFormattingOnBlur host col raw = Normal once ->
  exists t, toFixed n f = Normal t /\ once = t +:+ unitSuffix (type col) /\
    isEmpty (trim once) = false /\
    toNumberLike once = Some (Number t) /\
    if rendersNegativeZero n f
    then t = "-" +:+ fixedText 0 f /\ toFixed (Number t) f = Normal (fixedText 0 f)
    else toFixed (Number t) f = Normal t.
Proof.
  intros Hty Hn Hlim Hdec Hrun.
  rewrite applyFormattingOnBlur_numeric in Hrun by done.
  rewrite (toNumberLike_nonblank _ _ Hn), Hn, Hdec in Hrun.
  destruct (toFixed n f) as [t|] eqn:Et; [|done]. simpl in Hrun. injection Hrun as <-.
  destruct (toNumberLike_binary64 _ _ Hn) as [Hb Hfin].
  destruct (toFixed_reread n f t Hb Hfin Hlim Et) as (Hf & Hall & Hne & Hfin' & Hre).
  exists t. split; [done|]. split; [done|].
  set (pct := match type col with ColumnType.percent => true | _ => false end).
  assert (Esuf : unitSuffix (type col) = if pct then "%" else "").
  { unfold pct. by destruct (type col). }
  rewrite Esuf.
  pose proof (toNumberLike_plain t pct Hall Hne) as Hread.
  rewrite Hfin' in Hread.
  split; [|split; [exact Hread|exact Hre]].
  eapply toNumberLike_nonblank. exact Hread.
Qed.

(** X1.  On a number, currency or percent column, formatting what was
    formatted changes nothing: for an input that reads as a Number of
    magnitude below [10^21], unless it is a negative Number that the
    column's decimals print as a zero. *)
Theorem formatting_numeric_idempotent (host : Host) (col : ColumnDef)
    (raw once : string) (n : number) (f : Z) :
  isNumeric (type col) = true ->
  toNumberLike raw = Some n ->
  magnitudeUnits n < 10 ^ 21 * 2 ^ 1074 ->
  decimalPlaces col = Some f ->
  rendersNegativeZero n f = false ->
  applyFormattingOnBlur host col raw = Normal once ->
  applyFormattingOnBlur host col once = Normal once.
Proof.
  intros Hty Hn Hlim Hdec Hnz Hrun.
  destruct (formatted_reread host col raw n f once Hty Hn Hlim Hdec Hrun)
    as (t & Et & -> & Hnb & Hread & Hre).
  rewrite Hnz in Hre.
  rewrite applyFormattingOnBlur_numeric by done.
  by rewrite Hnb, Hread, Hdec, Hre.
Qed.

Lemma formatting_numeric_idempotent_witness :
  applyFormattingOnBlur utcHost (column ColumnType.percent false None) "1,234.5"
    = Normal "1234.50%" /\
  applyFormattingOnBlur utcHost (column ColumnType.percent false None) "1234.50%"
    = Normal "1234.50%".
Proof.
  assert (H : applyFormattingOnBlur utcHost (column ColumnType.percent false None) "1,234.5"
              = Normal "1234.50%") by (vm_compute; reflexivity).
  split; [exact H|].
  apply (formatting_numeric_idempotent utcHost (column ColumnType.percent false None)
           "1,234.5" "1234.50%" (S754_finite false 5429388417957888 (-42)) 2).
  - reflexivity.
  - vm_compute. reflexivity.
  - vm_compute. reflexivity.
  - vm_compute. reflexivity.
  - reflexivity.
  - exact H.
Defined.

(** X2.  A negative Number that the column's decimals print as a zero is
    printed with its sign, and formatting that text drops the sign: the
    second blur changes the cell. *)
Theorem formatting_negative_zero_unstable (host : Host) (col : ColumnDef)
    (raw once : string) (n : number) (f : Z) :
  isNumeric (type col) = true ->
  toNumberLike raw = Some n ->
  decimalPlaces col = Some f ->
  rendersNegativeZero n f = true ->
  applyFormattingOnBlur host col raw = Normal once ->
  exists twice,
    once = "-" +:+ twice /\
    applyFormattingOnBlur host col once = Normal twice.
Proof.
  intros Hty Hn Hdec Hnz Hrun.
  assert (Hlim : magnitudeUnits n < 10 ^ 21 * 2 ^ 1074).
  { destruct n as [| | |[] m e]; try done.
    rewrite magnitudeUnits_finite. simpl in Hnz. apply Z.eqb_eq in Hnz.
    assert (0 <= f).
    { rewrite applyFormattingOnBlur_numeric in Hrun by done.
      rewrite (toNumberLike_nonblank _ _ Hn), Hn, Hdec in Hrun.
      unfold toFixed in Hrun. destruct (Z.ltb_spec f 0); [done|lia]. }
    apply (fixedCount_zero_small _ f); [|done|done].
    unfold units. apply Z.mul_nonneg_nonneg; [lia|]. apply Z.pow_nonneg. lia. }
  destruct (formatted_reread host col raw n f once Hty Hn Hlim Hdec Hrun)
    as (t & Et & -> & Hnb & Hread & Hre).
  rewrite Hnz in Hre. destruct Hre as [-> Hre].
  exists (fixedText 0 f +:+ unitSuffix (type col)).
  split; [by rewrite app_assoc_str|].
  rewrite applyFormattingOnBlur_numeric by done.
  by rewrite Hnb, Hread, Hdec, Hre.
Qed.

Lemma formatting_negative_zero_unstable_witness :
  exists twice,
    "-0.00" = "-" +:+ twice /\
    applyFormattingOnBlur utcHost (column ColumnType.number false None) "-0.00"
      = Normal twice.
Proof.
  apply (formatting_negative_zero_unstable utcHost (column ColumnType.number false None)
           "-0.001" "-0.00" (S754_finite true 4611686018427388 (-62)) 2).
  - reflexivity.
  - vm_compute. reflexivity.
  - vm_compute. reflexivity.
  - vm_compute. reflexivity.
  - vm_compute. reflexivity.
Defined.

Lemma ltb_finite x y :
  isFinite x = true -> isFinite y = true -> ltb x y = (signedUnits x <? signedUnits y).
Proof. by destruct x, y. Qed.

Lemma ofZ_finite z : Z.abs z < 2 ^ 53 ->
  isFinite (ofZ z) = true /\ signedUnits (ofZ z) = z * 2 ^ 1074.
Proof.
  intros Hb. destruct (Z.eq_dec z 0) as [->|Hz]; [by rewrite ofZ_zero|].
  destruct (ofZ_exact z Hz Hb) as (m & e & -> & Hu & _).
  split; [done|]. simpl. rewrite Hu. clear Hb Hu.
  generalize (2 ^ 1074). intros U. destruct (Z.ltb_spec z 0); lia.
Qed.

(** the Number read back from what [toFixed] printed *)
Lemma toFixed_value s m e f t :
  binary64 (S754_finite s m e) -> units m e < 10 ^ 21 * 2 ^ 1074 ->
  toFixed (S754_finite s m e) f = Normal t ->
  0 <= f <= 100 /\
  Number t = numberValue s (fixedCount (units m e) f) (10 ^ f).
Proof.
  intros Hb Hlim Hrun.
  assert (Hf : 0 <= f <= 100).
  { unfold toFixed in Hrun.
    destruct (Z.ltb_spec f 0); [done|]. destruct (Z.ltb_spec 100 f); [done|]. lia. }
  split; [done|].
  rewrite toFixed_finite in Hrun by done. injection Hrun as <-.
  destruct (binary64_representable s m e Hb) as [Hrep Hpos].
  pose proof (fixedCount_nonneg (units m e) f ltac:(lia) ltac:(lia)) as HN.
  destruct (Number_fixedText s (fixedCount (units m e) f) f HN ltac:(lia)) as (E & _ & _).
  by rewrite numberOfDecimal_fixed in E by lia.
Qed.

(** a whole bound that a Number keeps is kept by what is read back from
    its fixed notation *)
Lemma reread_bound s X f b :
  0 <= X -> 0 <= f -> 0 <= b < 2 ^ 53 -> X <= b * 2 ^ 1074 ->
  let n' := numberValue s (fixedCount X f) (10 ^ f) in
  isFinite n' = true /\ magnitudeUnits n' <= b * 2 ^ 1074 /\
  signedUnits n' = if s then - magnitudeUnits n' else magnitudeUnits n'.
Proof.
  intros HX Hf Hb HXB n'.
  pose proof (fixedCount_nonneg X f HX Hf) as HN.
  assert (H10 : 0 < 10 ^ f) by (apply Z.pow_pos_nonneg; [reflexivity|exact Hf]).
  assert (HB : representable (b * 2 ^ 1074)).
  { apply representable_pow2; [exact Hb|discriminate]. }
  assert (HU : 0 < 2 ^ 1074) by reflexivity.
  destruct (Z.eq_dec (fixedCount X f) 0) as [E0|Hnz].
  { unfold n'. rewrite E0, numberValue_zero. unfold magnitudeUnits. simpl.
    split; [reflexivity|]. split; [|by destruct s].
    apply Z.mul_nonneg_nonneg; [apply Hb|]. by apply Z.pow_nonneg. }
  assert (HN' : 0 < fixedCount X f) by (clear - HN Hnz; lia).
  assert (Hle : fixedCount X f <= b * 10 ^ f).
  { apply (count_bound (2 ^ 1074) (10 ^ f) X _ b HU (Z.lt_le_incl _ _ H10) HXB).
    apply (proj1 (roundHalfUp_spec (X * 10 ^ f) (2 ^ 1074) _ HU) eq_refl). }
  assert (Hscaled : scaled (fixedCount X f) <= b * 2 ^ 1074 * 10 ^ f).
  { unfold scaled. by apply count_scaled. }
  pose proof (rounded_upper (fixedCount X f) (10 ^ f) HN' H10 _ HB Hscaled) as Hup.
  pose proof (rounded_nonneg (fixedCount X f) (10 ^ f) HN' H10) as Hlo.
  destruct (numberValue_rounded (fixedCount X f) (10 ^ f) HN' H10 s)
    as (Hz & Hfin & _).
  destruct (Z.eq_dec (rounded (fixedCount X f) (10 ^ f)) 0) as [E|E].
  { unfold n'. rewrite (Hz E). unfold magnitudeUnits. simpl.
    split; [reflexivity|]. split; [|by destruct s].
    apply Z.mul_nonneg_nonneg; [apply Hb|]. by apply Z.pow_nonneg. }
  destruct Hfin as (m' & e' & En & Hu & _ & _).
  { split; [clear - Hlo E; lia|]. eapply Z.le_lt_trans; [exact Hup|].
    change (2 ^ 2098) with (2 ^ 1024 * 2 ^ 1074).
    apply Z.mul_lt_mono_pos_r; [reflexivity|].
    eapply Z.lt_trans; [apply Hb|reflexivity]. }
  unfold n'. rewrite En, magnitudeUnits_finite, Hu.
  split; [reflexivity|]. split; [exact Hup|]. simpl. by rewrite Hu.
Qed.

(** the test of the percent validator, in units *)
Lemma percentRange n :
  isFinite n = true ->
  ltb n (ofZ (-100)) || ltb (ofZ 1000) n = false <->
  -100 * 2 ^ 1074 <= signedUnits n <= 1000 * 2 ^ 1074.
Proof.
  intros Hn.
  destruct (ofZ_finite (-100) ltac:(reflexivity)) as [H1 E1].
  destruct (ofZ_finite 1000 ltac:(reflexivity)) as [H2 E2].
  rewrite (ltb_finite n (ofZ (-100)) Hn H1), (ltb_finite (ofZ 1000) n H2 Hn), E1, E2.
  rewrite orb_false_iff, !Z.ltb_ge. clear.
  generalize (2 ^ 1074). intros U. lia.
Qed.

(** the verdict of [validateCell] on a numeric column for a cell that is
    not blank *)
Lemma validateCell_numeric host col raw :
  isNumeric (type col) = true -> isEmpty (trim raw) = false ->
  (validateCell host col raw = None <->
   exists n, toNumberLike raw = Some n /\
     match type col with
     | ColumnType.percent => ltb n (ofZ (-100)) || ltb (ofZ 1000) n = false
     | _ => True
     end).
Proof.
  intros Hty Hnb. unfold validateCell.
  rewrite length_eqb_isEmpty, Hnb, andb_false_r, toNumberLike_trim.
  destruct (type col); try done;
    (destruct (toNumberLike raw) as [n|]; [|split; [done|by intros (? & ? & _)]]).
  - split; [by exists n|done].
  - split; [by exists n|done].
  - destruct (ltb n (ofZ (-100)) || ltb (ofZ 1000) n) eqn:E.
    + split; [done|]. intros (n' & [= <-] & H). congruence.
    + split; [by exists n|done].
Qed.

(** the Number read back from the fixed notation of a Number *)
Lemma toFixed_back n f t :
  binary64 n -> isFinite n = true -> magnitudeUnits n < 10 ^ 21 * 2 ^ 1074 ->
  toFixed n f = Normal t ->
  0 <= f <= 100 /\
  Number t = match n with
             | S754_finite s m e => numberValue s (fixedCount (units m e) f) (10 ^ f)
             | _ => S754_zero false
             end.
Proof.
  intros Hb Hfin Hlim Hrun.
  destruct n as [s0| | |s m e]; try done.
  - assert (Hf : 0 <= f <= 100).
    { unfold toFixed in Hrun.
      destruct (Z.ltb_spec f 0); [done|]. destruct (Z.ltb_spec 100 f); [done|]. lia. }
    split; [done|].
    rewrite toFixed_zero in Hrun by done. injection Hrun as <-.
    destruct (Number_fixedText false 0 f ltac:(lia) ltac:(lia)) as (E & _ & _).
    simpl signText in E. rewrite app_nil in E.
    by rewrite numberOfDecimal_fixed, numberValue_zero in E by lia.
  - rewrite magnitudeUnits_finite in Hlim. by apply toFixed_value.
Qed.

(** X3.  Formatting a valid cell of a number, currency or percent column
    leaves it valid. *)
Theorem formatting_keeps_valid (host : Host) (col : ColumnDef)
    (raw once : string) (n : number) :
  isNumeric (type col) = true ->
  toNumberLike raw = Some n ->
  magnitudeUnits n < 10 ^ 21 * 2 ^ 1074 ->
  validateCell host col raw = None ->
  applyFormattingOnBlur host col raw = Normal once ->
  validateCell host col once = None.
Proof.
  intros Hty Hn Hlim Hvalid Hrun.
  pose proof (toNumberLike_nonblank _ _ Hn) as Hnb.
  apply (validateCell_numeric host col raw Hty Hnb) in Hvalid as (n0 & Hn0 & Hrange).
  rewrite Hn in Hn0. injection Hn0 as <-.
  assert (Hdec : exists f, decimalPlaces col = Some f).
  { rewrite applyFormattingOnBlur_numeric in Hrun by done.
    rewrite Hnb, Hn in Hrun. destruct (decimalPlaces col) as [f|]; [by exists f|done]. }
  destruct Hdec as [f Hdec].
  destruct (formatted_reread host col raw n f once Hty Hn Hlim Hdec Hrun)
    as (t & Et & Eonce & Hnb' & Hread & _).
  apply (validateCell_numeric host col once Hty Hnb').
  exists (Number t). split; [done|].
  destruct (type col) eqn:Ety; try exact I.
  destruct (toNumberLike_binary64 _ _ Hn) as [Hb Hfin].
  destruct (toFixed_back n f t Hb Hfin Hlim Et) as (Hf & Eback).
  apply percentRange in Hrange; [|exact Hfin].
  assert (HU : 0 < 2 ^ 1074) by reflexivity.
  assert (H100 : 0 <= 100 < 2 ^ 53) by (split; [discriminate|reflexivity]).
  assert (H1000 : 0 <= 1000 < 2 ^ 53) by (split; [discriminate|reflexivity]).
  clear Hlim.
  destruct n as [s0| | |s m e]; try discriminate Hfin.
  { rewrite Eback. apply percentRange; [reflexivity|].
    change (signedUnits (S754_zero false)) with 0.
    clear - HU. generalize dependent (2 ^ 1074). intros U HU. lia. }
  rewrite Eback.
  assert (HX : 0 <= units m e).
  { unfold units. apply Z.mul_nonneg_nonneg; [apply Pos2Z.is_nonneg|].
    apply Z.pow_nonneg. discriminate. }
  change (signedUnits (S754_finite s m e))
    with (if s then - units m e else units m e) in Hrange.
  destruct s.
  - assert (HXB : units m e <= 100 * 2 ^ 1074).
    { clear - Hrange. generalize dependent (2 ^ 1074). intros U HU. lia. }
    destruct (reread_bound true (units m e) f 100 HX (proj1 Hf) H100 HXB)
      as (Hfin' & Hmag & Hsign).
    apply percentRange; [exact Hfin'|]. rewrite Hsign.
    pose proof (Z.abs_nonneg
      (signedUnits (numberValue true (fixedCount (units m e) f) (10 ^ f)))) as H0.
    fold (magnitudeUnits (numberValue true (fixedCount (units m e) f) (10 ^ f))) in H0.
    clear - Hmag H0 HU. generalize dependent (2 ^ 1074). intros U. lia.
  - assert (HXB : units m e <= 1000 * 2 ^ 1074) by apply Hrange.
    destruct (reread_bound false (units m e) f 1000 HX (proj1 Hf) H1000 HXB)
      as (Hfin' & Hmag & Hsign).
    apply percentRange; [exact Hfin'|]. rewrite Hsign.
    pose proof (Z.abs_nonneg
      (signedUnits (numberValue false (fixedCount (units m e) f) (10 ^ f)))) as H0.
    fold (magnitudeUnits (numberValue false (fixedCount (units m e) f) (10 ^ f))) in H0.
    clear - Hmag H0 HU. generalize dependent (2 ^ 1074). intros U. lia.
Qed.

Lemma formatting_keeps_valid_witness :
  validateCell utcHost (column ColumnType.percent true None) "999.999" = None /\
  validateCell utcHost (column ColumnType.percent true None) "1000.00%" = None.
Proof.
  assert (Hv : validateCell utcHost (column ColumnType.percent true None) "999.999" = None)
    by (vm_compute; reflexivity).
  split; [exact Hv|].
  apply (formatting_keeps_valid utcHost (column ColumnType.percent true None)
           "999.999" "1000.00%" (S754_finite false 8796084226114978 (-43))).
  - reflexivity.
  - vm_compute. reflexivity.
  - vm_compute. reflexivity.
  - exact Hv.
  - vm_compute. reflexivity.
Defined.

End FormatterProperties.

(** ** The calendar and the ISO form of a date *)

Module CalendarFacts.
Import JS ColumnPanel SpreadsheetGrid Samples StringFacts NumberFacts ValidatorFacts.
Import EvaluatorFacts FixedNotation ParserFacts FormatterProperties.

(** ** The calendar *)

Lemma DayFromYear_step y :
  DayFromYear (y + 1) = DayFromYear y + 365 + (if isLeapYear y then 1 else 0).
Proof.
  unfold DayFromYear, isLeapYear.
  destruct (Z.eqb_spec (y mod 4) 0), (Z.eqb_spec (y mod 100) 0),
    (Z.eqb_spec (y mod 400) 0); simpl; Z.div_mod_to_equations; lia.
Qed.

(** the year of a day is the year that contains it *)
Lemma YearFromDay_spec D :
  DayFromYear (YearFromDay D) <= D < DayFromYear (YearFromDay D + 1).
Proof.
  unfold YearFromDay.
  set (y0 := 1970 + D * 400 / 146097 + 1).
  assert (Hlo : DayFromYear (y0 - 3) <= D).
  { unfold y0, DayFromYear. Z.div_mod_to_equations. lia. }
  assert (Hhi : D < DayFromYear (y0 + 1)).
  { unfold y0, DayFromYear. Z.div_mod_to_equations. lia. }
  simpl yearDown.
  destruct (Z.leb_spec (DayFromYear y0) D); [lia|].
  destruct (Z.leb_spec (DayFromYear (y0 - 1)) D).
  { replace (y0 - 1 + 1) with y0 by lia. lia. }
  destruct (Z.leb_spec (DayFromYear (y0 - 1 - 1)) D).
  { replace (y0 - 1 - 1 + 1) with (y0 - 1) by lia. lia. }
  replace (y0 - 1 - 1 - 1) with (y0 - 3) by lia.
  replace (y0 - 3 + 1) with (y0 - 1 - 1) by lia. lia.
Qed.

Lemma monthUp_inv (leap : bool) dw : forall fuel m,
  m + Z.of_nat fuel = 11 ->
  daysBeforeMonth leap m <= dw < daysBeforeMonth leap 12 ->
  let r := monthUp fuel leap m dw in
  m <= r <= 11 /\ daysBeforeMonth leap r <= dw < daysBeforeMonth leap (r + 1).
Proof.
  induction fuel as [|fuel IH]; intros m Hm Hdw; cbv zeta; simpl monthUp.
  - assert (m = 11) as -> by lia. split; [lia|exact Hdw].
  - destruct (Z.ltb_spec dw (daysBeforeMonth leap (m + 1))).
    + split; lia.
    + destruct (IH (m + 1) ltac:(lia) ltac:(lia)) as [H1 H2]. split; [lia|exact H2].
Qed.

Lemma month_length (leap : bool) m :
  0 <= m <= 11 -> daysBeforeMonth leap (m + 1) - daysBeforeMonth leap m <= 31.
Proof.
  intros Hm.
  assert (H : m = 0 \/ m = 1 \/ m = 2 \/ m = 3 \/ m = 4 \/ m = 5 \/ m = 6 \/ m = 7 \/
              m = 8 \/ m = 9 \/ m = 10 \/ m = 11) by lia.
  destruct leap; repeat (destruct H as [->|H]; [vm_compute; congruence|]);
    subst; vm_compute; congruence.
Qed.

Lemma monthUp_spec (leap : bool) dw :
  0 <= dw < 365 + (if leap then 1 else 0) ->
  let m := monthUp 11 leap 0 dw in
  0 <= m <= 11 /\
  daysBeforeMonth leap m <= dw < daysBeforeMonth leap (m + 1) /\
  daysBeforeMonth leap (m + 1) - daysBeforeMonth leap m <= 31.
Proof.
  intros Hdw. cbv zeta.
  assert (E0 : daysBeforeMonth leap 0 = 0) by reflexivity.
  assert (E12 : daysBeforeMonth leap 12 = 365 + (if leap then 1 else 0))
    by (by destruct leap).
  destruct (monthUp_inv leap dw 11 0 ltac:(lia) ltac:(lia)) as [H1 H2].
  split; [done|]. split; [done|]. by apply month_length.
Qed.

(** the civil date of a time value names its day *)
Lemma civil_date t :
  let y := YearFromTime t in
  let m := MonthFromTime t in
  let d := DateFromTime t in
  0 <= m <= 11 /\ 1 <= d <= 31 /\ MakeDay y m d = Day t.
Proof.
  cbv zeta. unfold DateFromTime, MonthFromTime, DayWithinYear, YearFromTime.
  pose proof (YearFromDay_spec (Day t)) as Hy.
  rewrite DayFromYear_step in Hy.
  set (y := YearFromDay (Day t)) in *.
  set (dw := Day t - DayFromYear y).
  destruct (monthUp_spec (isLeapYear y) dw ltac:(unfold dw; lia)) as (Hm & Hdw & Hlen).
  cbv zeta in Hm, Hdw, Hlen.
  set (m := monthUp 11 (isLeapYear y) 0 dw) in *.
  split; [done|]. split; [lia|].
  unfold MakeDay.
  replace (m / 12) with 0 by (Z.div_mod_to_equations; lia).
  replace (m mod 12) with m by (Z.div_mod_to_equations; lia).
  rewrite Z.add_0_r. fold y. unfold dw. lia.
Qed.

(** ** The digits of a date *)

Lemma plus_minus_not_digit c :
  isDigit c = true -> (c =? "+")%char || (c =? "-")%char = false.
Proof. each_char c; by vm_compute. Qed.

Lemma isDigit_notWhiteSpace c : isDigit c = true -> notWhiteSpace c = true.
Proof. each_char c; by vm_compute. Qed.

(** a year of four digits *)
Lemma year_digits y :
  1000 <= y <= 9999 ->
  allChars isDigit (intToString y) = true /\
  String.length (intToString y) = 4%nat /\
  digitsValue 0 (intToString y) = y.
Proof.
  intros Hy. unfold intToString. destruct (Z.ltb_spec y 0); [lia|].
  destruct (digitsOf_spec y ltac:(lia)) as (Hall & _ & Hval & Hup & Hlow).
  split; [done|]. split; [|done].
  set (len := String.length (digitsOf y)) in *.
  assert (Hlen : (len < 4 \/ len = 4 \/ 4 < len)%nat) by lia.
  destruct Hlen as [Hlt|[->|Hgt]]; [exfalso| done |exfalso].
  - assert (10 ^ Z.of_nat len <= 10 ^ 3) by (apply Z.pow_le_mono_r; lia).
    change (10 ^ 3) with 1000 in *. lia.
  - destruct Hlow as [E|Hlow]; [lia|].
    assert (10 ^ 4 <= 10 ^ (Z.of_nat len - 1)) by (apply Z.pow_le_mono_r; lia).
    change (10 ^ 4) with 10000 in *. lia.
Qed.

(** a month or a day of the month, padded to two digits *)
Lemma two_digits v :
  0 <= v <= 31 ->
  allChars isDigit (padStart0 2 (intToString v)) = true /\
  forall rest,
    readDigits 2 0 (padStart0 2 (intToString v) +:+ rest) = Some (v, rest).
Proof.
  intros Hv. rewrite <- (Z2Nat.id v) by lia.
  assert (Hn : (Z.to_nat v <= 31)%nat) by lia.
  generalize dependent (Z.to_nat v). clear. intros n Hn.
  do 32 (destruct n as [|n]; [split; [reflexivity|intros rest; reflexivity]|]).
  lia.
Qed.

(** ** Reading back the ISO form of a date *)

Lemma parseISO_date y mo d :
  1000 <= y <= 9999 -> 1 <= mo <= 12 -> 1 <= d <= 31 ->
  let text := intToString y +:+ "-" +:+ padStart0 2 (intToString mo) +:+ "-"
              +:+ padStart0 2 (intToString d) in
  parseISO text = ISOUtc (MakeDate (MakeDay y (mo - 1) d) 0) /\
  allChars notWhiteSpace text = true /\ text <> "".
Proof.
  intros Hy Hmo Hd text.
  destruct (year_digits y Hy) as (Hyd & Hlen & Hval).
  destruct (two_digits mo ltac:(lia)) as (Hmd & Hmr).
  destruct (two_digits d ltac:(lia)) as (Hdd & Hdr).
  set (ys := intToString y) in *.
  set (ms := padStart0 2 (intToString mo)) in *.
  set (ds := padStart0 2 (intToString d)) in *.
  assert (Hhead : exists c r, ys = String c r /\ isDigit c = true).
  { destruct ys as [|c r]; [done|]. exists c, r. split; [done|].
    simpl in Hyd. by apply andb_true_iff in Hyd as [-> _]. }
  split; [|split].
  - unfold parseISO, text.
    destruct Hhead as (c & r & E & Hc).
    rewrite E at 1. rewrite app_cons, (plus_minus_not_digit c Hc).
    pose proof (readDigits_app ys ("-" +:+ ms +:+ "-" +:+ ds) 0 Hyd) as Hr.
    rewrite Hlen, Hval in Hr. rewrite Hr.
    unfold parseISOAfterYear. rewrite app_cons, app_nil.
    rewrite Hmr. rewrite app_cons, app_nil.
    pose proof (Hdr "") as Hr2. rewrite app_empty_r in Hr2. rewrite Hr2.
    destruct (Z.leb_spec 1 mo); [|lia]. destruct (Z.leb_spec mo 12); [|lia].
    destruct (Z.leb_spec 1 d); [|lia]. destruct (Z.leb_spec d 31); [|lia].
    reflexivity.
  - unfold text. rewrite !allChars_app.
    rewrite (allChars_impl _ _ _ isDigit_notWhiteSpace Hyd).
    rewrite (allChars_impl _ _ _ isDigit_notWhiteSpace Hmd).
    rewrite (allChars_impl _ _ _ isDigit_notWhiteSpace Hdd). reflexivity.
  - unfold text. destruct Hhead as (c & r & -> & _). by rewrite app_cons.
Qed.

End CalendarFacts.

(** ** Properties of the formatter on date columns *)

Module DateProperties.
Import JS ColumnPanel SpreadsheetGrid Samples StringFacts NumberFacts ValidatorFacts.
Import EvaluatorFacts FixedNotation ParserFacts FormatterProperties CalendarFacts.

Lemma DayFromYear_mono a b : a <= b -> DayFromYear a <= DayFromYear b.
Proof. intros H. unfold DayFromYear. Z.div_mod_to_equations. lia. Qed.

(** the civil date depends on the day alone *)
Lemma isoDate_day t1 t2 : Day t1 = Day t2 -> isoDate t1 = isoDate t2.
Proof.
  intros E. unfold isoDate, DateFromTime, MonthFromTime, DayWithinYear, YearFromTime.
  by rewrite E.
Qed.

Lemma formatDate_iso host d : formatDate host d iso = isoDate (LocalTime host d).
Proof. reflexivity. Qed.

(** the days of the years of four digits are time values *)
Lemma year_range_day t :
  1000 <= YearFromTime t <= 9999 ->
  Z.abs (Day t * msPerDay) <= 8640000000000000.
Proof.
  unfold YearFromTime. intros Hy.
  pose proof (YearFromDay_spec (Day t)) as [H1 H2].
  pose proof (DayFromYear_mono 1000 _ ltac:(apply Hy)) as Hlo.
  pose proof (DayFromYear_mono (YearFromDay (Day t) + 1) 10000 ltac:(lia)) as Hhi.
  change (DayFromYear 1000) with (-354285) in Hlo.
  change (DayFromYear 10000) with 2932897 in Hhi.
  unfold msPerDay. lia.
Qed.

(** the ISO form of a day of a year of four digits reads back as the
    start of that day in UTC *)
Lemma isoDate_parse host t :
  1000 <= YearFromTime t <= 9999 ->
  toDateLike host (isoDate t) = Some (Day t * msPerDay) /\
  isEmpty (trim (isoDate t)) = false.
Proof.
  intros Hy.
  destruct (civil_date t) as (Hm & Hd & Hday). cbv zeta in Hm, Hd, Hday.
  destruct (parseISO_date (YearFromTime t) (MonthFromTime t + 1) (DateFromTime t)
              Hy ltac:(lia) Hd) as (Hparse & Hws & Hne).
  cbv zeta in Hparse, Hws, Hne. fold (isoDate t) in Hparse, Hws, Hne.
  replace (MonthFromTime t + 1 - 1) with (MonthFromTime t) in Hparse by lia.
  rewrite Hday in Hparse.
  assert (Hnb : isEmpty (trim (isoDate t)) = false).
  { rewrite (trim_noWS _ Hws). by destruct (isoDate t). }
  split; [|exact Hnb].
  unfold toDateLike. rewrite Hnb, (trim_noWS _ Hws).
  unfold newDate, Date_parse. rewrite Hparse.
  unfold MakeDate, TimeClip. rewrite Z.add_0_r.
  pose proof (year_range_day t Hy).
  by destruct (Z.leb_spec (Z.abs (Day t * msPerDay)) 8640000000000000); [|lia].
Qed.

Lemma applyFormattingOnBlur_date host col raw :
  type col = ColumnType.date ->
  applyFormattingOnBlur host col raw =
    if isEmpty (trim raw) then Normal ""
    else match toDateLike host raw with
         | None => Normal raw
         | Some d =>
             Normal (formatDate host d (default iso (format col ≫= dateFormat)))
         end.
Proof.
  intros Hty. unfold applyFormattingOnBlur. rewrite Hty.
  destruct (isEmpty (trim raw)); [done|]. by rewrite toDateLike_trim.
Qed.

Lemma toDateLike_nonblank host raw d :
  toDateLike host raw = Some d -> isEmpty (trim raw) = false.
Proof. unfold toDateLike. by destruct (isEmpty (trim raw)). Qed.

(** the second blur of a date cell shows the local day of the UTC start
    of the day the first blur showed *)
Lemma date_reformat host col raw once d :
  type col = ColumnType.date ->
  default iso (format col ≫= dateFormat) = iso ->
  toDateLike host raw = Some d ->
  1000 <= getFullYear host d <= 9999 ->
  applyFormattingOnBlur host col raw = Normal once ->
  once = isoDate (LocalTime host d) /\
  applyFormattingOnBlur host col once
    = Normal (isoDate (LocalTime host (Day (LocalTime host d) * msPerDay))).
Proof.
  intros Hty Hfmt Hd Hy Hrun.
  rewrite applyFormattingOnBlur_date in Hrun by done.
  rewrite (toDateLike_nonblank _ _ _ Hd), Hd, Hfmt, formatDate_iso in Hrun.
  injection Hrun as <-. split; [done|].
  destruct (isoDate_parse host (LocalTime host d) Hy) as (Hparse & Hnb).
  rewrite applyFormattingOnBlur_date by done.
  by rewrite Hnb, Hparse, Hfmt, formatDate_iso.
Qed.

(** X8.  On a date column shown in the ISO form, where local time is
    UTC or ahead of it by less than a day, formatting what was formatted
    changes nothing, for dates in the years 1000 to 9999. *)
Theorem formatting_date_idempotent (host : Host) (col : ColumnDef)
    (raw once : string) (d : Z) :
  type col = ColumnType.date ->
  default iso (format col ≫= dateFormat) = iso ->
  (forall t, 0 <= LocalTZA host t true < msPerDay) ->
  toDateLike host raw = Some d ->
  1000 <= getFullYear host d <= 9999 ->
  applyFormattingOnBlur host col raw = Normal once ->
  applyFormattingOnBlur host col once = Normal once.
Proof.
  intros Hty Hfmt Heast Hd Hy Hrun.
  destruct (date_reformat host col raw once d Hty Hfmt Hd Hy Hrun) as (-> & ->).
  f_equal. apply isoDate_day.
  unfold LocalTime at 1. 
  specialize (Heast (Day (LocalTime host d) * msPerDay)).
  unfold Day at 1. unfold msPerDay in *.
  Z.div_mod_to_equations. lia.
Qed.

Lemma formatting_date_idempotent_witness :
  applyFormattingOnBlur utcHost (column ColumnType.date false None) "2024-03-05T23:30:00Z"
    = Normal "2024-03-05" /\
  applyFormattingOnBlur utcHost (column ColumnType.date false None) "2024-03-05"
    = Normal "2024-03-05".
Proof.
  assert (H : applyFormattingOnBlur utcHost (column ColumnType.date false None)
                "2024-03-05T23:30:00Z" = Normal "2024-03-05") by (vm_compute; reflexivity).
  split; [exact H|].
  apply (formatting_date_idempotent utcHost (column ColumnType.date false None)
           "2024-03-05T23:30:00Z" "2024-03-05" 1709681400000).
  - reflexivity.
  - reflexivity.
  - intros t. simpl. unfold msPerDay. lia.
  - vm_compute. reflexivity.
  - vm_compute. split; discriminate.
  - exact H.
Defined.

(** X9.  Where local time is behind UTC, by a day at most, the second
    blur of a date cell shows the day before: the ISO form is read as the
    start of the day in UTC, which is still the evening before in local
    time. *)
Theorem formatting_date_drifts (host : Host) (col : ColumnDef)
    (raw once : string) (d : Z) :
  type col = ColumnType.date ->
  default iso (format col ≫= dateFormat) = iso ->
  (forall t, - msPerDay <= LocalTZA host t true < 0) ->
  toDateLike host raw = Some d ->
  1001 <= getFullYear host d <= 9999 ->
  applyFormattingOnBlur host col raw = Normal once ->
  exists twice,
    applyFormattingOnBlur host col once = Normal twice /\
    twice = isoDate (LocalTime host d - msPerDay) /\
    twice <> once.
Proof.
  intros Hty Hfmt Hwest Hd Hy Hrun.
  destruct (date_reformat host col raw once d Hty Hfmt Hd ltac:(lia) Hrun) as (-> & ->).
  set (T := LocalTime host d) in *.
  assert (Hday : Day (LocalTime host (Day T * msPerDay)) = Day (T - msPerDay)).
  { unfold LocalTime at 1.
    specialize (Hwest (Day T * msPerDay)).
    unfold Day, msPerDay in *. Z.div_mod_to_equations. lia. }
  exists (isoDate (T - msPerDay)).
  split; [f_equal; by apply isoDate_day|]. split; [done|].
  assert (Hprev : Day (T - msPerDay) = Day T - 1).
  { unfold Day, msPerDay. Z.div_mod_to_equations. lia. }
  assert (Hy' : 1000 <= YearFromTime (T - msPerDay) <= 9999).
  { unfold getFullYear in Hy. fold T in Hy. unfold YearFromTime in *. rewrite Hprev.
    pose proof (YearFromDay_spec (Day T)) as [H1 H2].
    pose proof (YearFromDay_spec (Day T - 1)) as [H3 H4].
    set (y := YearFromDay (Day T)) in *. set (y' := YearFromDay (Day T - 1)) in *.
    split.
    - destruct (Z_lt_le_dec y' 1000) as [Hlt|]; [exfalso|done].
      pose proof (DayFromYear_mono (y' + 1) 1000 ltac:(lia)).
      pose proof (DayFromYear_mono 1001 y ltac:(lia)).
      change (DayFromYear 1000) with (-354285) in *.
      change (DayFromYear 1001) with (-353920) in *. lia.
    - destruct (Z_lt_le_dec 9999 y') as [Hlt|]; [exfalso|lia].
      pose proof (DayFromYear_mono (y + 1) y' ltac:(lia)). lia. }
  intros E.
  destruct (isoDate_parse host (T - msPerDay) Hy') as (Hp1 & _).
  destruct (isoDate_parse host T ltac:(unfold getFullYear in Hy; fold T in Hy; lia))
    as (Hp2 & _).
  rewrite E, Hp2 in Hp1. injection Hp1 as Hp1. rewrite Hprev in Hp1.
  unfold msPerDay in Hp1. lia.
Qed.

Lemma formatting_date_drifts_witness :
  exists twice,
    applyFormattingOnBlur westHost (column ColumnType.date false None) "2024-03-05"
      = Normal twice /\
    twice = isoDate (LocalTime westHost 1709681400000 - msPerDay) /\
    twice <> "2024-03-05".
Proof.
  apply (formatting_date_drifts westHost (column ColumnType.date false None)
           "2024-03-05T23:30:00Z" "2024-03-05" 1709681400000).
  - reflexivity.
  - reflexivity.
  - intros t. simpl. unfold msPerDay. lia.
  - vm_compute. reflexivity.
  - vm_compute. split; discriminate.
  - vm_compute. reflexivity.
Defined.

End DateProperties.

(** ** Properties of the matrix of cells *)

Module GridProperties.
Import JS ColumnPanel Workbook Samples GridFacts.

(** ** Matrices of a given shape *)


Lemma tabulate_shape rows cols f :
  length (tabulate rows cols f) = rows /\
  Forall (fun row => length row = cols) (tabulate rows cols f).
Proof.
  unfold tabulate. split; [by rewrite length_map, length_seq|].
  apply Forall_forall. intros row Hrow.
  apply list_elem_of_fmap in Hrow as (r & -> & _).
  by rewrite length_map, length_seq.
Qed.



(** ** Fill-down, again *)

Lemma fillLoop_stops fuel rr c src (next : SheetCellMatrix) :
  ((length next <= rr)%nat \/ ~ blank (cellAt next rr c)) ->
  fillLoop fuel rr c src next = Normal next.
Proof.
  intros H. destruct fuel as [|fuel]; simpl; [done|].
  destruct (Nat.ltb_spec rr (length next)) as [Hlt|Hge]; [|done].
  destruct H as [H|H]; [lia|].
  destruct (trim (cellAt next rr c) =? "")%string eqn:Hb; [|done].
  by apply blank_eqb in Hb.
Qed.

(** X18.  Fill-down always completes, and filling down again from the
    same cell changes nothing. *)
Theorem fillDown_idempotent (r c : nat) (prev : SheetCellMatrix) :
  exists next,
    fillDownFromCell r c prev = Normal next /\
    fillDownFromCell r c next = Normal next.
Proof.
  destruct (decide (trim (cellAt prev r c) = "")) as [Hb|Hb].
  { exists prev. by rewrite (fillDown_blank_source r c prev Hb). }
  destruct (fillDown_spec r c prev Hb)
    as (next & stop & Hrun & Hlen & H1 & H2 & H3 & H4 & H5).
  exists next. split; [done|].
  assert (Hsrc : cellAt next r c = cellAt prev r c).
  { rewrite H5. by rewrite decide_False by lia. }
  unfold fillDownFromCell. rewrite Hsrc.
  destruct (isEmpty (trim (cellAt prev r c))) eqn:He.
  { by apply blank_isEmpty in He. }
  apply fillLoop_stops.
  destruct (decide (r + 1 < stop)%nat) as [Hin|Hout].
  - right. rewrite H5. rewrite decide_True by lia. done.
  - assert (stop = (r + 1)%nat) as -> by lia.
    destruct (decide (r + 1 < length prev)%nat) as [Hlt|Hge].
    + right. rewrite H5. rewrite decide_False by lia. by apply H4.
    + left. lia.
Qed.

(** X19.  A cell edit writes the cell and nothing else, in a matrix of as
    many rows; on a row the matrix does not have it is a [TypeError]. *)
Theorem onChangeCell_spec (r c : nat) (value : string) (prev : SheetCellMatrix) :
  ((r < length prev)%nat ->
   exists next,
     onChangeCell r c value prev = Normal next /\
     length next = length prev /\
     forall k cc, cellAt next k cc =
       if decide (k = r /\ cc = c) then value else cellAt prev k cc) /\
  ((length prev <= r)%nat -> onChangeCell r c value prev = Throw TypeError).
Proof.
  unfold onChangeCell, assignCell. split.
  - intros Hr. destruct (lookup_lt_is_Some_2 prev r Hr) as [row Hrow].
    rewrite Hrow. eexists. split; [done|]. split; [by rewrite length_insert|].
    intros k cc. by apply cellAt_assign.
  - intros Hr. by rewrite (lookup_ge_None_2 prev r Hr).
Qed.

Lemma onChangeCell_spec_witness :
  (exists next,
     onChangeCell 1 0 "x" [["a"]; ["b"]] = Normal next /\
     length next = 2%nat /\
     forall k cc, cellAt next k cc =
       if decide (k = 1%nat /\ cc = 0%nat) then "x" else cellAt [["a"]; ["b"]] k cc) /\
  onChangeCell 2 0 "x" [["a"]; ["b"]] = Throw TypeError.
Proof.
  destruct (onChangeCell_spec 1 0 "x" [["a"]; ["b"]]) as [H _].
  destruct (onChangeCell_spec 2 0 "x" [["a"]; ["b"]]) as [_ H'].
  split; [apply H; simpl; lia|apply H'; simpl; lia].
Defined.

(** ** The shape of a loaded matrix *)

Lemma forBelow_invariant {St : Type} (P : St -> Prop) bound
    (body : nat -> St -> completion St) : forall fuel i s s',
  (forall j s1 s2, (i <= j < i + fuel)%nat -> P s1 -> body j s1 = Normal s2 -> P s2) ->
  P s -> forBelow fuel i bound body s = Normal s' -> P s'.
Proof.
  induction fuel as [|fuel IH]; intros i s s' Hbody Hs; simpl.
  - by intros [= <-].
  - destruct (ltb (ofZ (Z.of_nat i)) bound); [|by intros [= <-]].
    destruct (body i s) as [s1|] eqn:E; simpl; [|done].
    apply IH.
    + intros j s2 s3 Hj. apply Hbody. lia.
    + eapply Hbody; [|exact Hs|exact E]. lia.
Qed.

Lemma assignCell_shape rows w (m m' : SheetCellMatrix) r c v :
  (c < w)%nat -> length m = rows /\ rectangular w m ->
  assignCell m r c v = Normal m' ->
  length m' = rows /\ rectangular w m'.
Proof.
  intros Hc [Hlen Hrect]. unfold assignCell.
  destruct (m !! r) as [row|] eqn:Hrow; [|done]. intros [= <-].
  split; [by rewrite length_insert|].
  unfold rectangular in *. apply Forall_insert; [done|].
  assert (Hl : length row = w).
  { rewrite Forall_forall in Hrect. apply Hrect. by eapply list_elem_of_lookup_2. }
  unfold assignIndex. destruct (Nat.ltb_spec c (length row)); [|lia].
  by rewrite length_insert.
Qed.

Lemma makeEmptyCells_shape rows cols :
  length (makeEmptyCells rows cols) = rows /\ rectangular cols (makeEmptyCells rows cols).
Proof.
  unfold makeEmptyCells, rectangular. split; [by rewrite length_replicate|].
  apply Forall_replicate. by rewrite length_replicate.
Qed.

Lemma hydrate_shape parsed st :
  hydrate parsed = Normal st ->
  rectangular (columnCount (columns st)) (cells st) /\
  arrayLength (rowCount st) = Normal (length (cells st)) /\
  (0 < columnCount (columns st))%nat.
Proof.
  unfold hydrate.
  destruct (getProp parsed "rowCount") as [pR|]; [simpl|done].
  destruct (getProp parsed "columns") as [pC|]; [simpl|done].
  destruct (getProp parsed "cells") as [pCe|]; [simpl|done].
  destruct (getProp parsed "purpose") as [pP|]; [simpl|done].
  set (rc := match pR with Some (JNum n) => n | _ => ofZ 50 end).
  set (cols := match asArray pC with
               | Some (c :: cs) => PersistedColumns (c :: cs)
               | _ => DefinedColumns (makeDefaultColumns 12)
               end).
  assert (Hcols : (0 < columnCount cols)%nat).
  { unfold cols. destruct (asArray pC) as [[|c cs]|]; simpl; lia. }
  change (match cols with
          | PersistedColumns cs => length cs
          | DefinedColumns cs => length cs
          end) with (columnCount cols).
  set (w := columnCount cols) in *.
  match goal with |- bindC ?first _ = _ -> _ => destruct first as [cells0|] end;
    [simpl|done].
  destruct (arrayLength rc) as [rows|] eqn:Erows; [simpl|done].
  match goal with |- bindC ?loop _ = _ -> _ => destruct loop as [normalized|] eqn:Eloop end;
    [simpl|done].
  intros [= <-]. simpl.
  assert (Hshape : length normalized = rows /\ rectangular w normalized).
  { revert Eloop.
    apply (forBelow_invariant (fun m => length m = rows /\ rectangular w m));
      [|apply makeEmptyCells_shape].
    intros r m1 m2 _ Hm1.
    apply (forBelow_invariant (fun m => length m = rows /\ rectangular w m)); [|done].
    intros c m3 m4 Hc Hm3. apply (assignCell_shape rows w); [lia|done]. }
  destruct Hshape as [<- Hrect]. done.
Qed.

(** X21.  Whatever the stored item, the loaded state has at least one
    column, every row of its matrix has as many cells as there are
    columns, and the matrix has as many rows as an array of length
    [rowCount] has elements. *)
Theorem loadState_rectangular (stored : StoredItem) :
  let st := loadState stored in
  (0 < columnCount (columns st))%nat /\
  rectangular (columnCount (columns st)) (cells st) /\
  arrayLength (rowCount st) = Normal (length (cells st)).
Proof.
  assert (Hdefault :
    (0 < columnCount (columns defaultState))%nat /\
    rectangular (columnCount (columns defaultState)) (cells defaultState) /\
    arrayLength (rowCount defaultState) = Normal (length (cells defaultState))).
  { split; [simpl; lia|]. split; [apply makeEmptyCells_shape|].
    vm_compute. reflexivity. }
  cbv zeta. unfold loadState.
  destruct stored as [|[parsed|e]]; [exact Hdefault| |exact Hdefault].
  destruct (hydrate parsed) as [st|e] eqn:E; [|exact Hdefault].
  destruct (hydrate_shape parsed st E) as (H1 & H2 & H3). done.
Qed.



End GridProperties.

(** ** Properties of the columns, the panel and the keys *)

Module ColumnProperties.
Import JS ColumnPanel SpreadsheetGrid Workbook Samples StringFacts NumberFacts ValidatorFacts.
Import FixedNotation ParserFacts FormatterProperties.

(** ** Column ids and letters *)

Lemma app_inj_r (p a b : string) : p +:+ a = p +:+ b -> a = b.
Proof.
  induction p as [|c p IH]; [by rewrite !app_nil|].
  rewrite !app_cons. intros [= E]. by apply IH.
Qed.

Lemma intToString_inj (a b : Z) :
  0 <= a -> 0 <= b -> intToString a = intToString b -> a = b.
Proof.
  intros Ha Hb. unfold intToString.
  destruct (Z.ltb_spec a 0); [lia|]. destruct (Z.ltb_spec b 0); [lia|].
  intros E.
  destruct (digitsOf_spec a Ha) as (_ & _ & <- & _).
  destruct (digitsOf_spec b Hb) as (_ & _ & <- & _).
  by rewrite E.
Qed.

Lemma makeDefaultColumnsFrom_lookup count : forall i k,
  makeDefaultColumnsFrom i count !! k =
    if decide (k < count)%nat
    then Some {| id := "col_" +:+ intToString (Z.of_nat (i + k));
                 name := fromCharCode (65 + N.of_nat (i + k));
                 type := ColumnType.untyped; required := false;
                 description := ""; enumValues := [];
                 computed := None; format := None |}
    else None.
Proof.
  induction count as [|count IH]; intros i k; simpl; [done|].
  destruct k as [|k]; simpl.
  - by rewrite Nat.add_0_r.
  - rewrite IH. replace (S i + k)%nat with (i + S k)%nat by lia.
    destruct (decide (k < count)%nat).
    + by rewrite decide_True by lia.
    + by rewrite decide_False by lia.
Qed.

Lemma makeDefaultColumns_length count : length (makeDefaultColumns count) = count.
Proof.
  unfold makeDefaultColumns. generalize 0%nat.
  induction count as [|count IH]; intros i; simpl; [done|]. by rewrite IH.
Qed.

(** X22.  [makeDefaultColumns count] builds [count] columns; column [k]
    has the id [col_k], and the ids are pairwise distinct; every column is
    untyped, not required and not computed, so that every cell of it is
    valid. *)
Theorem makeDefaultColumns_spec (count : nat) :
  length (makeDefaultColumns count) = count /\
  NoDup (map id (makeDefaultColumns count)) /\
  forall k col, makeDefaultColumns count !! k = Some col ->
    id col = "col_" +:+ intToString (Z.of_nat k) /\
    type col = ColumnType.untyped /\ required col = false /\
    computed col = None /\
    forall host raw, validateCell host col raw = None.
Proof.
  split; [apply makeDefaultColumns_length|]. split.
  - apply NoDup_alt. intros i j x.
    rewrite !list_lookup_fmap. unfold makeDefaultColumns.
    rewrite !makeDefaultColumnsFrom_lookup.
    destruct (decide (i < count)%nat); [|done].
    destruct (decide (j < count)%nat); [|done]. simpl.
    intros [= <-] [= E]. apply app_inj_r, intToString_inj in E; lia.
  - intros k col. unfold makeDefaultColumns. rewrite makeDefaultColumnsFrom_lookup.
    destruct (decide (k < count)%nat); [|done]. intros [= <-]. simpl.
    repeat split; reflexivity.
Qed.

Lemma makeDefaultColumns_spec_witness :
  id <$> makeDefaultColumns 3 !! 2%nat = Some "col_2" /\
  forall raw, (fun c => validateCell utcHost c raw) <$> makeDefaultColumns 3 !! 2%nat
              = Some None.
Proof.
  destruct (makeDefaultColumns_spec 3) as (_ & _ & H).
  destruct (makeDefaultColumns 3 !! 2%nat) as [col|] eqn:E; [|vm_compute in E; discriminate E].
  destruct (H 2%nat col E) as (Hid & _ & _ & _ & Hvalid).
  split.
  - simpl. f_equal. exact Hid.
  - intros raw. simpl. f_equal. apply Hvalid.
Defined.

Lemma ascii_of_N_inj (a b : N) :
  (a < 256)%N -> (b < 256)%N -> ascii_of_N a = ascii_of_N b -> a = b.
Proof.
  intros Ha Hb E.
  rewrite <- (N_ascii_embedding a Ha), <- (N_ascii_embedding b Hb). by rewrite E.
Qed.

Lemma isUpperCase_letter (k : nat) :
  (k < 26)%nat -> isUpperCase (ascii_of_N (65 + N.of_nat k)) = true.
Proof.
  intros Hk. unfold isUpperCase. rewrite N_ascii_embedding by lia.
  apply andb_true_iff. split; apply N.leb_le; lia.
Qed.

(** X24.  The letters of the columns: one capital letter below 26, two
    capital letters from 26 to 701, and no two of the first 702 columns
    share their letters. *)
Theorem colLetter_spec :
  (forall i, (i < 702)%nat ->
     allChars isUpperCase (colLetter i) = true /\
     String.length (colLetter i) = if (i <? 26)%nat then 1%nat else 2%nat) /\
  (forall i j, (i < 702)%nat -> (j < 702)%nat -> colLetter i = colLetter j -> i = j).
Proof.
  assert (Hdiv : forall i, (26 <= i < 702)%nat ->
            (i / 26 - 1 < 26)%nat /\ (i mod 26 < 26)%nat /\
            i = (26 * (i / 26 - 1 + 1) + i mod 26)%nat).
  { intros i Hi. pose proof (Nat.div_mod i 26 ltac:(lia)).
    pose proof (Nat.mod_upper_bound i 26 ltac:(lia)).
    assert (1 <= i / 26)%nat by (apply Nat.div_le_lower_bound; lia).
    assert (i / 26 < 27)%nat by (apply Nat.Div0.div_lt_upper_bound; lia). lia. }
  split.
  - intros i Hi. unfold colLetter. destruct (Nat.ltb_spec i 26) as [Hlt|Hge].
    + unfold fromCharCode. simpl. by rewrite isUpperCase_letter.
    + destruct (Hdiv i ltac:(lia)) as (H1 & H2 & _).
      cbv zeta.
      set (a := (i / 26 - 1)%nat) in *. set (b := (i mod 26)%nat) in *.
      clearbody a b.
      unfold fromCharCode. rewrite app_cons, app_nil. simpl.
      by rewrite !isUpperCase_letter.
  - intros i j Hi Hj. unfold colLetter, fromCharCode.
    destruct (Nat.ltb_spec i 26) as [Hi'|Hi'], (Nat.ltb_spec j 26) as [Hj'|Hj'];
      rewrite ?app_cons, ?app_nil.
    + intros [= E]. apply ascii_of_N_inj in E; lia.
    + done.
    + done.
    + destruct (Hdiv i ltac:(lia)) as (H1 & H2 & H3).
      destruct (Hdiv j ltac:(lia)) as (H4 & H5 & H6).
      cbv zeta.
      set (a := (i / 26 - 1)%nat) in *. set (b := (i mod 26)%nat) in *.
      set (a' := (j / 26 - 1)%nat) in *. set (b' := (j mod 26)%nat) in *.
      clearbody a b a' b'.
      intros [= E1 E2].
      apply ascii_of_N_inj in E1; [|lia|lia]. apply ascii_of_N_inj in E2; [|lia|lia].
      lia.
Qed.

Lemma colLetter_spec_witness :
  colLetter 27 = "AB" /\ colLetter 27 <> colLetter 1.
Proof.
  destruct colLetter_spec as [_ Hinj].
  split; [reflexivity|]. intros E. apply Hinj in E; lia.
Defined.

(** ** The suggested columns *)

(** X23.  Whatever the purpose, twelve columns are suggested, with
    pairwise distinct ids; none is computed, and a suggested column has
    options exactly when it is an enum. *)
Theorem mockSuggestColumns_spec (purpose : string) :
  let cols := mockSuggestColumnsFromPurpose purpose in
  length cols = 12%nat /\
  NoDup (map id cols) /\
  Forall (fun c => computed c = None /\
                   (enumValues c <> [] <-> type c = ColumnType.enum)) cols.
Proof.
  cbv zeta. unfold mockSuggestColumnsFromPurpose.
  destruct (stringIncludes _ _ || stringIncludes _ _ || stringIncludes _ _).
  - split; [reflexivity|]. split.
    + apply (bool_decide_unpack _). by vm_compute.
    + vm_compute padColumns.
      repeat (apply List.Forall_cons;
                [split; [reflexivity|simpl; split; intros; congruence]|]).
      apply List.Forall_nil.
  - split; [reflexivity|]. split.
    + apply (bool_decide_unpack _). by vm_compute.
    + vm_compute makeDefaultColumns.
      repeat (apply List.Forall_cons;
                [split; [reflexivity|simpl; split; intros; congruence]|]).
      apply List.Forall_nil.
Qed.

(** ** Navigation *)

(** X25.  In a grid that has a cell, a key pressed in a cell of the grid
    selects that cell or a neighbour of it in the grid, or asks to fill
    down from that cell, or does nothing. *)
Theorem handleNavKey_inside (rowCount colCount : nat) (e : KeyEvent) (r c : Z) :
  0 <= r < Z.of_nat rowCount -> 0 <= c < Z.of_nat colCount ->
  match handleNavKey rowCount colCount e r c with
  | Select (rr, cc) =>
      0 <= rr < Z.of_nat rowCount /\ 0 <= cc < Z.of_nat colCount /\
      ((rr = r /\ adjacent cc c) \/ (cc = c /\ adjacent rr r))
  | FillDown r' c' => r' = r /\ c' = c
  | NoAction => True
  end.
Proof.
  intros Hr Hc. unfold handleNavKey, moveTo, adjacent.
  repeat match goal with
         | |- context [if ?b then _ else _] => destruct b
         end; try done; lia.
Qed.

Lemma handleNavKey_inside_witness :
  match handleNavKey 50 12 {| ctrlKey := false; shiftKey := false; key := "Tab" |} 3 11 with
  | Select (rr, cc) =>
      0 <= rr < Z.of_nat 50 /\ 0 <= cc < Z.of_nat 12 /\
      ((rr = 3 /\ adjacent cc 11) \/ (cc = 11 /\ adjacent rr 3))
  | FillDown r' c' => r' = 3 /\ c' = 11
  | NoAction => True
  end.
Proof.
  apply (handleNavKey_inside 50 12
           {| ctrlKey := false; shiftKey := false; key := "Tab" |} 3 11); lia.
Defined.

(** ** The column panel and [onUpdateColumn] *)

(** X11.  Changing the type of a column through the panel keeps its id,
    name and description and sets the type; afterwards the column has a
    computed spec exactly when it is computed, has no options unless it is
    an enum (which keeps the ones it had), is not required when computed,
    and has decimals when numeric and a date format when a date. *)
Theorem typeChange_invariants (column : ColumnDef) (nextType : ColumnType) :
  let col := updatedColumn column (onTypeChange column nextType) in
  type col = nextType /\ id col = id column /\ name col = name column /\
  description col = description column /\
  (computed col <> None <-> nextType = ColumnType.computed) /\
  (nextType <> ColumnType.enum -> enumValues col = []) /\
  (nextType = ColumnType.enum -> enumValues col = enumValues column) /\
  (nextType = ColumnType.computed -> required col = false) /\
  (nextType <> ColumnType.computed -> required col = required column) /\
  (isNumeric nextType = true -> exists d, format col ≫= decimals = Some d) /\
  (nextType = ColumnType.date -> exists f, format col ≫= dateFormat = Some f).
Proof.
  cbv zeta. unfold updatedColumn, onTypeChange.
  destruct nextType; simpl;
    (split; [reflexivity|]); (split; [reflexivity|]); (split; [reflexivity|]);
    (split; [reflexivity|]);
    (split; [split; intros; try congruence; by destruct (computed column)|]);
    (split; [intros; congruence|]); (split; [intros; congruence|]);
    (split; [intros; congruence|]); (split; [intros; congruence|]);
    (split; [intros; try discriminate; eauto|intros; try discriminate; eauto]).
Qed.

Lemma typeChange_invariants_witness :
  let col := updatedColumn (column ColumnType.enum true None)
               (onTypeChange (column ColumnType.enum true None) ColumnType.computed) in
  required col = false /\ exists spec, computed col = Some spec.
Proof.
  destruct (typeChange_invariants (column ColumnType.enum true None) ColumnType.computed)
    as (_ & _ & _ & _ & Hc & _ & _ & Hr & _).
  cbv zeta. split; [by apply Hr|].
  destruct (computed _) as [spec|]; [by exists spec|].
  exfalso. by apply Hc.
Defined.

(** X12.  A column that had no computed spec and is switched to computed
    shows, for every row, no value and the error "Select input columns". *)
Theorem fresh_computed_column (host : Host) (column : ColumnDef)
    (rowValues : gmap string string) :
  computed column = None ->
  computeValue host
    (updatedColumn column (onTypeChange column ColumnType.computed)) rowValues
    = {| value := ""; error := Some "Select input columns" |}.
Proof.
  intros Hc. unfold computeValue, updatedColumn, onTypeChange. simpl. by rewrite Hc.
Qed.

Lemma fresh_computed_column_witness :
  computeValue utcHost
    (updatedColumn (column ColumnType.number false None)
       (onTypeChange (column ColumnType.number false None) ColumnType.computed))
    (rowAB "1" "2")
    = {| value := ""; error := Some "Select input columns" |}.
Proof. by apply fresh_computed_column. Defined.

(** ** The decimals input *)

Lemma toFixed_normal n f : 0 <= f <= 100 -> exists t, toFixed n f = Normal t.
Proof.
  intros Hf. unfold toFixed.
  destruct (Z.ltb_spec f 0); [lia|]. destruct (Z.ltb_spec 100 f); [lia|].
  simpl orb. cbv iota.
  destruct n as [s| | |s m e]; try (by eexists).
  unfold fraction. destruct (10 ^ 21 * 2 ^ 1074 <=? units m e); [by eexists|].
  destruct (f =? 0); by eexists.
Qed.

Lemma mathMin_finite s m e n :
  mathMin (S754_finite s m e) n =
    match n with
    | S754_nan => NaN
    | _ => if ltb n (S754_finite s m e) then n else S754_finite s m e
    end.
Proof. by destruct n. Qed.

Lemma mathMax_zero n :
  mathMax (S754_zero false) n =
    match n with
    | S754_nan => NaN
    | S754_zero _ => S754_zero false
    | _ => if ltb (S754_zero false) n then n else S754_zero false
    end.
Proof. by destruct n. Qed.

Lemma units_nonneg m e : 0 <= units m e.
Proof. unfold units. apply Z.mul_nonneg_nonneg; [lia|]. apply Z.pow_nonneg. lia. Qed.

(** what [toFixed] makes of a clamped Number is an integer from 0 to 8 *)
Lemma clampInt_places n :
  exists f, ToIntegerOrInfinity (clampInt n (ofZ 0) (ofZ 8)) = Some f /\ 0 <= f <= 8.
Proof.
  unfold clampInt. rewrite ofZ_zero.
  destruct (ofZ_exact 8 ltac:(lia) ltac:(reflexivity)) as (m8 & e8 & E8 & Hu8 & He8).
  change (8 <? 0) with false in E8. change (Z.abs 8) with 8 in Hu8.
  rewrite E8, mathMin_finite.
  set (U := 2 ^ 1074) in *. assert (HU : 0 < U) by reflexivity.
  assert (H8 : exists f, ToIntegerOrInfinity
                 (mathMax (S754_zero false) (S754_finite false m8 e8)) = Some f /\
               0 <= f <= 8).
  { rewrite mathMax_zero. unfold ltb, signedUnits. rewrite Hu8.
    destruct (Z.ltb_spec 0 (8 * U)); [|lia].
    exists 8. split; [|lia]. unfold ToIntegerOrInfinity, fraction. rewrite Hu8.
    fold U. f_equal; try (apply Z.div_mul; lia). }
  assert (H0 : exists f, ToIntegerOrInfinity (S754_zero false) = Some f /\ 0 <= f <= 8).
  { exists 0. split; [reflexivity|lia]. }
  destruct n as [s| | |s m e].
  - (* a zero *)
    unfold ltb, signedUnits. rewrite Hu8.
    destruct (Z.ltb_spec 0 (8 * U)); [|lia]. rewrite mathMax_zero. exact H0.
  - (* an infinity *)
    unfold ltb. destruct s; [|exact H8]. rewrite mathMax_zero. exact H0.
  - exists 0. split; [reflexivity|lia].
  - pose proof (units_nonneg m e) as HX.
    unfold ltb at 1. unfold signedUnits. rewrite Hu8.
    destruct s.
    + destruct (Z.ltb_spec (- units m e) (8 * U)); [|lia].
      rewrite mathMax_zero. unfold ltb, signedUnits.
      destruct (Z.ltb_spec 0 (- units m e)); [lia|]. exact H0.
    + destruct (Z.ltb_spec (units m e) (8 * U)) as [Hlt|Hge]; [|exact H8].
      rewrite mathMax_zero. unfold ltb, signedUnits.
      destruct (Z.ltb_spec 0 (units m e)); [|exact H0].
      exists (units m e / U). split; [reflexivity|]. split.
      * apply Z.div_pos; lia.
      * assert (units m e / U < 8); [|lia]. apply Z.div_lt_upper_bound; lia.
Qed.

Lemma applyFormattingOnBlur_normal host col raw f :
  decimalPlaces col = Some f -> 0 <= f <= 100 ->
  exists out, applyFormattingOnBlur host col raw = Normal out.
Proof.
  intros Hdec Hf. unfold applyFormattingOnBlur, formatNumber.
  unfold decimalPlaces in Hdec. rewrite Hdec.
  destruct (isEmpty (trim raw)); [by eexists|].
  destruct (type col); try (by eexists).
  - destruct (toDateLike host (trim raw)); by eexists.
  - destruct (toNumberLike (trim raw)) as [n|]; [|by eexists]. by apply toFixed_normal.
  - destruct (toNumberLike (trim raw)) as [n|]; [|by eexists]. by apply toFixed_normal.
  - destruct (toNumberLike (trim raw)) as [n|]; [|by eexists].
    destruct (toFixed_normal n f Hf) as [t ->]. by eexists.
Qed.

(** X10.  Whatever text the decimals input holds, the column it leaves
    has between 0 and 8 decimals, and formatting a cell of that column
    does not throw. *)
Theorem decimals_input_safe (column : ColumnDef) (text : string) :
  let col := updatedColumn column (onDecimalsChange column text) in
  exists f, decimalPlaces col = Some f /\ 0 <= f <= 8 /\
    forall host raw, exists out, applyFormattingOnBlur host col raw = Normal out.
Proof.
  cbv zeta.
  destruct (clampInt_places (Number text)) as (f & Hf & Hrange).
  exists f.
  assert (Hdec : decimalPlaces (updatedColumn column (onDecimalsChange column text))
                 = Some f) by exact Hf.
  split; [exact Hdec|]. split; [exact Hrange|].
  intros host raw. apply (applyFormattingOnBlur_normal host _ raw f Hdec). lia.
Qed.

End ColumnProperties.

(** ** Properties of the rows of the schema builder *)

Module BuilderGridProperties.
Import JS DataGrid Samples StringFacts.
Import FixedNotation.

(** ** The rows of the schema builder's grid *)

Lemma hasColumn_true columns k :
  hasColumn columns k = true <-> exists c, c ∈ columns /\ id c = k.
Proof.
  unfold hasColumn. rewrite existsb_exists. split.
  - intros (c & Hin & E). exists c. split; [by apply list_elem_of_In|].
    by apply String.eqb_eq.
  - intros (c & Hin & E). exists c. split; [by apply list_elem_of_In|].
    by apply String.eqb_eq.
Qed.






(** ** The errors of the grid *)



Section Errors.
Context (host : Host) (columns : list ColumnSpec).
Hypothesis Hids : NoDup (map id columns).


End Errors.


End BuilderGridProperties.

(** ** Properties of the columns of the schema builder *)

Module BuilderProperties.
Import JS DataGrid SchemaBuilder Samples StringFacts.
Import FixedNotation BuilderGridProperties.

(** ** Slugs *)

Lemma replaceRuns_chars s : forall inRun,
  allChars slugOrUnderscore (replaceRuns inRun s) = true.
Proof.
  induction s as [|c s IH]; intros inRun; simpl; [done|].
  destruct (isSlugChar c) eqn:Hc.
  - simpl. unfold slugOrUnderscore at 1. by rewrite Hc, IH.
  - destruct inRun; [apply IH|]. simpl. by rewrite IH.
Qed.

Lemma dropLeading_chars P s :
  allChars P s = true -> allChars P (dropLeadingUnderscores s) = true.
Proof.
  induction s as [|c s IH]; simpl; [done|].
  intros [Hc Hs]%andb_true_iff. destruct (c =? "_")%char; [by apply IH|].
  simpl. by rewrite Hc, Hs.
Qed.

Lemma dropLeading_head s :
  headIs (fun c => negb (c =? "_")%char) (dropLeadingUnderscores s) = true.
Proof.
  induction s as [|c s IH]; simpl; [done|].
  destruct (c =? "_")%char eqn:E; [exact IH|]. simpl. by rewrite E.
Qed.

Lemma dropTrailing_chars P s :
  allChars P s = true -> allChars P (dropTrailingUnderscores s) = true.
Proof.
  induction s as [|c s IH]; simpl; [done|].
  intros [Hc Hs]%andb_true_iff. specialize (IH Hs).
  destruct (dropTrailingUnderscores s) as [|d t].
  - destruct (c =? "_")%char; [done|]. simpl. by rewrite Hc.
  - simpl in *. by rewrite Hc, IH.
Qed.

Lemma dropTrailing_head P s :
  headIs P s = true -> headIs P (dropTrailingUnderscores s) = true.
Proof.
  destruct s as [|c s]; simpl; [done|]. intros Hc.
  destruct (dropTrailingUnderscores s); [|done].
  destruct (c =? "_")%char; done.
Qed.

Lemma takeStr_chars P n : forall s,
  allChars P s = true -> allChars P (takeStr n s) = true.
Proof.
  induction n as [|n IH]; intros [|c s]; simpl; try done.
  intros [Hc Hs]%andb_true_iff. by rewrite Hc, IH.
Qed.

Lemma takeStr_head P n s : headIs P s = true -> headIs P (takeStr n s) = true.
Proof. destruct n, s; simpl; done. Qed.

Lemma takeStr_length n : forall s, (String.length (takeStr n s) <= n)%nat.
Proof.
  induction n as [|n IH]; intros [|c s]; simpl; try lia.
  specialize (IH s). lia.
Qed.

(** X28.  A slug has at most 40 characters, all of them small letters,
    digits or underscores, and does not start with an underscore. *)
Theorem slugify_spec (s : string) :
  (String.length (slugify s) <= 40)%nat /\
  allChars slugOrUnderscore (slugify s) = true /\
  headIs (fun c => negb (c =? "_")%char) (slugify s) = true.
Proof.
  unfold slugify. split; [apply takeStr_length|]. split.
  - apply takeStr_chars, dropTrailing_chars, dropLeading_chars, replaceRuns_chars.
  - apply takeStr_head, dropTrailing_head, dropLeading_head.
Qed.

(** ** Renaming and adding columns *)

Lemma hasColumn_false columns k :
  hasColumn columns k = false <-> forall c, c ∈ columns -> id c <> k.
Proof.
  rewrite <- not_true_iff_false, hasColumn_true. split.
  - intros H c Hin E. apply H. by exists c.
  - intros H (c & Hin & E). by apply (H c).
Qed.



(** X30.  [addColumn] appends one text column that is not required; its id
    is [new_column_N] for one more than the number of ids that start with
    [new_column].  Distinct ids stay distinct exactly when that id is not
    taken, which it is after the removal of an earlier generic column. *)
Theorem addColumn_ids (columns : list ColumnSpec) (rows : list Row) :
  let count := length (filter (fun c => Is_true (startsWith (id c) "new_column")) columns) in
  let newId := "new_column_" +:+ intToString (Z.of_nat (count + 1)) in
  exists newCol,
    fst (addColumn (Some columns) rows) = (columns ++ [newCol])%list /\
    newCol = builderColumnWithId newId /\
    (NoDup (map id columns) ->
     (NoDup (map id (fst (addColumn (Some columns) rows))) <->
      hasColumn columns newId = false)).
Proof.
  cbv zeta. eexists. split; [reflexivity|]. split; [reflexivity|].
  intros Hnd. simpl fst. rewrite map_app. simpl map.
  set (newId := "new_column" +:+ "_" +:+ _).
  change ("new_column_" +:+ _) with newId.
  rewrite hasColumn_false. split.
  - intros H c Hin E. apply NoDup_app in H as (_ & H & _).
    apply (H (id c)); [by apply (list_elem_of_fmap_2 id)|].
    rewrite E. apply list_elem_of_here.
  - intros H. apply NoDup_app. split; [done|]. split; [|apply NoDup_singleton].
    intros k Hk Hk'. apply list_elem_of_singleton in Hk' as ->.
    apply list_elem_of_fmap in Hk as (c & E & Hin). by apply (H c).
Qed.

Lemma addColumn_ids_witness :
  NoDup (map id [builderColumnWithId "new_column_2"]) /\
  ~ NoDup (map id (fst (addColumn (Some [builderColumnWithId "new_column_2"]) []))).
Proof.
  split; [simpl; apply NoDup_singleton|].
  destruct (addColumn_ids [builderColumnWithId "new_column_2"] [])
    as (newCol & _ & _ & H).
  intros Hnd. apply H in Hnd; [|simpl; apply NoDup_singleton].
  vm_compute in Hnd. discriminate Hnd.
Defined.

End BuilderProperties.

(** ** Properties of the evaluator and of the two validators *)

Module EvaluatorProperties.
Import JS ColumnPanel SpreadsheetGrid Samples StringFacts NumberFacts ValidatorFacts.
Import FixedNotation ParserFacts FormatterProperties ColumnProperties.

(** ** Inputs the row does not hold *)



(** ** The values of a row *)




(** ** What the validators see *)

(** X6.  Both validators judge a cell by its trimmed text: white space
    around the text never changes the verdict. *)
Theorem validators_trim (host : Host) (col : ColumnDef) (spec : DataGrid.ColumnSpec)
    (raw : string) :
  validateCell host col (trim raw) = validateCell host col raw /\
  DataGrid.validateCell host spec (trim raw) = DataGrid.validateCell host spec raw.
Proof.
  unfold validateCell, DataGrid.validateCell. by rewrite !trim_idem.
Qed.

Lemma removeAll_all cls s : allChars cls s = true -> removeAll cls s = "".
Proof.
  induction s as [|c s IH]; simpl; [done|].
  intros [Hc Hs]%andb_true_iff. rewrite Hc. by apply IH.
Qed.

(** X5.  A cell that is not blank and holds nothing but currency signs,
    commas, percent signs and white space reads as the Number zero: a
    numeric column of any kind accepts it, and shows it as a zero with the
    column's decimals. *)
Theorem noise_only_is_zero (host : Host) (col : ColumnDef) (s : string) (f : Z) :
  trim s <> "" -> allChars numberNoise s = true ->
  isNumeric (type col) = true -> decimalPlaces col = Some f -> 0 <= f <= 100 ->
  toNumberLike s = Some (S754_zero false) /\
  validateCell host col s = None /\
  applyFormattingOnBlur host col s = Normal (fixedText 0 f +:+ unitSuffix (type col)).
Proof.
  intros Hnb Hall Hty Hdec Hf.
  assert (Hn : toNumberLike s = Some (S754_zero false)).
  { rewrite toNumberLike_unfold.
    destruct (isEmpty (trim s)) eqn:E; [by apply isEmpty_true in E|].
    by rewrite (removeAll_all _ _ Hall). }
  assert (Hnb' : isEmpty (trim s) = false) by (by apply isEmpty_false).
  split; [done|]. split.
  - apply (validateCell_numeric host col s Hty Hnb').
    exists (S754_zero false). split; [done|].
    destruct (type col); try exact I; try discriminate Hty.
    apply percentRange; [reflexivity|].
    change (signedUnits (S754_zero false)) with 0.
    assert (HU : 0 < 2 ^ 1074) by reflexivity. clear - HU.
    generalize dependent (2 ^ 1074). intros U HU. lia.
  - rewrite applyFormattingOnBlur_numeric by done.
    by rewrite Hnb', Hn, Hdec, toFixed_zero.
Qed.

Lemma noise_only_is_zero_witness :
  toNumberLike "$" = Some (S754_zero false) /\
  validateCell utcHost (column ColumnType.currency true None) "$" = None /\
  applyFormattingOnBlur utcHost (column ColumnType.currency true None) "$"
    = Normal (fixedText 0 2 +:+ "").
Proof.
  apply (noise_only_is_zero utcHost (column ColumnType.currency true None) "$" 2).
  - discriminate.
  - reflexivity.
  - reflexivity.
  - vm_compute. reflexivity.
  - lia.
Defined.

(** ** When formatting throws *)

Lemma toFixed_throw n f e :
  toFixed n f = Throw e <-> e = RangeError /\ (f < 0 \/ 100 < f).
Proof.
  split.
  - intros H. destruct (Z_lt_le_dec f 0) as [Hlt|Hge].
    + unfold toFixed in H. destruct (Z.ltb_spec f 0); [|lia]. simpl in H.
      injection H as <-. split; [done|lia].
    + destruct (Z_lt_le_dec 100 f) as [Hlt|Hle].
      * unfold toFixed in H. destruct (Z.ltb_spec 100 f); [|lia].
        rewrite orb_true_r in H. injection H as <-. split; [done|lia].
      * destruct (toFixed_normal n f ltac:(lia)) as [t Ht]. congruence.
  - intros [-> Hf]. unfold toFixed.
    destruct (Z.ltb_spec f 0); [done|]. destruct (Z.ltb_spec 100 f); [done|lia].
Qed.

(** X4.  Formatting a cell throws in one case only, with a [RangeError]:
    the column is a number, a currency or a percent, the cell reads as a
    Number, and the column's decimals are infinite or, made an integer,
    outside 0 to 100. *)
Theorem formatting_throws (host : Host) (col : ColumnDef) (raw : string) (e : exn) :
  applyFormattingOnBlur host col raw = Throw e <->
  e = RangeError /\ isNumeric (type col) = true /\
  (exists n, toNumberLike raw = Some n) /\
  match decimalPlaces col with
  | Some f => f < 0 \/ 100 < f
  | None => True
  end.
Proof.
  destruct (isNumeric (type col)) eqn:Hty.
  - rewrite applyFormattingOnBlur_numeric by done.
    destruct (isEmpty (trim raw)) eqn:Hnb.
    { split; [done|]. intros (_ & _ & (n & Hn) & _).
      apply toNumberLike_nonblank in Hn. congruence. }
    destruct (toNumberLike raw) as [n|]; [|split; [done|by intros (_ & _ & (? & ?) & _)]].
    destruct (decimalPlaces col) as [f|].
    + destruct (toFixed n f) as [t|e'] eqn:Et; simpl.
      * split; [done|]. intros (-> & _ & _ & Hf).
        assert (toFixed n f = Throw RangeError) by (by apply toFixed_throw). congruence.
      * apply toFixed_throw in Et as [-> Hf]. split.
        -- intros [= <-]. split; [done|]. split; [done|]. split; [by exists n|done].
        -- by intros (-> & _).
    + split.
      * intros [= <-]. split; [done|]. split; [done|]. split; [by exists n|done].
      * by intros (-> & _).
  - split; [|by intros (_ & ? & _)].
    unfold applyFormattingOnBlur. destruct (isEmpty (trim raw)); [done|].
    destruct (type col); try done. by destruct (toDateLike host (trim raw)).
Qed.

(** ** The text of a Number and of its opposite *)

Lemma shortestDigits_nonneg x p q : 0 <= p -> 0 < q -> forall fuel n k,
  0 <= (shortestDigits fuel x p q n k).1.
Proof.
  intros Hp Hq.
  assert (Hlo : forall n k,
            0 <= (if 0 <=? n - k then p else p * 10 ^ (k - n)) /
                 (if 0 <=? n - k then q * 10 ^ (n - k) else q)).
  { intros n k. destruct (Z.leb_spec 0 (n - k)).
    - apply Z.div_pos; [done|]. apply Z.mul_pos_pos; [done|].
      apply Z.pow_pos_nonneg; lia.
    - apply Z.div_pos; [|done]. apply Z.mul_nonneg_nonneg; [done|].
      apply Z.pow_nonneg. lia. }
  assert (Hpick : forall n k s, 0 <= s ->
            0 <= (if s =? 10 ^ k then (1, n + 1) else (s, n)).1).
  { intros n k s Hs. destruct (s =? 10 ^ k); simpl; lia. }
  induction fuel as [|fuel IH]; intros n k; simpl shortestDigits; cbv zeta.
  - apply Hpick, Hlo.
  - specialize (Hlo n k).
    repeat match goal with
           | |- context [if ?b then _ else _] =>
               lazymatch b with
               | (_ =? 10 ^ _) => fail
               | _ => destruct b
               end
           | |- context [match ?c with Eq => _ | Lt => _ | Gt => _ end] => destruct c
           end; try apply Hpick; try apply IH; lia.
Qed.

Lemma layoutDigits_head ds n :
  allChars isDigit ds = true -> ds <> "" ->
  match layoutDigits ds n with
  | String c _ => isDigit c = true
  | EmptyString => False
  end.
Proof.
  intros Hds Hne. destruct ds as [|c ds]; [done|].
  simpl in Hds. apply andb_true_iff in Hds as [Hc _].
  unfold layoutDigits.
  destruct ((_ <=? n) && (n <=? 21)); [by rewrite app_cons|].
  destruct ((0 <? n) && (n <=? 21)) eqn:E2.
  { apply andb_true_iff in E2 as [Hn%Z.ltb_lt _].
    destruct (Z.to_nat n) as [|k] eqn:E; [lia|]. simpl takeStr. by rewrite app_cons. }
  destruct ((-6 <? n) && (n <=? 0)); [reflexivity|].
  destruct (_ =? 1); [by rewrite app_cons|]. simpl takeStr. by rewrite app_cons.
Qed.

Lemma oppositeText_digit t :
  headIs isDigit t = true -> t <> "" -> oppositeText t = "-" +:+ t.
Proof.
  destruct t as [|c t]; [done|]. simpl. intros Hc _. revert Hc.
  each_char c; by vm_compute.
Qed.

(** the text of a finite Number that is not zero: its sign, and digits
    that do not depend on the sign *)
Lemma toString_finite m e :
  exists L, headIs isDigit L = true /\ L <> "" /\
    forall s, toString (S754_finite s m e) = signText s +:+ L.
Proof.
  unfold toString, fraction.
  destruct (shortestDigits 20 (S754_finite false m e) (units m e) (2 ^ 1074)
              (decimalExponent (units m e) (2 ^ 1074)) 1) as [d n] eqn:E.
  assert (Hd : 0 <= d).
  { pose proof (shortestDigits_nonneg (S754_finite false m e) (units m e) (2 ^ 1074)
                  (units_nonneg m e) ltac:(reflexivity) 20
                  (decimalExponent (units m e) (2 ^ 1074)) 1) as H.
    by rewrite E in H. }
  destruct (digitsOf_spec d Hd) as (Hall & Hne & _).
  exists (layoutDigits (digitsOf d) n).
  pose proof (layoutDigits_head (digitsOf d) n Hall Hne) as H.
  destruct (layoutDigits (digitsOf d) n) as [|c L]; [done|].
  split; [exact H|]. split; [done|]. by intros [].
Qed.

Lemma toString_neg x :
  match x with S754_finite _ _ _ | S754_infinity _ => True | _ => False end ->
  toString (neg x) = oppositeText (toString x).
Proof.
  destruct x as [| s | |s m e]; try done; intros _.
  - by destruct s.
  - destruct (toString_finite m e) as (L & Hhead & Hne & HL).
    simpl neg. rewrite !HL. destruct s; simpl signText; rewrite !app_nil.
    + rewrite app_cons, app_nil. done.
    + by rewrite oppositeText_digit.
Qed.

Lemma numberValue_neg s p q : numberValue (negb s) p q = neg (numberValue s p q).
Proof.
  unfold numberValue.
  repeat match goal with |- context [if ?b then _ else _] => destruct b end; reflexivity.
Qed.

(** the Number value for a positive quotient that is at least one unit
    is not a zero *)
Lemma numberValue_not_zero s p q :
  0 < p -> 0 < q -> q <= scaled p ->
  match numberValue s p q with S754_finite _ _ _ | S754_infinity _ => True | _ => False end.
Proof.
  intros Hp Hq Hle.
  assert (H1 : 1 <= rounded p q).
  { apply rounded_lower; [done|done| |lia]. exists 1, 0. split; [done|]. split; lia. }
  destruct (numberValue_rounded p q Hp Hq s) as (_ & Hfin & Hinf).
  destruct (Z_lt_le_dec (rounded p q) (2 ^ 2098)) as [Hlt|Hge].
  - destruct Hfin as (m & e & -> & _); [|done].
    split; [clear - H1; lia|exact Hlt].
  - by rewrite (Hinf Hge).
Qed.

Lemma signedUnits_neg x : signedUnits (neg x) = - signedUnits x.
Proof. destruct x as [| | |[] m e]; simpl; lia. Qed.

(** the difference of two finite Numbers, and the difference the other
    way round *)
Lemma sub_swap a b :
  isFinite a = true -> isFinite b = true ->
  if signedUnits a =? signedUnits b
  then toString (sub a b) = "0" /\ toString (sub b a) = "0"
  else toString (sub b a) = oppositeText (toString (sub a b)).
Proof.
  intros Ha Hb.
  assert (Hadd : forall x y, isFinite x = true -> isFinite y = true ->
            (isZero x && isZero y = false) ->
            add x (neg y) =
              let z := signedUnits x - signedUnits y in
              if z =? 0 then S754_zero false
              else numberValue (z <? 0) (Z.abs z) (2 ^ 1074)).
  { intros x y Hx Hy Hz. cbv zeta.
    replace (signedUnits x - signedUnits y)
      with (signedUnits x + signedUnits (neg y)) by (rewrite signedUnits_neg; lia).
    destruct x as [sx| | |sx mx ex], y as [sy| | |sy my ey]; try done. }
  unfold sub.
  destruct (isZero a && isZero b) eqn:Hz.
  { destruct a as [sa| | |], b as [sb| | |]; try done; simpl; split; reflexivity. }
  rewrite (Hadd a b Ha Hb Hz), (Hadd b a Hb Ha) by (by rewrite andb_comm).
  cbv zeta.
  destruct (Z.eqb_spec (signedUnits a) (signedUnits b)) as [E|Hne].
  { rewrite E, Z.sub_diag. simpl. split; reflexivity. }
  destruct (Z.eqb_spec (signedUnits a - signedUnits b) 0); [lia|].
  destruct (Z.eqb_spec (signedUnits b - signedUnits a) 0); [lia|].
  replace (Z.abs (signedUnits b - signedUnits a))
    with (Z.abs (signedUnits a - signedUnits b)) by lia.
  replace (signedUnits b - signedUnits a <? 0)
    with (negb (signedUnits a - signedUnits b <? 0)).
  2:{ destruct (Z.ltb_spec (signedUnits a - signedUnits b) 0),
        (Z.ltb_spec (signedUnits b - signedUnits a) 0); simpl; try done; lia. }
  rewrite numberValue_neg. apply toString_neg.
  apply numberValue_not_zero; [lia|reflexivity|].
  unfold scaled.
  assert (H1 : 1 <= Z.abs (signedUnits a - signedUnits b)) by lia.
  apply (Z.mul_le_mono_nonneg_r 1 _ (2 ^ 1074)) in H1;
    [|apply Z.pow_nonneg; discriminate].
  by rewrite Z.mul_1_l in H1.
Qed.

Lemma computeValue_subtract host x y (row : gmap string string) a b :
  x <> "" -> y <> "" ->
  toNumberLike (default "" (row !! x)) = Some a ->
  toNumberLike (default "" (row !! y)) = Some b ->
  computeValue host (computedColumn subtract x y) row
    = {| value := toString (sub a b); error := None |}.
Proof.
  intros Hx Hy Ha Hb. unfold computeValue. simpl.
  destruct x; [done|]. destruct y; [done|]. simpl. by rewrite Ha, Hb.
Qed.

(** X14.  Subtracting the other way round gives the opposite: when the
    two inputs read as different Numbers the value of the swapped column
    is the text of the first with its sign changed, and when they read as
    equal Numbers both values are "0". *)
Theorem subtract_swap (host : Host) (x y : string) (row : gmap string string)
    (a b : number) :
  x <> "" -> y <> "" ->
  toNumberLike (default "" (row !! x)) = Some a ->
  toNumberLike (default "" (row !! y)) = Some b ->
  let forth := value (computeValue host (computedColumn subtract x y) row) in
  let back := value (computeValue host (computedColumn subtract y x) row) in
  if strictEq a b then forth = "0" /\ back = "0" else back = oppositeText forth.
Proof.
  intros Hx Hy Ha Hb. cbv zeta.
  rewrite (computeValue_subtract host x y row a b), (computeValue_subtract host y x row b a)
    by done.
  simpl value.
  destruct (toNumberLike_wellFormed _ _ Ha) as [_ Hfa].
  destruct (toNumberLike_wellFormed _ _ Hb) as [_ Hfb].
  pose proof (sub_swap a b Hfa Hfb) as H.
  assert (E : strictEq a b = (signedUnits a =? signedUnits b)).
  { by destruct a, b. }
  by rewrite E.
Qed.

Lemma subtract_swap_witness :
  value (computeValue utcHost (computedColumn subtract "b" "a") (rowAB "10" "4"))
    = oppositeText (value (computeValue utcHost (computedColumn subtract "a" "b")
                             (rowAB "10" "4"))).
Proof.
  assert (Ha : toNumberLike "10" = Some (S754_finite false 5629499534213120 (-49)))
    by (vm_compute; reflexivity).
  assert (Hb : toNumberLike "4" = Some (S754_finite false 4503599627370496 (-50)))
    by (vm_compute; reflexivity).
  exact (subtract_swap utcHost "a" "b" (rowAB "10" "4") _ _
           ltac:(discriminate) ltac:(discriminate) Ha Hb).
Defined.

(** ** A column against itself *)

Lemma strictEq_units y m e m' e' :
  units m e = units m' e' ->
  strictEq y (S754_finite false m e) = strictEq y (S754_finite false m' e').
Proof. intros E. destruct y; simpl; by rewrite ?E. Qed.

Lemma shortestDigits_units m e m' e' p q :
  units m e = units m' e' -> forall fuel n k,
  shortestDigits fuel (S754_finite false m e) p q n k
    = shortestDigits fuel (S754_finite false m' e') p q n k.
Proof.
  intros E. induction fuel as [|fuel IH]; intros n k; simpl shortestDigits; [done|].
  cbv zeta. rewrite !(strictEq_units _ m e m' e' E), IH. done.
Qed.

(** the text of a finite Number depends on its value alone *)
Lemma toString_units s m e m' e' :
  units m e = units m' e' ->
  toString (S754_finite s m e) = toString (S754_finite s m' e').
Proof.
  intros E. unfold toString, fraction. rewrite E.
  by rewrite (shortestDigits_units m e m' e' _ _ E).
Qed.

Lemma toString_one m e : units m e = 2 ^ 1074 -> toString (S754_finite false m e) = "1".
Proof.
  intros E.
  rewrite (toString_units false m e 1 0) by (rewrite E; reflexivity).
  vm_compute. reflexivity.
Qed.

(** X15.  A computed column whose two inputs are the same column shows
    "0" when it subtracts, and when it divides shows "1", or the error
    "Divide by zero" if the cell reads as a zero. *)
Theorem same_input_twice (host : Host) (x raw : string) (row : gmap string string)
    (a : number) :
  x <> "" -> row !! x = Some raw -> toNumberLike raw = Some a ->
  computeValue host (computedColumn subtract x x) row
    = {| value := "0"; error := None |} /\
  computeValue host (computedColumn divide x x) row
    = if isZero a then {| value := ""; error := Some "Divide by zero" |}
      else {| value := "1"; error := None |}.
Proof.
  intros Hx Hrow Ha.
  destruct (toNumberLike_wellFormed _ _ Ha) as [Hwf Hfin].
  destruct (toNumberLike_binary64 _ _ Ha) as [Hb _].
  split.
  - rewrite (computeValue_subtract host x x row a a); try done; [|by rewrite Hrow..].
    pose proof (sub_swap a a Hfin Hfin) as H. rewrite Z.eqb_refl in H.
    destruct H as [-> _]. done.
  - unfold computeValue. simpl. destruct x; [done|]. simpl. rewrite Hrow. simpl.
    rewrite Ha, (strictEq_zero a Hwf Hfin).
    destruct a as [s| | |s m e]; try done. simpl isZero. cbv iota.
    f_equal. unfold div. rewrite xorb_nilpotent.
    destruct (binary64_representable s m e Hb) as [_ Hpos].
    destruct (numberValue_exact false (units m e) (units m e) (2 ^ 1074))
      as (m' & e' & -> & Hu & _).
    + done.
    + done.
    + exists 1, 1074. split; [done|]. split; [split; [lia|reflexivity]|lia].
    + split; reflexivity.
    + unfold scaled. apply Z.mul_comm.
    + by apply toString_one.
Qed.

Lemma same_input_twice_witness :
  computeValue utcHost (computedColumn subtract "a" "a") (rowAB "2.5" "4")
    = {| value := "0"; error := None |} /\
  computeValue utcHost (computedColumn divide "a" "a") (rowAB "2.5" "4")
    = {| value := "1"; error := None |}.
Proof.
  assert (Ha : toNumberLike "2.5" = Some (S754_finite false 5629499534213120 (-51)))
    by (vm_compute; reflexivity).
  exact (same_input_twice utcHost "a" "2.5" (rowAB "2.5" "4") _
           ltac:(discriminate) ltac:(reflexivity) Ha).
Defined.

(** ** The two validators *)

Lemma toNumberLike_kept v :
  trim v = v -> v <> "" -> allChars keptChar v = true ->
  toNumberLike v = if isFinite (Number v) then Some (Number v) else None.
Proof.
  intros Ht Hne Hall. unfold toNumberLike. rewrite Ht.
  rewrite (removeAll_none numberNoise v Hall). by destruct v.
Qed.

(** X7.  On a column of the schema builder the validator of the builder
    and the validator of the workbook give the same verdict: for every
    text on a text, date or enum column, and on a number, currency or
    percent column for every text that, trimmed, has no currency sign,
    comma, percent sign or white space. *)
Theorem validators_agree (host : Host) (spec : DataGrid.ColumnSpec) (raw : string) :
  (isNumeric (type (asColumnDef spec)) = true ->
   allChars keptChar (trim raw) = true) ->
  DataGrid.validateCell host spec raw = validateCell host (asColumnDef spec) raw.
Proof.
  intros Hkept. unfold DataGrid.validateCell, validateCell.
  set (v := trim raw) in *.
  assert (Ht : trim v = v) by apply trim_idem.
  destruct spec as [i n ty req d ev].
  cbv [asColumnDef workbookType ColumnPanel.type ColumnPanel.required
       ColumnPanel.enumValues DataGrid.type DataGrid.required DataGrid.enumValues
       isNumeric] in *.
  destruct (req && (String.length v =? 0)%nat) eqn:E1.
  { by destruct ty. }
  destruct (String.length v =? 0)%nat eqn:E2.
  { by destruct ty. }
  assert (Hne : v <> "").
  { intros E. rewrite E in E2. done. }
  destruct ty; cbv iota beta.
  - (* date *)
    unfold toDateLike. rewrite Ht.
    destruct (isEmpty v) eqn:E; [by apply isEmpty_true in E|].
    by destruct (newDate host v).
  - done.
  - (* number *)
    rewrite (toNumberLike_kept v Ht Hne (Hkept eq_refl)).
    by destruct (isFinite (Number v)).
  - (* currency *)
    specialize (Hkept eq_refl).
    rewrite (toNumberLike_kept v Ht Hne Hkept).
    rewrite removeAll_none.
    + by destruct (isFinite (Number v)).
    + revert Hkept. apply allChars_impl. intros c. unfold keptChar, numberNoise.
      by destruct (c =? "$")%char, (c =? ",")%char.
  - (* percent *)
    specialize (Hkept eq_refl).
    rewrite (toNumberLike_kept v Ht Hne Hkept).
    rewrite removeAll_none.
    + by destruct (isFinite (Number v)).
    + revert Hkept. apply allChars_impl. intros c. unfold keptChar, numberNoise.
      by destruct (c =? "$")%char, (c =? ",")%char, (c =? "%")%char.
  - done.
Qed.

Lemma validators_agree_witness :
  DataGrid.validateCell utcHost (builderColumn DataGrid.percent true) " 1001 "
    = validateCell utcHost (asColumnDef (builderColumn DataGrid.percent true)) " 1001 ".
Proof.
  apply (validators_agree utcHost (builderColumn DataGrid.percent true) " 1001 ").
  intros _. reflexivity.
Defined.

End EvaluatorProperties.
